(** * telegram_to_markdown: a shallow embedding and its properties

    The converter reads a Telegram chat export (a JSON document loaded with
    [json.load]) and renders it as Markdown.  Python values are embedded as
    the inductive type [json]; Python exceptions as the [Raise] branch of
    [outcome]; the functions of [telegram_to_markdown.py] keep their names. *)

From Stdlib Require Import List ZArith NArith Bool Ascii String Lia.
From Stdlib Require Import Sorted Permutation.
Import ListNotations.

Set Implicit Arguments.
Set Warnings "-register-all".
Local Open Scope Z_scope.

(** ** Python strings

    A Python [str] is a sequence of Unicode code points: [len] and slicing
    count code points, and [<] compares code point by code point. *)

Definition pystr := list N.

(** An ASCII literal of the source, as code points. *)
Definition u (s : string) : pystr :=
  map N_of_ascii (list_ascii_of_string s).

(** The three non-ASCII characters of the source's literals. *)
Definition REPLY_ARROW : N := 8617.      (* U+21A9 *)
Definition FORWARD_ARROW : N := 8618.    (* U+21AA *)
Definition PAPERCLIP : N := 128206.      (* U+1F4CE *)

Definition NL : N := 10.
Definition SP : N := 32.

Definition str_eqb (a b : pystr) : bool :=
  if list_eq_dec N.eq_dec a b then true else false.

(** [s.startswith(p)] *)
Fixpoint startswith (s p : pystr) : bool :=
  match p, s with
  | [], _ => true
  | _ :: _, [] => false
  | c :: p', d :: s' => N.eqb c d && startswith s' p'
  end.

(** [p in s] for two strings: substring test. *)
Fixpoint str_contains (s p : pystr) : bool :=
  startswith s p ||
  match s with
  | [] => false
  | _ :: s' => str_contains s' p
  end.

(** [s.replace(old, new)] for a non-empty [old]: left-to-right,
    non-overlapping.  [skip] counts the characters of a match still to be
    dropped. *)
Fixpoint replace_from (old new : pystr) (skip : nat) (s : pystr) : pystr :=
  match s with
  | [] => []
  | c :: s' =>
      match skip with
      | S k => replace_from old new k s'
      | O =>
          if startswith s old
          then new ++ replace_from old new (Nat.pred (List.length old)) s'
          else c :: replace_from old new O s'
      end
  end.

Definition str_replace (s old new : pystr) : pystr :=
  replace_from old new O s.

(** Code points for which [str.isspace] holds; [str.strip] removes them at
    both ends. *)
Definition isspace (c : N) : bool :=
  ((9 <=? c) && (c <=? 13) || (28 <=? c) && (c <=? 32) ||
   (c =? 133) || (c =? 160) || (c =? 5760) ||
   (8192 <=? c) && (c <=? 8202) ||
   (c =? 8232) || (c =? 8233) || (c =? 8239) || (c =? 8287) ||
   (c =? 12288))%N.

Fixpoint lstrip (s : pystr) : pystr :=
  match s with
  | c :: s' => if isspace c then lstrip s' else s
  | [] => []
  end.

Definition str_strip (s : pystr) : pystr :=
  rev (lstrip (rev (lstrip s))).

(** [sep.join(parts)] on strings. *)
Fixpoint join (sep : pystr) (parts : list pystr) : pystr :=
  match parts with
  | [] => []
  | [p] => p
  | p :: rest => p ++ sep ++ join sep rest
  end.

(** Lexicographic comparison by code point, as [str.__lt__]. *)
Definition str_compare (a b : pystr) : comparison :=
  list_compare N.compare a b.

Definition str_ltb (a b : pystr) : bool :=
  match str_compare a b with Lt => true | _ => false end.

Definition str_le (a b : pystr) : Prop := str_compare a b <> Gt.

(** Decimal digits, for [str(int)]. *)
Fixpoint uint_digits (d : Decimal.uint) : pystr :=
  match d with
  | Decimal.Nil => []
  | Decimal.D0 r => 48%N :: uint_digits r
  | Decimal.D1 r => 49%N :: uint_digits r
  | Decimal.D2 r => 50%N :: uint_digits r
  | Decimal.D3 r => 51%N :: uint_digits r
  | Decimal.D4 r => 52%N :: uint_digits r
  | Decimal.D5 r => 53%N :: uint_digits r
  | Decimal.D6 r => 54%N :: uint_digits r
  | Decimal.D7 r => 55%N :: uint_digits r
  | Decimal.D8 r => 56%N :: uint_digits r
  | Decimal.D9 r => 57%N :: uint_digits r
  end.

Definition N_digits (n : N) : pystr := uint_digits (N.to_uint n).

Definition nat_to_str (n : nat) : pystr := N_digits (N.of_nat n).

Definition int_to_str (z : Z) : pystr :=
  match z with
  | Zneg p => u "-" ++ N_digits (Npos p)
  | _ => N_digits (Z.to_N z)
  end.

(** Truth value of a string. *)
Definition nonempty (s : pystr) : bool :=
  match s with [] => false | _ => true end.

(** ** Exceptions *)

Inductive exn := TypeError | AttributeError | ValueError | KeyError.

Inductive outcome (A : Type) : Type :=
| Ok (a : A)
| Raise (e : exn).
Arguments Ok {A} a.
Arguments Raise {A} e.

Definition bind {A B} (r : outcome A) (k : A -> outcome B) : outcome B :=
  match r with
  | Ok a => k a
  | Raise e => Raise e
  end.

Declare Scope py_scope.
Delimit Scope py_scope with py.
Notation "x <- r ;; k" := (bind r (fun x => k))
  (at level 61, r at next level, right associativity) : py_scope.
Local Open Scope py_scope.

Definition returns {A} (r : outcome A) : Prop := exists a, r = Ok a.

Definition is_ok {A} (r : outcome A) : bool :=
  match r with Ok _ => true | Raise _ => false end.

(** ** JSON values as Python objects

    [json.load] yields [None], [bool], [int], [float], [str], [list] and
    [dict] (string keys, insertion order kept).  A [float] is a binary64
    number, held by its exact value [(-1)^neg * mant * 2^exp2]: a number
    written with a fraction or an exponent is read as the nearest such
    value, so that [1e23] is not [10**23].  The [NaN] and [Infinity]
    literals, which are not JSON, are outside the model. *)

Record pyfloat := PyFloat { fl_neg : bool; fl_mant : N; fl_exp2 : Z }.

Inductive json :=
| JNull
| JBool (b : bool)
| JInt (z : Z)
| JFloat (f : pyfloat)
| JStr (s : pystr)
| JList (l : list json)
| JObj (d : list (pystr * json)).

(** A Python [dict] with string keys. *)
Definition obj := list (pystr * json).

Fixpoint lookup (k : pystr) (d : obj) : option json :=
  match d with
  | [] => None
  | (k', v) :: d' => if str_eqb k k' then Some v else lookup k d'
  end.

(** [d.get(k, default)] *)
Definition get (d : obj) (k : string) (default : json) : json :=
  match lookup (u k) d with
  | Some v => v
  | None => default
  end.

(** [k in d] *)
Definition has_key (k : string) (d : obj) : bool :=
  match lookup (u k) d with Some _ => true | None => false end.

(** [v == 'literal'] *)
Definition eq_str (v : json) (s : string) : bool :=
  match v with
  | JStr t => str_eqb t (u s)
  | _ => false
  end.

(** Truth value of an object, as tested by [if], [and], [or], [not]. *)
Definition truthy (v : json) : bool :=
  match v with
  | JNull => false
  | JBool b => b
  | JInt z => negb (z =? 0)
  | JFloat f => negb (fl_mant f =? 0)%N
  | JStr s => match s with [] => false | _ => true end
  | JList l => match l with [] => false | _ => true end
  | JObj d => match d with [] => false | _ => true end
  end.

(** [a or b] *)
Definition py_or (a b : json) : json := if truthy a then a else b.

(** ** Numbers

    [bool], [int] and [float] compare with each other by their exact
    value: a number is viewed as [mantissa * 2^exp2]. *)

Definition float_mantissa (f : pyfloat) : Z :=
  if fl_neg f then - Z.of_N (fl_mant f) else Z.of_N (fl_mant f).

Definition as_number (v : json) : option (Z * Z) :=
  match v with
  | JBool b => Some (Z.b2z b, 0)
  | JInt z => Some (z, 0)
  | JFloat f => Some (float_mantissa f, fl_exp2 f)
  | _ => None
  end.

Definition num_compare (x y : Z * Z) : comparison :=
  let e := Z.min (snd x) (snd y) in
  (fst x * 2 ^ (snd x - e)) ?= (fst y * 2 ^ (snd y - e)).

Definition num_eqb (x y : Z * Z) : bool :=
  match num_compare x y with Eq => true | _ => false end.

Definition num_ltb (x y : Z * Z) : bool :=
  match num_compare x y with Lt => true | _ => false end.

(** [list] and [dict] are unhashable: using one as a [dict] key or [set]
    element raises [TypeError]. *)
Definition hashable (v : json) : bool :=
  match v with
  | JList _ | JObj _ => false
  | _ => true
  end.

(** [==] on hashable values, which is how [dict] and [set] tell keys apart:
    [1 == 1.0 == True]. *)
Definition key_eq (a b : json) : bool :=
  match as_number a, as_number b with
  | Some x, Some y => num_eqb x y
  | None, None =>
      match a, b with
      | JNull, JNull => true
      | JStr s, JStr t => str_eqb s t
      | _, _ => false
      end
  | _, _ => false
  end.

(** [==] on arbitrary values: element-wise on lists, key-wise on dicts. *)
Fixpoint py_eq (a b : json) : bool :=
  match a, b with
  | JList l, JList m =>
      (fix all2 (l m : list json) : bool :=
         match l, m with
         | [], [] => true
         | x :: l', y :: m' => py_eq x y && all2 l' m'
         | _, _ => false
         end) l m
  | JObj d, JObj e =>
      Nat.eqb (List.length d) (List.length e) &&
      forallb (fun kv => match kv with
                         | (k, v) => match lookup k e with
                                     | Some w => py_eq v w
                                     | None => false
                                     end
                         end) d
  | JList _, _ | JObj _, _ => false
  | _, _ => key_eq a b
  end.

(** [a < b].  Numbers compare by value, strings by code point, lists at
    their first differing element; any other pair raises [TypeError]. *)
Fixpoint py_lt (a b : json) : outcome bool :=
  match a, b with
  | JStr s, JStr t => Ok (str_ltb s t)
  | JList l, JList m =>
      (fix first_diff (l m : list json) : outcome bool :=
         match l, m with
         | x :: l', y :: m' => if py_eq x y then first_diff l' m' else py_lt x y
         | [], _ :: _ => Ok true
         | _, [] => Ok false
         end) l m
  | _, _ =>
      match as_number a, as_number b with
      | Some x, Some y => Ok (num_ltb x y)
      | _, _ => Raise TypeError
      end
  end.

(** [min(l)]: the first smallest element. *)
Fixpoint min_from (best : json) (l : list json) : outcome json :=
  match l with
  | [] => Ok best
  | item :: l' =>
      lt <- py_lt item best ;;
      min_from (if lt : bool then item else best) l'
  end.

Definition py_min (l : list json) : outcome json :=
  match l with
  | [] => Raise ValueError
  | x :: l' => min_from x l'
  end.

(** [max(l)]: the first largest element; [item > best] is [best < item]. *)
Fixpoint max_from (best : json) (l : list json) : outcome json :=
  match l with
  | [] => Ok best
  | item :: l' =>
      gt <- py_lt best item ;;
      max_from (if gt : bool then item else best) l'
  end.

Definition py_max (l : list json) : outcome json :=
  match l with
  | [] => Raise ValueError
  | x :: l' => max_from x l'
  end.

(** [sorted(s)] on the elements of a set (hashable, pairwise different): a
    stable insertion sort on [<]. *)
Fixpoint insert_sorted (x : json) (l : list json) : outcome (list json) :=
  match l with
  | [] => Ok [x]
  | y :: l' =>
      lt <- py_lt y x ;;
      if lt : bool
      then (r <- insert_sorted x l' ;; Ok (y :: r))
      else Ok (x :: l)
  end.

Fixpoint py_sorted (l : list json) : outcome (list json) :=
  match l with
  | [] => Ok []
  | x :: l' => s <- py_sorted l' ;; insert_sorted x s
  end.

(** A [set]: its elements without repetition, in insertion order. *)
Definition pyset := list json.

Definition set_add (s : pyset) (x : json) : outcome pyset :=
  if hashable x
  then Ok (if existsb (key_eq x) s then s else s ++ [x])
  else Raise TypeError.

(** ** [str()] and [repr()]

    [repr(float)]: the digits of the shortest decimal that reads back as
    the same float, and the nearest to it among the shortest; in positional
    notation when the decimal point falls within [-4 < decpt <= 16], in
    exponent notation otherwise. *)

(** The float as the format stores it: 53 bits of mantissa where the
    exponent allows, fewer at the bottom of the range. *)
Definition float_normal (m : N) (e : Z) : Z * Z :=
  let low := Z.log2 (Z.land (Z.of_N m) (- Z.of_N m)) in
  let odd := Z.of_N m / 2 ^ low in
  let k := Z.max 0 (Z.min (52 - Z.log2 odd) (e + low + 1074)) in
  (odd * 2 ^ k, e + low - k).

(** [c * 10^q] against [x * 2^e]. *)
Definition decimal_compare (c q x e : Z) : comparison :=
  (c * 10 ^ Z.max q 0 * 2 ^ Z.max (- e) 0) ?=
  (x * 2 ^ Z.max e 0 * 10 ^ Z.max (- q) 0).

(** The largest [k] with [10^k <= m * 2^e], from an estimate below it. *)
Fixpoint raise_exponent (fuel : nat) (m e k : Z) : Z :=
  match fuel with
  | O => k
  | S fuel' =>
      match decimal_compare 1 (k + 1) m e with
      | Gt => k
      | _ => raise_exponent fuel' m e (k + 1)
      end
  end.

Definition decimal_exponent (m e : Z) : Z :=
  raise_exponent 8 m e ((Z.log2 m + e) * 30103 / 100000 - 2).

(** Whether [c * 10^q] reads back as the float [m * 2^e]: it lies between
    the midpoints to the two neighbouring floats, which are themselves read
    as [m * 2^e] when [m] is even. *)
Definition reads_back (m e c q : Z) : bool :=
  let below := if (m =? 2 ^ 52) && (-1074 <? e) then 1 else 2 in
  let closed := Z.even m in
  match decimal_compare c q (4 * m - below) (e - 2) with
  | Gt => true
  | Eq => closed
  | Lt => false
  end &&
  match decimal_compare c q (4 * m + 2) (e - 2) with
  | Lt => true
  | Eq => closed
  | Gt => false
  end.

(** With [n] digits and more, the first decimal found that reads back: of
    the two decimals of [n] digits around the float, the nearer one. *)
Fixpoint shortest_from (fuel : nat) (m e k n : Z) : Z * Z :=
  let q := k - n + 1 in
  let lo := (m * 2 ^ Z.max e 0 * 10 ^ Z.max (- q) 0) /
            (2 ^ Z.max (- e) 0 * 10 ^ Z.max q 0) in
  let hi := lo + 1 in
  match fuel with
  | O => (lo, q)
  | S fuel' =>
      match reads_back m e lo q, reads_back m e hi q with
      | true, true =>
          match decimal_compare (2 * lo + 1) q (2 * m) e with
          | Gt => (lo, q)
          | Lt => (hi, q)
          | Eq => if Z.even lo then (lo, q) else (hi, q)
          end
      | true, false => (lo, q)
      | false, true => (hi, q)
      | false, false => shortest_from fuel' m e k (n + 1)
      end
  end.

Definition shortest_decimal (mant : N) (exp2 : Z) : N * Z :=
  let (m, e) := float_normal mant exp2 in
  let (c, q) := shortest_from 17 m e (decimal_exponent m e) 1 in
  (Z.to_N c, q).

Fixpoint strip_trailing_zeros (fuel : nat) (d : N) (e : Z) : N * Z :=
  match fuel with
  | O => (d, e)
  | S fuel' =>
      if ((d mod 10 =? 0) && negb (d =? 0))%N
      then strip_trailing_zeros fuel' (d / 10)%N (e + 1)
      else (d, e)
  end.

Definition zeros (n : Z) : pystr := repeat 48%N (Z.to_nat n).

Definition exponent_digits (e : Z) : pystr :=
  let ds := N_digits (Z.to_N (Z.abs e)) in
  (if e <? 0 then u "-" else u "+") ++
  (if (List.length ds <? 2)%nat then u "0" ++ ds else ds).

Definition float_repr (f : pyfloat) : pystr :=
  let sign := if fl_neg f then u "-" else [] in
  if (fl_mant f =? 0)%N then sign ++ u "0.0" else
  let (c, q) := shortest_decimal (fl_mant f) (fl_exp2 f) in
  let (d, e) := strip_trailing_zeros (N.to_nat (N.size c)) c q in
  let ds := N_digits d in
  let n := Z.of_nat (List.length ds) in
  let decpt := n + e in
  sign ++
  if (-4 <? decpt) && (decpt <=? 16) then
    if decpt <=? 0 then u "0." ++ zeros (- decpt) ++ ds
    else if n <=? decpt then ds ++ zeros (decpt - n) ++ u ".0"
    else firstn (Z.to_nat decpt) ds ++ u "." ++ skipn (Z.to_nat decpt) ds
  else
    firstn 1 ds ++
    (if 1 <? n then u "." ++ skipn 1 ds else []) ++
    u "e" ++ exponent_digits (decpt - 1).

(** The Python runtime the converter calls into.  [fromisoformat] is
    [datetime.fromisoformat], [None] standing for its [ValueError];
    [strftime] is [dt.strftime('%Y-%m-%d %H:%M:%S')]; [str_title] is
    [str.title];
    [isprintable] is [str.isprintable] on one non-ASCII code point, which
    [repr] consults. *)
Class Runtime := {
  datetime : Type;
  fromisoformat : pystr -> option datetime;
  strftime : datetime -> pystr;
  str_title : pystr -> pystr;
  isprintable : N -> bool
}.

Definition hex_digit (n : N) : N :=
  (if n <? 10 then 48 + n else 87 + n)%N.

(** [width] lower-case hexadecimal digits of [n]. *)
Fixpoint hex (width : nat) (n : N) : pystr :=
  match width with
  | O => []
  | S w => hex w (n / 16)%N ++ [hex_digit (n mod 16)%N]
  end.

Section Printing.
Context {rt : Runtime}.

Definition QUOTE : N := 39.
Definition DQUOTE : N := 34.
Definition BACKSLASH : N := 92.

Definition mem_char (c : N) (s : pystr) : bool := existsb (N.eqb c) s.

Definition repr_char (quote c : N) : pystr :=
  (if (c =? quote) || (c =? BACKSLASH) then [BACKSLASH; c]
   else if c =? 9 then u "\t"
   else if c =? 10 then u "\n"
   else if c =? 13 then u "\r"
   else if (c <? 32) || (c =? 127) then u "\x" ++ hex 2 c
   else if c <? 127 then [c]
   else if isprintable c then [c]
   else if c <=? 255 then u "\x" ++ hex 2 c
   else if c <=? 65535 then u "\u" ++ hex 4 c
   else u "\U" ++ hex 8 c)%N.

(** [repr(s)] of a string: single quotes, unless the string has a single
    quote and no double quote. *)
Definition str_repr (s : pystr) : pystr :=
  let quote := if mem_char QUOTE s && negb (mem_char DQUOTE s)
               then DQUOTE else QUOTE in
  [quote] ++ List.concat (map (repr_char quote) s) ++ [quote].

Fixpoint py_repr (v : json) : pystr :=
  match v with
  | JNull => u "None"
  | JBool b => if b then u "True" else u "False"
  | JInt z => int_to_str z
  | JFloat f => float_repr f
  | JStr s => str_repr s
  | JList l => u "[" ++ join (u ", ") (map py_repr l) ++ u "]"
  | JObj d =>
      u "{" ++
      join (u ", ")
        (map (fun kv => match kv with
                        | (k, x) => str_repr k ++ u ": " ++ py_repr x
                        end) d) ++
      u "}"
  end.

(** [str(v)], which is what an f-string field [{v}] inserts. *)
Definition py_str (v : json) : pystr :=
  match v with
  | JStr s => s
  | _ => py_repr v
  end.
End Printing.

(** ** Operations on objects of unknown type *)

(** [try: body  except (caught): handler] *)
Definition try_except {A} (body : outcome A) (caught : exn -> bool)
    (handler : outcome A) : outcome A :=
  match body with
  | Ok a => Ok a
  | Raise e => if caught e then handler else Raise e
  end.

(** Looking up the method [get] on [v]: only a [dict] has it. *)
Definition as_dict (v : json) : outcome obj :=
  match v with
  | JObj d => Ok d
  | _ => Raise AttributeError
  end.

(** [v.replace(old, new)]: only a [str] has the method. *)
Definition call_replace (v : json) (old new : string) : outcome pystr :=
  match v with
  | JStr s => Ok (str_replace s (u old) (u new))
  | _ => Raise AttributeError
  end.

(** [v.startswith(p)] *)
Definition call_startswith (v : json) (p : string) : outcome bool :=
  match v with
  | JStr s => Ok (startswith s (u p))
  | _ => Raise AttributeError
  end.

(** [a + b] where one operand is a [str]: both must be. *)
Definition str_add (a b : json) : outcome pystr :=
  match a, b with
  | JStr s, JStr t => Ok (s ++ t)
  | _, _ => Raise TypeError
  end.

(** [len(v)] *)
Definition py_len (v : json) : outcome nat :=
  match v with
  | JList l => Ok (List.length l)
  | JStr s => Ok (List.length s)
  | JObj d => Ok (List.length d)
  | _ => Raise TypeError
  end.

(** [for x in v]: the elements of a list, the characters of a string, the
    keys of a dict. *)
Definition py_iter (v : json) : outcome (list json) :=
  match v with
  | JList l => Ok l
  | JStr s => Ok (map (fun c => JStr [c]) s)
  | JObj d => Ok (map (fun kv => JStr (fst kv)) d)
  | _ => Raise TypeError
  end.

(** ['k' in v] *)
Definition contains_str (k : string) (v : json) : outcome bool :=
  match v with
  | JObj d => Ok (has_key k d)
  | JStr s => Ok (str_contains s (u k))
  | JList l => Ok (existsb (fun x => eq_str x k) l)
  | _ => Raise TypeError
  end.

(** [sep.join(parts)]: every part must be a [str]. *)
Fixpoint strings_of (parts : list json) : outcome (list pystr) :=
  match parts with
  | [] => Ok []
  | JStr s :: rest => ss <- strings_of rest ;; Ok (s :: ss)
  | _ :: _ => Raise TypeError
  end.

Definition str_join (sep : pystr) (parts : list json) : outcome pystr :=
  ss <- strings_of parts ;; Ok (join sep ss).

(** ** The reply index: a [dict] from message identifier to message *)

Definition index := list (json * obj).

Fixpoint index_find (k : json) (d : index) : option obj :=
  match d with
  | [] => None
  | (k', v) :: d' => if key_eq k k' then Some v else index_find k d'
  end.

(** [k in d] *)
Definition index_mem (k : json) (d : index) : outcome bool :=
  if hashable k
  then Ok (match index_find k d with Some _ => true | None => false end)
  else Raise TypeError.

Fixpoint index_update (k : json) (v : obj) (d : index) : index :=
  match d with
  | [] => [(k, v)]
  | (k', v') :: d' =>
      if key_eq k k' then (k', v) :: d' else (k', v') :: index_update k v d'
  end.

(** [d[k]] *)
Definition index_get (d : index) (k : json) : outcome obj :=
  if hashable k
  then match index_find k d with
       | Some v => Ok v
       | None => Raise KeyError
       end
  else Raise TypeError.

(** [d[k] = v] *)
Definition index_set (d : index) (k : json) (v : obj) : outcome index :=
  if hashable k then Ok (index_update k v d) else Raise TypeError.

(** [d.get(k, default)] on a [dict] whose keys are string literals. *)
Definition table_get (d : list (string * pystr)) (k : json) (default : pystr)
    : outcome pystr :=
  if hashable k
  then Ok (match find (fun kv => eq_str k (fst kv)) d with
           | Some kv => snd kv
           | None => default
           end)
  else Raise TypeError.

(** ** The converter *)

Section Converter.
Context {rt : Runtime}.

(** [format_timestamp], lines 22-28. *)
Definition format_timestamp (date_str : json) : outcome json :=
  try_except
    (s <- call_replace date_str "Z" "+00:00" ;;
     dt <- match fromisoformat s with
           | Some dt => Ok dt
           | None => Raise ValueError
           end ;;
     Ok (JStr (strftime dt)))
    (fun e => match e with
              | ValueError | AttributeError => true
              | _ => false
              end)
    (Ok date_str).

(** The body of the loop of [extract_text_content], lines 42-79: what one
    [item] appends to [result]. *)
Definition extract_item (result : list json) (item : json)
    : outcome (list json) :=
  match item with
  | JStr _ => Ok (result ++ [item])
  | JObj d =>
      let text := get d "text" (JStr []) in
      let item_type := get d "type" (JStr []) in
      if eq_str item_type "bold" then
        Ok (result ++ [JStr (u "**" ++ py_str text ++ u "**")])
      else if eq_str item_type "italic" then
        Ok (result ++ [JStr (u "*" ++ py_str text ++ u "*")])
      else if eq_str item_type "code" then
        Ok (result ++ [JStr (u "`" ++ py_str text ++ u "`")])
      else if eq_str item_type "pre" then
        Ok (result ++ [JStr ([NL] ++ u "```" ++ [NL] ++ py_str text ++
                             [NL] ++ u "```" ++ [NL])])
      else if eq_str item_type "text_link" then
        let href := get d "href" (JStr []) in
        Ok (result ++ [JStr (u "[" ++ py_str text ++ u "](" ++
                             py_str href ++ u ")")])
      else if eq_str item_type "link" then
        Ok (result ++ [text])
      else if eq_str item_type "mention" || eq_str item_type "mention_name"
      then
        sw <- call_startswith text "@" ;;
        Ok (result ++ [if negb sw then JStr (u "@" ++ py_str text) else text])
      else if eq_str item_type "hashtag" then
        Ok (result ++ [text])
      else if eq_str item_type "email" then
        Ok (result ++ [text])
      else if eq_str item_type "phone" then
        Ok (result ++ [text])
      else if eq_str item_type "strikethrough" then
        Ok (result ++ [JStr (u "~~" ++ py_str text ++ u "~~")])
      else if eq_str item_type "underline" then
        Ok (result ++ [JStr (u "<u>" ++ py_str text ++ u "</u>")])
      else if eq_str item_type "spoiler" then
        Ok (result ++ [JStr (u "||" ++ py_str text ++ u "||")])
      else if eq_str item_type "custom_emoji" then
        Ok (result ++ [text])
      else
        Ok (result ++ [text])
  | _ => Ok result
  end.

Fixpoint extract_items (result : list json) (items : list json)
    : outcome (list json) :=
  match items with
  | [] => Ok result
  | item :: rest =>
      result' <- extract_item result item ;;
      extract_items result' rest
  end.

(** [extract_text_content], lines 31-82. *)
Definition extract_text_content (text_field : json) : outcome pystr :=
  match text_field with
  | JStr s => Ok s
  | JList items =>
      result <- extract_items [] items ;;
      str_join [] result
  | _ => Ok (if truthy text_field then py_str text_field else [])
  end.

(** [get_message_type_info], lines 85-138. *)
Definition get_message_type_info (message : obj) : outcome pystr :=
  let media_type := get message "media_type" JNull in
  if eq_str media_type "sticker" then
    let emoji := get message "sticker_emoji" (JStr []) in
    Ok (u "[Sticker " ++ py_str emoji ++ u "]")
  else if eq_str media_type "voice_message" then
    let duration := get message "duration_seconds" (JInt 0) in
    Ok (u "[Voice message - " ++ py_str duration ++ u "s]")
  else if eq_str media_type "video_message" then
    let duration := get message "duration_seconds" (JInt 0) in
    Ok (u "[Video message - " ++ py_str duration ++ u "s]")
  else if eq_str media_type "animation" then
    Ok (u "[GIF]")
  else if eq_str media_type "video_file" then
    Ok (u "[Video]")
  else if eq_str media_type "audio_file" then
    let title := get message "title" (JStr (u "Audio")) in
    let performer := get message "performer" (JStr []) in
    if truthy performer then
      Ok (u "[Audio: " ++ py_str performer ++ u " - " ++ py_str title ++
          u "]")
    else
      Ok (u "[Audio: " ++ py_str title ++ u "]")
  else if has_key "photo" message then
    Ok (u "[Photo]")
  else if has_key "file" message then
    let file_name :=
      get message "file_name" (get message "file" (JStr (u "File"))) in
    Ok (u "[File: " ++ py_str file_name ++ u "]")
  else if has_key "location_information" message then
    loc <- as_dict (get message "location_information" (JObj [])) ;;
    let lat := get loc "latitude" (JStr []) in
    let lon := get loc "longitude" (JStr []) in
    Ok (u "[Location: " ++ py_str lat ++ u ", " ++ py_str lon ++ u "]")
  else if has_key "contact_information" message then
    contact <- as_dict (get message "contact_information" (JObj [])) ;;
    first_sp <- str_add (get contact "first_name" (JStr []))
                  (JStr (u " ")) ;;
    name <- str_add (JStr first_sp) (get contact "last_name" (JStr [])) ;;
    let phone := get contact "phone_number" (JStr []) in
    Ok (u "[Contact: " ++ str_strip name ++ u " - " ++ py_str phone ++
        u "]")
  else if has_key "poll" message then
    poll <- as_dict (get message "poll" (JObj [])) ;;
    let question := get poll "question" (JStr (u "Poll")) in
    Ok (u "[Poll: " ++ py_str question ++ u "]")
  else
    Ok [].

(** [format_service_message], lines 141-163. *)
Definition format_service_message (message : obj) : outcome pystr :=
  let action := get message "action" (JStr []) in
  let actor := py_str (get message "actor"
                         (get message "from" (JStr (u "Someone")))) in
  let action_messages :=
    [ ("create_group"%string, u "*" ++ actor ++ u " created the group*");
      ("invite_members"%string,
         u "*" ++ actor ++ u " invited members to the group*");
      ("remove_members"%string,
         u "*" ++ actor ++ u " removed members from the group*");
      ("join_group_by_link"%string,
         u "*" ++ actor ++ u " joined the group via invite link*");
      ("leave_group"%string, u "*" ++ actor ++ u " left the group*");
      ("pin_message"%string, u "*" ++ actor ++ u " pinned a message*");
      ("edit_group_title"%string,
         u "*" ++ actor ++ u " changed the group title to " ++ [DQUOTE] ++
         py_str (get message "title" (JStr [])) ++ [DQUOTE] ++ u "*");
      ("edit_group_photo"%string,
         u "*" ++ actor ++ u " changed the group photo*");
      ("delete_group_photo"%string,
         u "*" ++ actor ++ u " deleted the group photo*");
      ("migrate_from_group"%string, u "*Group upgraded to supergroup*");
      ("migrate_to_supergroup"%string, u "*Group upgraded to supergroup*");
      ("phone_call"%string, u "*Phone call with " ++ actor ++ u "*");
      ("score_in_game"%string, u "*" ++ actor ++ u " scored in a game*");
      ("bot_allowed"%string, u "*Bot allowed by " ++ actor ++ u "*") ] in
  table_get action_messages action (u "*[" ++ py_str action ++ u "]*").

(** [build_message_index], lines 166-168: the dict comprehension, one
    message after the other; a later message with an equal identifier
    replaces the earlier one. *)
Fixpoint index_messages (acc : index) (messages : list json)
    : outcome index :=
  match messages with
  | [] => Ok acc
  | msg :: rest =>
      has_id <- contains_str "id" msg ;;
      if has_id : bool then
        m <- as_dict msg ;;
        acc' <- index_set acc (get m "id" JNull) m ;;
        index_messages acc' rest
      else index_messages acc rest
  end.

Definition build_message_index (messages : json) : outcome index :=
  msgs <- py_iter messages ;;
  index_messages [] msgs.

(** [format_message], lines 171-237, up to the final [join]: the list
    [lines]. *)
Definition format_message_lines (message : obj) (message_index : index)
    : outcome (list pystr) :=
  let lines : list pystr := [] in
  if eq_str (get message "type" JNull) "service" then
    timestamp <- format_timestamp (get message "date" (JStr [])) ;;
    service_text <- format_service_message message ;;
    let lines := lines ++ [u "> " ++ service_text] in
    let lines := lines ++ [u "> *" ++ py_str timestamp ++ u "*"] in
    let lines := lines ++ [[]] in
    Ok lines
  else
    let msg_id := get message "id" (JStr []) in
    let sender :=
      get message "from" (get message "actor" (JStr (u "Unknown"))) in
    timestamp <- format_timestamp (get message "date" (JStr [])) ;;
    let forwarded_from := get message "forwarded_from" JNull in
    let lines := lines ++ [u "### " ++ py_str sender] in
    let lines := lines ++ [u "*" ++ py_str timestamp ++ u "* | Message #" ++
                           py_str msg_id] in
    let lines := lines ++ [[]] in
    let reply_to_id := get message "reply_to_message_id" JNull in
    resolvable <- (if truthy reply_to_id
                   then index_mem reply_to_id message_index
                   else Ok false) ;;
    lines <- (if resolvable : bool then
                original <- index_get message_index reply_to_id ;;
                let original_sender :=
                  get original "from"
                    (get original "actor" (JStr (u "Unknown"))) in
                original_text <-
                  extract_text_content (get original "text" (JStr [])) ;;
                let original_text :=
                  if (100 <? List.length original_text)%nat
                  then firstn 100 original_text ++ u "..."
                  else original_text in
                let original_text := str_replace original_text [NL] [SP] in
                let lines :=
                  lines ++ [u "> **" ++ [REPLY_ARROW] ++ u " Reply to " ++
                            py_str original_sender ++ u ":** " ++
                            original_text] in
                Ok (lines ++ [[]])
              else Ok lines) ;;
    let lines :=
      if truthy forwarded_from
      then (lines ++ [u "> **" ++ [FORWARD_ARROW] ++ u " Forwarded from " ++
                      py_str forwarded_from ++ u "**"]) ++ [[]]
      else lines in
    text <- extract_text_content (get message "text" (JStr [])) ;;
    media_info <- get_message_type_info message ;;
    let lines :=
      if nonempty media_info
      then let lines := lines ++ [[PAPERCLIP] ++ u " " ++ media_info] in
           if nonempty text then lines ++ [[]] else lines
      else lines in
    let lines := if nonempty text then lines ++ [text] else lines in
    let lines :=
      if negb (nonempty text) && negb (nonempty media_info)
      then lines ++ [u "*[Empty message]*"]
      else lines in
    let lines := lines ++ [[]] in
    let lines := lines ++ [u "---"] in
    let lines := lines ++ [[]] in
    Ok lines.

Definition format_message (message : obj) (message_index : index)
    : outcome pystr :=
  lines <- format_message_lines message message_index ;;
  Ok (join [NL] lines).

(** [[m.get('date') for m in messages if m.get('date')]], line 264. *)
Fixpoint collect_dates (messages : list json) : outcome (list json) :=
  match messages with
  | [] => Ok []
  | m :: rest =>
      d <- as_dict m ;;
      let date := get d "date" JNull in
      dates <- collect_dates rest ;;
      Ok (if truthy date then date :: dates else dates)
  end.

(** The loop of lines 273-276. *)
Fixpoint collect_participants (participants : pyset) (messages : list json)
    : outcome pyset :=
  match messages with
  | [] => Ok participants
  | msg :: rest =>
      d <- as_dict msg ;;
      let sender := py_or (get d "from" JNull) (get d "actor" JNull) in
      participants' <- (if truthy sender
                        then set_add participants sender
                        else Ok participants) ;;
      collect_participants participants' rest
  end.

(** [generate_chat_header], lines 240-296, up to the final [join]. *)
Definition generate_chat_header_lines (chat_data : obj)
    : outcome (list pystr) :=
  let lines : list pystr := [] in
  let chat_name := get chat_data "name" (JStr (u "Telegram Chat")) in
  let chat_type := get chat_data "type" (JStr (u "unknown")) in
  let chat_id := get chat_data "id" (JStr []) in
  let lines := lines ++ [u "# " ++ py_str chat_name] in
  let lines := lines ++ [[]] in
  let lines := lines ++ [u "## Chat Details"] in
  let lines := lines ++ [[]] in
  let lines := lines ++ [u "| Property | Value |"] in
  let lines := lines ++ [u "|----------|-------|"] in
  let lines := lines ++ [u "| **Name** | " ++ py_str chat_name ++ u " |"] in
  spaced <- call_replace chat_type "_" " " ;;
  let lines := lines ++ [u "| **Type** | " ++ str_title spaced ++ u " |"] in
  let lines := lines ++ [u "| **ID** | " ++ py_str chat_id ++ u " |"] in
  let messages := get chat_data "messages" (JList []) in
  n <- py_len messages ;;
  let lines := lines ++ [u "| **Total Messages** | " ++ nat_to_str n ++
                         u " |"] in
  lines <- (if truthy messages then
              msgs <- py_iter messages ;;
              dates <- collect_dates msgs ;;
              if truthy (JList dates) then
                lo <- py_min dates ;;
                first_date <- format_timestamp lo ;;
                hi <- py_max dates ;;
                last_date <- format_timestamp hi ;;
                let lines := lines ++ [u "| **First Message** | " ++
                                       py_str first_date ++ u " |"] in
                Ok (lines ++ [u "| **Last Message** | " ++
                              py_str last_date ++ u " |"])
              else Ok lines
            else Ok lines) ;;
  msgs <- py_iter messages ;;
  participants <- collect_participants [] msgs ;;
  let lines :=
    if truthy (JList participants)
    then lines ++ [u "| **Participants** | " ++
                   nat_to_str (List.length participants) ++ u " |"]
    else lines in
  let lines := lines ++ [[]] in
  lines <- (if truthy (JList participants) then
              let lines := lines ++ [u "### Participants"] in
              let lines := lines ++ [[]] in
              ps <- py_sorted participants ;;
              let lines := lines ++ map (fun p => u "- " ++ py_str p) ps in
              Ok (lines ++ [[]])
            else Ok lines) ;;
  let lines := lines ++ [u "---"] in
  let lines := lines ++ [[]] in
  let lines := lines ++ [u "## Messages"] in
  let lines := lines ++ [[]] in
  Ok lines.

Definition generate_chat_header (chat_data : obj) : outcome pystr :=
  lines <- generate_chat_header_lines chat_data ;;
  Ok (join [NL] lines).

(** The loop of [convert_to_markdown], lines 310-312. *)
Fixpoint format_messages (output_parts : list pystr) (messages : list json)
    (message_index : index) : outcome (list pystr) :=
  match messages with
  | [] => Ok output_parts
  | message :: rest =>
      m <- as_dict message ;;
      formatted <- format_message m message_index ;;
      format_messages (output_parts ++ [formatted]) rest message_index
  end.

(** [convert_to_markdown], lines 299-314. *)
Definition convert_to_markdown (chat_data : obj) : outcome pystr :=
  let output_parts : list pystr := [] in
  header <- generate_chat_header chat_data ;;
  let output_parts := output_parts ++ [header] in
  let messages := get chat_data "messages" (JList []) in
  message_index <- build_message_index messages ;;
  msgs <- py_iter messages ;;
  output_parts <- format_messages output_parts msgs message_index ;;
  Ok (join [NL] output_parts).
End Converter.

(** ** A runtime for closed examples

    [iso_runtime] fixes the runtime on ASCII text, which is all the examples
    below use.  [datetime.fromisoformat] follows the grammar documented for
    Python 3.7 to 3.10,
    [YYYY-MM-DD[*HH[:MM[:SS[.fff[fff]]]][+HH:MM[:SS[.ffffff]]]]];
    [strftime] pads every field with zeros; [str.title] knows the ASCII
    letters; no code point above 126 counts as printable. *)

Module Iso.

Record datetime := DateTime {
  year : Z; month : Z; day : Z;
  hour : Z; minute : Z; second : Z; microsecond : Z;
  utcoffset : option Z   (* microseconds east of UTC *)
}.

Definition is_digit (c : N) : bool := ((48 <=? c) && (c <=? 57))%N.

(** Exactly [n] decimal digits at the head of [s]. *)
Fixpoint digits (n : nat) (acc : Z) (s : pystr) : option (Z * pystr) :=
  match n with
  | O => Some (acc, s)
  | S n' =>
      match s with
      | c :: s' =>
          if is_digit c
          then digits n' (10 * acc + (Z.of_N c - 48)) s'
          else None
      | [] => None
      end
  end.

Definition expect (c : N) (s : pystr) : option pystr :=
  match s with
  | d :: s' => if (c =? d)%N then Some s' else None
  | [] => None
  end.

Definition COLON : N := 58.
Definition DOT : N := 46.
Definition DASH : N := 45.
Definition PLUS : N := 43.

(** [.fff] or [.ffffff], then nothing. *)
Definition fraction (s : pystr) : option Z :=
  match s with
  | [] => Some 0
  | c :: s' =>
      if (c =? DOT)%N then
        match List.length s' with
        | 3%nat => match digits 3 0 s' with
                   | Some (f, _) => Some (f * 1000)
                   | None => None
                   end
        | 6%nat => match digits 6 0 s' with
                   | Some (f, _) => Some f
                   | None => None
                   end
        | _ => None
        end
      else None
  end.

(** [HH[:MM[:SS[.fff[fff]]]]], the whole of [s]. *)
Definition hh_mm_ss_ff (s : pystr) : option (Z * Z * Z * Z) :=
  match digits 2 0 s with
  | None => None
  | Some (h, []) => Some (h, 0, 0, 0)
  | Some (h, s1) =>
      match expect COLON s1 with
      | None => None
      | Some s2 =>
          match digits 2 0 s2 with
          | None => None
          | Some (m, []) => Some (h, m, 0, 0)
          | Some (m, s3) =>
              match expect COLON s3 with
              | None => None
              | Some s4 =>
                  match digits 2 0 s4 with
                  | None => None
                  | Some (sec, s5) =>
                      match fraction s5 with
                      | Some f => Some (h, m, sec, f)
                      | None => None
                      end
                  end
              end
          end
      end
  end.

(** The time up to the first sign, and what follows the sign. *)
Fixpoint split_sign (s : pystr) : pystr * option (bool * pystr) :=
  match s with
  | [] => ([], None)
  | c :: s' =>
      if (c =? PLUS)%N then ([], Some (false, s'))
      else if (c =? DASH)%N then ([], Some (true, s'))
      else let (t, z) := split_sign s' in (c :: t, z)
  end.

Definition DAY_US : Z := 24 * 3600 * 1000000.

Definition tz_offset (neg : bool) (s : pystr) : option Z :=
  match hh_mm_ss_ff s with
  | Some (h, m, sec, f) =>
      let us := ((h * 60 + m) * 60 + sec) * 1000000 + f in
      let abbreviated :=
        match List.length s with
        | 5%nat | 8%nat | 15%nat => false
        | _ => true
        end in
      if abbreviated || (DAY_US <=? us) then None
      else Some (if neg then - us else us)
  | None => None
  end.

Definition is_leap (y : Z) : bool :=
  (y mod 4 =? 0) && (negb (y mod 100 =? 0) || (y mod 400 =? 0)).

Definition days_in_month (y m : Z) : Z :=
  if m =? 2 then (if is_leap y then 29 else 28)
  else if (m =? 4) || (m =? 6) || (m =? 9) || (m =? 11) then 30
  else 31.

Definition valid (dt : datetime) : bool :=
  (1 <=? year dt) && (year dt <=? 9999) &&
  (1 <=? month dt) && (month dt <=? 12) &&
  (1 <=? day dt) && (day dt <=? days_in_month (year dt) (month dt)) &&
  (hour dt <=? 23) && (minute dt <=? 59) && (second dt <=? 59).

Definition checked (dt : datetime) : option datetime :=
  if valid dt then Some dt else None.

Definition time_of (y mo d : Z) (s : pystr) : option datetime :=
  let (t, z) := split_sign s in
  match hh_mm_ss_ff t with
  | None => None
  | Some (h, mi, sec, f) =>
      match z with
      | None => checked (DateTime y mo d h mi sec f None)
      | Some (neg, zs) =>
          match tz_offset neg zs with
          | Some off => checked (DateTime y mo d h mi sec f (Some off))
          | None => None
          end
      end
  end.

Definition fromisoformat (s : pystr) : option datetime :=
  match digits 4 0 s with
  | None => None
  | Some (y, s1) =>
      match expect DASH s1 with
      | None => None
      | Some s2 =>
          match digits 2 0 s2 with
          | None => None
          | Some (mo, s3) =>
              match expect DASH s3 with
              | None => None
              | Some s4 =>
                  match digits 2 0 s4 with
                  | None => None
                  | Some (d, []) => checked (DateTime y mo d 0 0 0 0 None)
                  | Some (d, _ :: t) => time_of y mo d t
                  end
              end
          end
      end
  end.

Definition pad (width : nat) (z : Z) : pystr :=
  let ds := N_digits (Z.to_N z) in
  repeat 48%N (width - List.length ds) ++ ds.

Definition strftime (dt : datetime) : pystr :=
  pad 4 (year dt) ++ u "-" ++ pad 2 (month dt) ++ u "-" ++ pad 2 (day dt) ++
  u " " ++ pad 2 (hour dt) ++ u ":" ++ pad 2 (minute dt) ++ u ":" ++
  pad 2 (second dt).

Definition is_upper (c : N) : bool := ((65 <=? c) && (c <=? 90))%N.
Definition is_lower (c : N) : bool := ((97 <=? c) && (c <=? 122))%N.

Fixpoint title_from (previous_is_cased : bool) (s : pystr) : pystr :=
  match s with
  | [] => []
  | c :: s' =>
      if is_upper c then
        (if previous_is_cased then (c + 32)%N else c) :: title_from true s'
      else if is_lower c then
        (if previous_is_cased then c else (c - 32)%N) :: title_from true s'
      else c :: title_from false s'
  end.

Definition str_title (s : pystr) : pystr := title_from false s.

End Iso.

Definition iso_runtime : Runtime :=
  {| datetime := Iso.datetime;
     fromisoformat := Iso.fromisoformat;
     strftime := Iso.strftime;
     str_title := Iso.str_title;
     isprintable := fun _ => false |}.


(** A string literal as an object. *)
Definition str (s : string) : json := JStr (u s).

(** * Vocabulary of the specification *)

Section Vocabulary.
Context {rt : Runtime}.

(** ** Timestamp formatter *)

Definition LETTER_Z : N := 90.

(** The normalisation in the words of the specification: a trailing [Z]
    becomes [+00:00]. *)
Definition normalize_trailing_Z (s : pystr) : pystr :=
  match rev s with
  | c :: r => if (c =? LETTER_Z)%N then rev r ++ u "+00:00" else s
  | [] => s
  end.

(** The formatter in the words of the specification. *)
Definition spec_format_timestamp (s : pystr) : pystr :=
  match fromisoformat (normalize_trailing_Z s) with
  | Some dt => strftime dt
  | None => s
  end.

(** What [str.replace('Z', '+00:00')] does: every [Z] becomes [+00:00]. *)
Definition normalize_every_Z (s : pystr) : pystr :=
  flat_map (fun c => if (c =? LETTER_Z)%N then u "+00:00" else [c]) s.

(** The formatter as a function: it has a value on every object. *)
Definition timestamp_of (date_str : json) : json :=
  match date_str with
  | JStr s =>
      match fromisoformat (normalize_every_Z s) with
      | Some dt => JStr (strftime dt)
      | None => date_str
      end
  | _ => date_str
  end.

(** ** Rich-text extractor *)

(** The elements the data model calls spans: a bare string or a mapping. *)
Definition is_span (item : json) : bool :=
  match item with
  | JStr _ | JObj _ => true
  | _ => false
  end.

(** The text a span carries before any markup is put around it. *)
Definition resolved_text (item : json) : json :=
  match item with
  | JObj d => get d "text" (JStr [])
  | _ => item
  end.

(** The rendered text of one element: what the loop body appends for it,
    joined as [extract_text_content] joins. *)
Definition span_text (item : json) : outcome pystr :=
  parts <- extract_item [] item ;;
  str_join [] parts.

(** ** Media classifier

    The rules of the specification, in its order of precedence. *)

Inductive media_kind :=
| Sticker | VoiceMessage | VideoMessage | Animation | VideoFile | AudioFile
| Photo | File | Location | Contact | Poll.

Definition precedence : list media_kind :=
  [Sticker; VoiceMessage; VideoMessage; Animation; VideoFile; AudioFile;
   Photo; File; Location; Contact; Poll].

(** When a rule applies: the first six look at the media type, the last
    five at the presence of a field. *)
Definition rule_matches (message : obj) (k : media_kind) : bool :=
  let media_type := get message "media_type" JNull in
  match k with
  | Sticker => eq_str media_type "sticker"
  | VoiceMessage => eq_str media_type "voice_message"
  | VideoMessage => eq_str media_type "video_message"
  | Animation => eq_str media_type "animation"
  | VideoFile => eq_str media_type "video_file"
  | AudioFile => eq_str media_type "audio_file"
  | Photo => has_key "photo" message
  | File => has_key "file" message
  | Location => has_key "location_information" message
  | Contact => has_key "contact_information" message
  | Poll => has_key "poll" message
  end.

(** The bracketed tag of each rule. *)
Definition rule_tag (message : obj) (k : media_kind) : outcome pystr :=
  match k with
  | Sticker =>
      Ok (u "[Sticker " ++ py_str (get message "sticker_emoji" (JStr [])) ++
          u "]")
  | VoiceMessage =>
      Ok (u "[Voice message - " ++
          py_str (get message "duration_seconds" (JInt 0)) ++ u "s]")
  | VideoMessage =>
      Ok (u "[Video message - " ++
          py_str (get message "duration_seconds" (JInt 0)) ++ u "s]")
  | Animation => Ok (u "[GIF]")
  | VideoFile => Ok (u "[Video]")
  | AudioFile =>
      let title := py_str (get message "title" (JStr (u "Audio"))) in
      let performer := get message "performer" (JStr []) in
      Ok (u "[Audio: " ++
          (if truthy performer then py_str performer ++ u " - " else []) ++
          title ++ u "]")
  | Photo => Ok (u "[Photo]")
  | File =>
      let name :=
        match lookup (u "file_name") message, lookup (u "file") message with
        | Some n, _ => n
        | None, Some path => path
        | None, None => JStr (u "File")
        end in
      Ok (u "[File: " ++ py_str name ++ u "]")
  | Location =>
      loc <- as_dict (get message "location_information" (JObj [])) ;;
      Ok (u "[Location: " ++ py_str (get loc "latitude" (JStr [])) ++ u ", " ++
          py_str (get loc "longitude" (JStr [])) ++ u "]")
  | Contact =>
      contact <- as_dict (get message "contact_information" (JObj [])) ;;
      first_sp <- str_add (get contact "first_name" (JStr [])) (str " ") ;;
      name <- str_add (JStr first_sp) (get contact "last_name" (JStr [])) ;;
      Ok (u "[Contact: " ++ str_strip name ++ u " - " ++
          py_str (get contact "phone_number" (JStr [])) ++ u "]")
  | Poll =>
      poll <- as_dict (get message "poll" (JObj [])) ;;
      Ok (u "[Poll: " ++ py_str (get poll "question" (JStr (u "Poll"))) ++
          u "]")
  end.

(** First match wins. *)
Definition classify (message : obj) : option media_kind :=
  find (rule_matches message) precedence.

(** ** Message renderer *)

Definition is_service (message : obj) : bool :=
  eq_str (get message "type" JNull) "service".

(** The name a message is attributed to: its sender, else its actor, else
    [Unknown]. *)
Definition sender_of (message : obj) : json :=
  match lookup (u "from") message with
  | Some sender => sender
  | None =>
      match lookup (u "actor") message with
      | Some actor => actor
      | None => str "Unknown"
      end
  end.

Definition newline_to_space (c : N) : N := if (c =? NL)%N then SP else c.

(** The excerpt of an original text [t] in a reply quote. *)
Definition reply_excerpt (t : pystr) : pystr :=
  if (100 <? List.length t)%nat
  then map newline_to_space (firstn 100 t) ++ u "..."
  else map newline_to_space t.

(** The block-quoted reply line. *)
Definition reply_quote (original : obj) (t : pystr) : pystr :=
  u "> **" ++ [REPLY_ARROW] ++ u " Reply to " ++ py_str (sender_of original) ++
  u ":** " ++ reply_excerpt t.

(** The three lines every content block starts with. *)
Definition heading_lines (message : obj) : list pystr :=
  [ u "### " ++ py_str (sender_of message);
    u "*" ++ py_str (timestamp_of (get message "date" (JStr []))) ++
    u "* | Message #" ++ py_str (get message "id" (JStr []));
    [] ].

(** The same three lines as they stand in the block, each with its
    newline. *)
Definition heading_text (message : obj) : pystr :=
  (u "### " ++ py_str (sender_of message)) ++ [NL] ++
  (u "*" ++ py_str (timestamp_of (get message "date" (JStr []))) ++
   u "* | Message #" ++ py_str (get message "id" (JStr []))) ++ [NL] ++
  [NL].

(** The reply block: two lines or none. *)
Definition reply_lines (message : obj) (message_index : index)
    : outcome (list pystr) :=
  let reply_to_id := get message "reply_to_message_id" JNull in
  resolvable <- (if truthy reply_to_id
                 then index_mem reply_to_id message_index
                 else Ok false) ;;
  if resolvable : bool then
    original <- index_get message_index reply_to_id ;;
    t <- extract_text_content (get original "text" (JStr [])) ;;
    Ok [reply_quote original t; []]
  else Ok [].

(** What follows the reply block: forward line, media tag, text, rule. *)
Definition body_lines (message : obj) : outcome (list pystr) :=
  let forwarded_from := get message "forwarded_from" JNull in
  text <- extract_text_content (get message "text" (JStr [])) ;;
  media_info <- get_message_type_info message ;;
  Ok ((if truthy forwarded_from
       then [u "> **" ++ [FORWARD_ARROW] ++ u " Forwarded from " ++
             py_str forwarded_from ++ u "**"; []]
       else []) ++
      (if nonempty media_info
       then ([PAPERCLIP] ++ u " " ++ media_info) ::
            (if nonempty text then [[]] else [])
       else []) ++
      (if nonempty text then [text] else []) ++
      (if negb (nonempty text) && negb (nonempty media_info)
       then [u "*[Empty message]*"]
       else []) ++
      [[]; u "---"; []]).

(** The message without one of its fields. *)
Definition dict_remove (k : string) (d : obj) : obj :=
  filter (fun kv => negb (str_eqb (u k) (fst kv))) d.

(** ** When a message renders

    The only fields whose type matters. *)

Definition is_str (v : json) : bool :=
  match v with JStr _ => true | _ => false end.

Definition is_dict (v : json) : bool :=
  match v with JObj _ => true | _ => false end.

Definition is_number (v : json) : bool :=
  match as_number v with Some _ => true | None => false end.

(** The span kinds whose text is put between markup, whatever its type. *)
Definition wraps_text (item_type : json) : bool :=
  existsb (eq_str item_type)
    ["bold"; "italic"; "code"; "pre"; "text_link"; "strikethrough";
     "underline"; "spoiler"]%string.

(** A mapping span of any other kind must carry a string. *)
Definition span_ok (item : json) : bool :=
  match item with
  | JObj d =>
      wraps_text (get d "type" (JStr [])) || is_str (get d "text" (JStr []))
  | _ => true
  end.

Definition text_ok (text_field : json) : bool :=
  match text_field with
  | JList items => forallb span_ok items
  | _ => true
  end.

(** A mention whose text is not a string: [text.startswith] fails on it. *)
Definition broken_mention (item : json) : bool :=
  match item with
  | JObj d =>
      (eq_str (get d "type" (JStr [])) "mention" ||
       eq_str (get d "type" (JStr [])) "mention_name") &&
      negb (is_str (get d "text" (JStr [])))
  | _ => false
  end.

(** The field a location, contact or poll tag is read from must be a
    mapping, and the two name parts of a contact strings. *)
Definition media_ok (message : obj) : bool :=
  match classify message with
  | Some Location => is_dict (get message "location_information" (JObj []))
  | Some Contact =>
      match get message "contact_information" (JObj []) with
      | JObj contact =>
          is_str (get contact "first_name" (JStr [])) &&
          is_str (get contact "last_name" (JStr []))
      | _ => false
      end
  | Some Poll => is_dict (get message "poll" (JObj []))
  | _ => true
  end.

(** A truthy reply reference must be hashable, and the text of the message
    it resolves to must render. *)
Definition reply_ok (message : obj) (message_index : index) : bool :=
  let r := get message "reply_to_message_id" JNull in
  negb (truthy r) ||
  hashable r &&
  match index_find r message_index with
  | Some original => text_ok (get original "text" (JStr []))
  | None => true
  end.

Definition renderable (message : obj) (message_index : index) : bool :=
  if is_service message
  then hashable (get message "action" (JStr []))
  else reply_ok message message_index &&
       text_ok (get message "text" (JStr [])) &&
       media_ok message.

(** ** Chat header *)

(** The dates and the names the header counts: the truthy ones. *)
Definition dated (messages : list obj) : list json :=
  filter truthy (map (fun m => get m "date" JNull) messages).

Definition sender_or_actor (message : obj) : json :=
  py_or (get message "from" JNull) (get message "actor" JNull).

Definition named (messages : list obj) : list json :=
  filter truthy (map sender_or_actor messages).

(** When a header is made: the type of the chat is a string, [min] and
    [max] order the dates, and [sorted] orders the names, which it does for
    strings alone and for numbers alone. *)
Definition dates_ok (dates : list json) : bool :=
  match dates with
  | [] => true
  | _ :: _ => is_ok (py_min dates) && is_ok (py_max dates)
  end.

Definition names_ok (names : list json) : bool :=
  forallb is_str names || forallb is_number names.

Definition header_ok (chat_data : obj) (messages : list obj) : bool :=
  is_str (get chat_data "type" (str "unknown")) &&
  dates_ok (dated messages) && names_ok (named messages).

(** The ten lines the header starts with. *)
Definition details_lines (chat_data : obj) (spaced : pystr) (n : nat)
    : list pystr :=
  let chat_name := py_str (get chat_data "name" (str "Telegram Chat")) in
  [ u "# " ++ chat_name;
    [];
    u "## Chat Details";
    [];
    u "| Property | Value |";
    u "|----------|-------|";
    u "| **Name** | " ++ chat_name ++ u " |";
    u "| **Type** | " ++ str_title spaced ++ u " |";
    u "| **ID** | " ++ py_str (get chat_data "id" (JStr [])) ++ u " |";
    u "| **Total Messages** | " ++ nat_to_str n ++ u " |" ].

Definition first_row (date : json) : pystr :=
  u "| **First Message** | " ++ py_str date ++ u " |".

Definition last_row (date : json) : pystr :=
  u "| **Last Message** | " ++ py_str date ++ u " |".

Definition date_rows (dates : list json) : outcome (list pystr) :=
  match dates with
  | [] => Ok []
  | _ :: _ =>
      lo <- py_min dates ;;
      first_date <- format_timestamp lo ;;
      hi <- py_max dates ;;
      last_date <- format_timestamp hi ;;
      Ok [first_row first_date; last_row last_date]
  end.

Definition count_row (n : nat) : pystr :=
  u "| **Participants** | " ++ nat_to_str n ++ u " |".

Definition bullet (name : pystr) : pystr := u "- " ++ name.

Definition header_end : list pystr := [u "---"; []; u "## Messages"; []].

(** From the count row to the end of the header. *)
Definition participants_lines (participants sorted : list json)
    : list pystr :=
  match participants with
  | [] => [[]]
  | _ :: _ =>
      [count_row (List.length participants); []; u "### Participants"; []] ++
      map (fun p => bullet (py_str p)) sorted ++ [[]]
  end ++ header_end.

(** A set of strings in insertion order, and its sorted listing. *)
Definition add_name (names : list pystr) (x : pystr) : list pystr :=
  if existsb (str_eqb x) names then names else names ++ [x].


Fixpoint insert_name (x : pystr) (l : list pystr) : list pystr :=
  match l with
  | [] => [x]
  | y :: l' => if str_ltb y x then y :: insert_name x l' else x :: l
  end.

Fixpoint sort_names (l : list pystr) : list pystr :=
  match l with
  | [] => []
  | x :: l' => insert_name x (sort_names l')
  end.

End Vocabulary.

(** * Example inputs *)

(** A timestamp with a [Z] that is not at its end. *)
Definition inner_Z_date : pystr := u "2024-01-01T10:00Z:00".

(** Two messages, the second a reply to the first, and their index. *)
Definition alice_hello : obj :=
  [ (u "id", JInt 1); (u "type", str "message");
    (u "date", str "2024-01-01T10:00:00"); (u "from", str "Alice");
    (u "text", str "Hello") ].

Definition bob_reply : obj :=
  [ (u "id", JInt 2); (u "type", str "message");
    (u "date", str "2024-01-01T10:05:00"); (u "from", str "Bob");
    (u "reply_to_message_id", JInt 1); (u "text", str "Hi") ].

Definition small_index : index := [(JInt 1, alice_hello); (JInt 2, bob_reply)].

Definition small_chat : obj :=
  [ (u "name", str "Friends"); (u "type", str "private_group");
    (u "id", JInt 42);
    (u "messages", JList [JObj alice_hello; JObj bob_reply]) ].

(** A message of 150 characters and a reply to it. *)
Definition long_text : pystr := repeat 97%N 150.

Definition long_message : obj :=
  [ (u "id", JInt 1); (u "from", str "Alice"); (u "text", JStr long_text) ].

Definition long_index : index := [(JInt 1, long_message)].

(** A message whose identifier is 0, and a reply to it. *)
Definition message_zero : obj :=
  [ (u "id", JInt 0); (u "from", str "Alice"); (u "text", str "Hello") ].

Definition reply_to_zero : obj :=
  [ (u "id", JInt 1); (u "from", str "Bob");
    (u "reply_to_message_id", JInt 0); (u "text", str "Hi") ].

(** A message whose reply reference is a list. *)
Definition list_reference : obj :=
  [ (u "id", JInt 2); (u "from", str "Bob");
    (u "reply_to_message_id", JList [JInt 1]); (u "text", str "Hi") ].

Definition zero_index : index :=
  [(JInt 0, message_zero); (JInt 1, reply_to_zero)].

(** The block of [reply_to_zero]: no reply line. *)
Definition reply_to_zero_lines : list pystr :=
  map u ["### Bob"; "** | Message #1"; ""; "Hi"; ""; "---"; ""]%string.

(** A message sent by nobody but an actor, and a reply to it. *)
Definition actor_only : obj :=
  [ (u "id", JInt 1); (u "actor", str "Carol"); (u "text", str "Hello") ].

Definition reply_to_actor : obj :=
  [ (u "id", JInt 2); (u "actor", str "Dave");
    (u "reply_to_message_id", JInt 1); (u "text", str "Hi") ].

Definition actor_index : index :=
  [(JInt 1, actor_only); (JInt 2, reply_to_actor)].

(** A sticker that also has a photo field. *)
Definition sticker_with_photo : obj :=
  [ (u "id", JInt 3); (u "media_type", str "sticker");
    (u "sticker_emoji", str ":)"); (u "photo", str "photos/1.jpg") ].

(** The blocks of the two replies above. *)
Definition bob_reply_lines : list pystr :=
  [ u "### Bob"; u "*2024-01-01 10:05:00* | Message #2"; [];
    u "> **" ++ [REPLY_ARROW] ++ u " Reply to Alice:** Hello"; [];
    u "Hi"; []; u "---"; [] ].

Definition reply_to_actor_lines : list pystr :=
  [ u "### Dave"; u "** | Message #2"; [];
    u "> **" ++ [REPLY_ARROW] ++ u " Reply to Carol:** Hello"; [];
    u "Hi"; []; u "---"; [] ].

(** The header of [small_chat]. *)
Definition small_chat_header : list pystr :=
  map u ["# Friends"; ""; "## Chat Details"; ""; "| Property | Value |";
         "|----------|-------|"; "| **Name** | Friends |";
         "| **Type** | Private Group |"; "| **ID** | 42 |";
         "| **Total Messages** | 2 |";
         "| **First Message** | 2024-01-01 10:00:00 |";
         "| **Last Message** | 2024-01-01 10:05:00 |";
         "| **Participants** | 2 |"; ""; "### Participants"; "";
         "- Alice"; "- Bob"; ""; "---"; ""; "## Messages"; ""]%string.

(** A rich text of three elements. *)
Definition rich_text : list json :=
  [ str "a"; JObj [(u "type", str "bold"); (u "text", str "b")]; JInt 5 ].




(** A chat with a sender that is a string and one that is a number. *)
Definition mixed_senders_chat : obj :=
  [ (u "name", str "Notes"); (u "type", str "saved_messages");
    (u "id", JInt 7);
    (u "messages", JList [JObj [(u "id", JInt 1); (u "from", str "Alice")];
                          JObj [(u "id", JInt 2); (u "from", JInt 7)]]) ].

(** A message whose identifier is a list. *)
Definition list_id : obj := [ (u "id", JList [JInt 1]); (u "text", str "x") ].

(** Service messages: an action the converter does not know, a leave
    without an actor, and a group creation with and without a text. *)
Definition topic_created : obj :=
  [ (u "type", str "service"); (u "action", str "topic_created") ].

Definition ann_leaves : obj :=
  [ (u "type", str "service"); (u "action", str "leave_group");
    (u "from", str "Ann") ].

Definition bob_creates : obj :=
  [ (u "type", str "service"); (u "action", str "create_group");
    (u "actor", str "Bob"); (u "date", str "2024-01-01T09:00:00") ].

Definition bob_creates_with_text : obj :=
  [ (u "id", JInt 9); (u "type", str "service");
    (u "date", str "2024-01-01T09:00:00"); (u "actor", str "Bob");
    (u "action", str "create_group"); (u "text", str "ignored");
    (u "reply_to_message_id", JInt 1) ].

(** A forwarded photo with a caption. *)
Definition forwarded_photo : obj :=
  [ (u "id", JInt 4); (u "from", str "Alice");
    (u "forwarded_from", str "Carol"); (u "photo", str "photos/2.jpg");
    (u "text", str "Look") ].

(** A message of two lines and a reply to it that comes first in the
    archive. *)
Definition two_lines : obj :=
  [ (u "id", JInt 1); (u "from", str "Alice");
    (u "text", JStr (u "one" ++ [NL] ++ u "two")) ].

Definition early_reply : obj :=
  [ (u "id", JInt 2); (u "from", str "Bob");
    (u "reply_to_message_id", JInt 1); (u "text", str "Hi") ].

(** Spans: a mention and a mention whose text is a number. *)
Definition mention_bob : obj :=
  [ (u "type", str "mention"); (u "text", str "bob") ].

Definition mention_five : obj :=
  [ (u "type", str "mention"); (u "text", JInt 5) ].

(** A location that is not a mapping. *)
Definition flat_location : obj :=
  [ (u "id", JInt 5); (u "location_information", str "48.85, 2.35") ].

(** Chats: without messages, without a type that is a string, with
    messages that are no list, with an entry that is no mapping, with an
    identifier that is a list. *)
Definition empty_chat : obj :=
  [ (u "name", str "Notes"); (u "type", str "saved_messages");
    (u "id", JInt 7) ].

Definition untyped_chat : obj :=
  [ (u "name", str "Notes"); (u "type", JNull); (u "messages", JList []) ].

Definition null_messages_chat : obj :=
  [ (u "name", str "Notes"); (u "messages", JNull) ].

Definition flat_entry_chat : obj :=
  [ (u "name", str "Notes");
    (u "messages", JList [JObj alice_hello; str "hello"]) ].

Definition list_id_chat : obj :=
  [ (u "name", str "Notes"); (u "messages", JList [JObj list_id]) ].


(** * Properties *)

(** ** Strings *)

Lemma str_eqb_eq (a b : pystr) : str_eqb a b = true <-> a = b.
Proof.
  unfold str_eqb. destruct (list_eq_dec N.eq_dec a b); split; congruence.
Qed.

Lemma str_eqb_refl (a : pystr) : str_eqb a a = true.
Proof. now apply str_eqb_eq. Qed.

(** The order on strings is a total order. *)

Lemma str_compare_eq (a b : pystr) : str_compare a b = Eq <-> a = b.
Proof. apply list_compare_refl, N.compare_eq_iff. Qed.

Lemma str_compare_antisym (a b : pystr) :
  str_compare b a = CompOpp (str_compare a b).
Proof.
  apply list_compare_antisym; [apply N.compare_eq_iff|].
  intros x y. apply N.compare_antisym.
Qed.

Lemma N_compare_trans (x y z : N) (c : comparison) :
  N.compare x y = c -> N.compare y z = c -> N.compare x z = c.
Proof.
  destruct c; intros H1 H2.
  - apply N.compare_eq_iff in H1. apply N.compare_eq_iff in H2. subst.
    apply N.compare_refl.
  - exact (N.lt_trans _ _ _ H1 H2).
  - apply N.compare_gt_iff in H1. apply N.compare_gt_iff in H2.
    apply N.compare_gt_iff. lia.
Qed.

Lemma str_compare_trans (a b c : pystr) (r : comparison) :
  str_compare a b = r -> str_compare b c = r -> str_compare a c = r.
Proof.
  apply list_compare_trans.
  - apply N.compare_eq_iff.
  - apply N_compare_trans.
  - intros x y. apply N.compare_antisym.
Qed.

Lemma str_le_refl (a : pystr) : str_le a a.
Proof. unfold str_le. now rewrite (proj2 (str_compare_eq a a) eq_refl). Qed.

Lemma str_le_trans (a b c : pystr) : str_le a b -> str_le b c -> str_le a c.
Proof.
  unfold str_le. intros Hab Hbc.
  destruct (str_compare a b) eqn:E1; [| |congruence].
  - apply str_compare_eq in E1. now subst.
  - destruct (str_compare b c) eqn:E2; [| |congruence].
    + apply str_compare_eq in E2. subst. now rewrite E1.
    + now rewrite (str_compare_trans _ _ _ E1 E2).
Qed.

Lemma str_ltb_false_le (a b : pystr) : str_ltb a b = false -> str_le b a.
Proof.
  unfold str_ltb, str_le. rewrite (str_compare_antisym a b).
  now destruct (str_compare a b).
Qed.

Lemma str_ltb_true_le (a b : pystr) : str_ltb a b = true -> str_le a b.
Proof. unfold str_ltb, str_le. now destruct (str_compare a b). Qed.

Lemma startswith_nil (s : pystr) : startswith s [] = true.
Proof. now destruct s. Qed.

(** Replacing a one-character pattern touches each character on its own. *)
Lemma replace_from_char (c : N) (new s : pystr) :
  replace_from [c] new O s =
  flat_map (fun d => if (c =? d)%N then new else [d]) s.
Proof.
  induction s as [|d s IH]; simpl; [reflexivity|].
  rewrite startswith_nil, andb_true_r.
  destruct (c =? d)%N; simpl; rewrite IH; reflexivity.
Qed.

Lemma str_replace_char (c d : N) (s : pystr) :
  str_replace s [c] [d] = map (fun x => if (c =? x)%N then d else x) s.
Proof.
  unfold str_replace. rewrite replace_from_char.
  induction s as [|x s IH]; simpl; [reflexivity|].
  rewrite <- IH. destruct (c =? x)%N; reflexivity.
Qed.

Lemma join_empty (parts : list pystr) : join [] parts = List.concat parts.
Proof.
  induction parts as [|p [|q parts] IH]; simpl in *.
  - reflexivity.
  - now rewrite app_nil_r.
  - now rewrite IH.
Qed.

Lemma join_cons (sep p : pystr) (rest : list pystr) :
  rest <> [] -> join sep (p :: rest) = p ++ sep ++ join sep rest.
Proof. now destruct rest. Qed.

Lemma join_app (sep : pystr) (a b : list pystr) :
  a <> [] -> b <> [] ->
  join sep (a ++ b) = join sep a ++ sep ++ join sep b.
Proof.
  intros Ha Hb. induction a as [|p a IH]; [contradiction|].
  destruct a as [|q a].
  - cbn [app]. now rewrite join_cons.
  - change (join sep ((p :: q :: a) ++ b))
      with (p ++ sep ++ join sep ((q :: a) ++ b)).
    rewrite IH by discriminate.
    change (join sep (p :: q :: a)) with (p ++ sep ++ join sep (q :: a)).
    now rewrite <- !app_assoc.
Qed.

Lemma join_nonempty (sep : pystr) (a b : list pystr) :
  join sep b <> [] -> join sep (a ++ b) <> [].
Proof.
  intros Hb. destruct a as [|p a]; [exact Hb|].
  assert (b <> []) as Hne by (intros ->; now apply Hb).
  rewrite join_app by (assumption || discriminate).
  intros E. apply app_eq_nil in E as [_ E].
  apply app_eq_nil in E as [_ E]. contradiction.
Qed.

(** The model of the built-ins on a few values, as Python prints them. *)

Example replace_every_underscore :
  str_replace (u "private_super_group") (u "_") (u " ") =
  u "private super group".
Proof. reflexivity. Qed.

Example strip_both_ends : str_strip (u "  Ann Lee ") = u "Ann Lee".
Proof. reflexivity. Qed.

Example compare_case : str_ltb (u "Zed") (u "alice") = true.
Proof. reflexivity. Qed.

(** [1.5], [1e16], [1e15], [0.0001], [1.5e-05], [-0.0], [100.0],
    [0.1 + 0.2], [1e23], [float(2**60)] and the smallest float. *)
Example repr_floats :
  map float_repr
    [ PyFloat false 3 (-1); PyFloat false 152587890625 16;
      PyFloat false 30517578125 15; PyFloat false 7378697629483821 (-66);
      PyFloat false 8854437155380585 (-69); PyFloat true 0 0;
      PyFloat false 25 2; PyFloat false 1351079888211149 (-52);
      PyFloat false 5960464477539062 24; PyFloat false 1 60;
      PyFloat false 1 (-1074) ] =
  map u [ "1.5"; "1e+16"; "1000000000000000.0"; "0.0001"; "1.5e-05"; "-0.0";
          "100.0"; "0.30000000000000004"; "1e+23"; "1.152921504606847e+18";
          "5e-324" ]%string.
Proof. vm_compute. reflexivity. Qed.

Example str_of_list :
  @py_str iso_runtime
    (JList [str "a"; JInt (-3); JNull; JBool true; JObj [(u "k", str "v")]]) =
  u "['a', -3, None, True, {'k': 'v'}]".
Proof. reflexivity. Qed.

(** [1 == True], [1 == 1.0], [1 != '1'], [float(2**60) == 2**60] and
    [1e23 != 10**23]. *)
Example equal_numbers_are_one_key :
  key_eq (JInt 1) (JBool true) = true /\
  key_eq (JInt 1) (JFloat (PyFloat false 1 0)) = true /\
  key_eq (JInt 1) (str "1") = false /\
  key_eq (JFloat (PyFloat false 1 60)) (JInt (2 ^ 60)) = true /\
  key_eq (JFloat (PyFloat false 5960464477539062 24)) (JInt (10 ^ 23)) =
    false.
Proof. repeat split; reflexivity. Qed.

(** [1e23 < 10**23], so that [max([1e23, 10**23])] is the integer, and two
    messages with these identifiers are two entries of the index. *)
Example large_numbers_by_value :
  py_lt (JFloat (PyFloat false 5960464477539062 24)) (JInt (10 ^ 23)) =
    Ok true /\
  py_max [JFloat (PyFloat false 5960464477539062 24); JInt (10 ^ 23)] =
    Ok (JInt (10 ^ 23)) /\
  option_map (@List.length (json * obj))
    (match build_message_index
             (JList [JObj [(u "id",
                            JFloat (PyFloat false 5960464477539062 24))];
                     JObj [(u "id", JInt (10 ^ 23))]]) with
     | Ok message_index => Some message_index
     | Raise _ => None
     end) = Some 2%nat.
Proof. repeat split; reflexivity. Qed.

Example fromisoformat_accepts :
  option_map Iso.strftime (Iso.fromisoformat (u "2024-02-29T23:59:59+02:00")) =
    Some (u "2024-02-29 23:59:59") /\
  option_map Iso.strftime (Iso.fromisoformat (u "2024-01-01")) =
    Some (u "2024-01-01 00:00:00") /\
  Iso.fromisoformat (u "2023-02-29T10:00:00") = None /\
  Iso.fromisoformat (u "2024-01-01T10:00:00Z") = None /\
  Iso.fromisoformat (u "yesterday") = None.
Proof. repeat split; reflexivity. Qed.

(** ** Outcomes *)

Lemma bind_ok {A B} (r : outcome A) (k : A -> outcome B) (b : B) :
  bind r k = Ok b <-> exists a, r = Ok a /\ k a = Ok b.
Proof.
  destruct r as [a|e]; simpl; split.
  - intros H. now exists a.
  - now intros (a' & [= ->] & H).
  - discriminate.
  - now intros (a' & [=] & _).
Qed.

Lemma bind_value {A B} (a : A) (k : A -> outcome B) : bind (Ok a) k = k a.
Proof. reflexivity. Qed.

Lemma returns_bind {A B} (r : outcome A) (k : A -> outcome B) :
  returns (bind r k) <-> exists a, r = Ok a /\ returns (k a).
Proof.
  unfold returns. split.
  - intros (b & H). apply bind_ok in H as (a & Ha & Hb). eauto.
  - intros (a & Ha & b & Hb). exists b. apply bind_ok. eauto.
Qed.

Lemma returns_ok {A} (a : A) : returns (Ok a).
Proof. now exists a. Qed.

Lemma not_returns_raise {A} (e : exn) : ~ returns (@Raise A e).
Proof. now intros (a & [=]). Qed.

(** ** Timestamp formatter *)

Section Timestamp.
Context {rt : Runtime}.

Lemma call_replace_Z (s : pystr) :
  call_replace (JStr s) "Z" "+00:00" = Ok (normalize_every_Z s).
Proof.
  unfold call_replace, str_replace, normalize_every_Z.
  change (u "Z") with [LETTER_Z]. rewrite replace_from_char.
  f_equal. apply flat_map_ext. intros c. now rewrite N.eqb_sym.
Qed.

Lemma format_timestamp_value (date_str : json) :
  format_timestamp date_str = Ok (timestamp_of date_str).
Proof.
  unfold format_timestamp, timestamp_of.
  destruct date_str; try reflexivity.
  rewrite call_replace_Z. simpl.
  destruct (fromisoformat (normalize_every_Z s)); reflexivity.
Qed.

(** C7, amended.  [format_timestamp] raises on no input.  On a string it
    returns the [strftime] form of the parsed date when the string with every
    [Z] replaced by [+00:00] parses, and the string itself otherwise; an object
    that is not a string comes back unchanged. *)
Theorem format_timestamp_total (date_str : json) :
  exists r, format_timestamp date_str = Ok r /\
    match date_str with
    | JStr s =>
        match fromisoformat (normalize_every_Z s) with
        | Some dt => r = JStr (strftime dt)
        | None => r = date_str
        end
    | _ => r = date_str
    end.
Proof.
  exists (timestamp_of date_str). split.
  - apply format_timestamp_value.
  - unfold timestamp_of. destruct date_str; try reflexivity.
    destruct (fromisoformat (normalize_every_Z s)); reflexivity.
Qed.

(** Where the wording of the specification and the code agree: on the
    strings that have no [Z] before their last character. *)
Lemma normalize_every_Z_trailing (s : pystr) :
  (forall c, In c (removelast s) -> c <> LETTER_Z) ->
  normalize_every_Z s = normalize_trailing_Z s.
Proof.
  unfold normalize_every_Z, normalize_trailing_Z.
  destruct s as [|c s _] using rev_ind; [reflexivity|].
  rewrite removelast_last, rev_app_distr, flat_map_app. simpl.
  intros Hinner.
  assert (flat_map (fun c => if (c =? LETTER_Z)%N then u "+00:00" else [c]) s
          = s) as ->.
  { induction s as [|d s IH]; [reflexivity|]. simpl.
    destruct (d =? LETTER_Z)%N eqn:E.
    - apply N.eqb_eq in E. exfalso. apply (Hinner d); [now left | exact E].
    - simpl. f_equal. apply IH. intros x Hx. apply Hinner. now right. }
  destruct (c =? LETTER_Z)%N; [|reflexivity].
  now rewrite rev_involutive, app_nil_r.
Qed.

Lemma format_timestamp_as_specified (s : pystr) :
  (forall c, In c (removelast s) -> c <> LETTER_Z) ->
  format_timestamp (JStr s) = Ok (JStr (spec_format_timestamp s)).
Proof.
  intros Hinner. rewrite format_timestamp_value.
  unfold timestamp_of, spec_format_timestamp.
  rewrite (normalize_every_Z_trailing s Hinner).
  now destruct (fromisoformat (normalize_trailing_Z s)).
Qed.

End Timestamp.

(** C7 as stated fails: with a [Z] inside the string, the code rewrites it
    and the result parses, where the specification has the string come back
    unchanged. *)
Lemma format_timestamp_inner_Z :
  @spec_format_timestamp iso_runtime inner_Z_date = inner_Z_date /\
  @format_timestamp iso_runtime (JStr inner_Z_date) =
    Ok (str "2024-01-01 10:00:00") /\
  @format_timestamp iso_runtime (JStr inner_Z_date) <>
    Ok (JStr (@spec_format_timestamp iso_runtime inner_Z_date)).
Proof.
  repeat split; try reflexivity. vm_compute. discriminate.
Qed.

(** ** Rich-text extractor *)

Section RichText.
Context {rt : Runtime}.

Lemma strings_of_app (a b : list json) (ss : list pystr) :
  strings_of (a ++ b) = Ok ss <->
  exists sa sb, strings_of a = Ok sa /\ strings_of b = Ok sb /\ ss = sa ++ sb.
Proof.
  revert ss. induction a as [|x a IH]; intros ss; simpl.
  - split.
    + intros H. now exists [], ss.
    + intros (sa & sb & [= <-] & Hb & ->). exact Hb.
  - destruct x; try (split; [discriminate | now intros (? & ? & [=] & _)]).
    rewrite bind_ok. split.
    + intros (ss' & H & [= <-]). apply IH in H as (sa & sb & Ha & Hb & ->).
      exists (s :: sa), sb. rewrite Ha. now repeat split.
    + intros (sa & sb & Ha & Hb & ->).
      apply bind_ok in Ha as (sa' & Ha & [= <-]).
      exists (sa' ++ sb). split; [|reflexivity]. apply IH. now exists sa', sb.
Qed.

(** One pass of the loop body only appends to [result]. *)
Lemma extract_item_appends (result : list json) (item : json) :
  extract_item result item =
  (parts <- extract_item [] item ;; Ok (result ++ parts)).
Proof.
  unfold extract_item.
  destruct item; simpl; rewrite ?(app_nil_r result); try reflexivity.
  repeat match goal with
         | |- context [if ?c then _ else _] =>
             destruct c; simpl; try reflexivity
         end.
  destruct (call_startswith _ _); reflexivity.
Qed.

Lemma extract_items_spec (items result out : list json) :
  extract_items result items = Ok out <->
  exists pieces,
    Forall2 (fun item p => extract_item [] item = Ok p) items pieces /\
    out = result ++ List.concat pieces.
Proof.
  revert result out. induction items as [|item items IH]; intros result out.
  - simpl. split.
    + intros [= <-]. exists []. split; [constructor | now rewrite app_nil_r].
    + intros (pieces & H & ->). inversion H. simpl. now rewrite app_nil_r.
  - simpl. rewrite extract_item_appends, bind_ok. split.
    + intros (r & H & Hrest). apply bind_ok in H as (p & Hp & [= <-]).
      apply IH in Hrest as (pieces & HF & ->).
      exists (p :: pieces). split; [now constructor|].
      simpl. now rewrite app_assoc.
    + intros (pieces & HF & ->). inversion HF as [|? p ? ps Hp HF']; subst.
      exists (result ++ p). rewrite Hp. split; [reflexivity|].
      apply IH. exists ps. split; [assumption|]. simpl. now rewrite app_assoc.
Qed.

Lemma strings_of_concat (pieces : list (list json)) (ss : list pystr) :
  strings_of (List.concat pieces) = Ok ss <->
  exists sss, Forall2 (fun p s => strings_of p = Ok s) pieces sss /\
              ss = List.concat sss.
Proof.
  revert ss. induction pieces as [|p pieces IH]; intros ss; simpl.
  - split.
    + intros [= <-]. exists []. split; constructor.
    + intros (sss & H & ->). now inversion H.
  - rewrite strings_of_app. split.
    + intros (sa & sb & Ha & Hb & ->). apply IH in Hb as (sss & HF & ->).
      exists (sa :: sss). split; [now constructor | reflexivity].
    + intros (sss & HF & ->). inversion HF as [|? sa ? sss' Ha HF']; subst.
      exists sa, (List.concat sss'). repeat split; [assumption|].
      apply IH. now exists sss'.
Qed.

Lemma concat_concat {A} (l : list (list (list A))) :
  List.concat (List.concat l) = List.concat (map (@List.concat A) l).
Proof.
  induction l as [|x l IH]; simpl; [reflexivity|].
  now rewrite concat_app, IH.
Qed.

Lemma extract_list_spec (items : list json) (out : pystr) :
  extract_text_content (JList items) = Ok out <->
  exists texts,
    Forall2 (fun item t => span_text item = Ok t) items texts /\
    out = List.concat texts.
Proof.
  simpl. rewrite bind_ok. unfold str_join. split.
  + intros (result & Hres & Hjoin).
    apply extract_items_spec in Hres as (pieces & HF & ->). simpl in Hjoin.
    apply bind_ok in Hjoin as (ss & Hss & [= <-]).
    apply strings_of_concat in Hss as (sss & HS & ->).
    exists (map (@List.concat N) sss). split.
    * clear - HF HS. revert sss HS.
      induction HF as [|item p items pieces Hp HF IH]; intros sss HS;
        inversion HS as [|? s ? sss' Hs HS']; subst; simpl; constructor.
      -- unfold span_text, str_join. rewrite Hp. simpl. rewrite Hs. simpl.
         now rewrite join_empty.
      -- now apply IH.
    * rewrite join_empty. exact (@concat_concat N sss).
  + intros (texts & HF & ->).
    assert (exists pieces sss,
               Forall2 (fun item p => extract_item [] item = Ok p)
                       items pieces /\
               Forall2 (fun p s => strings_of p = Ok s) pieces sss /\
               texts = map (@List.concat N) sss)
    as (pieces & sss & H1 & H2 & ->).
    { clear - HF. induction HF as [|item t items texts Ht HF IH].
      - exists [], []. repeat split; constructor.
      - destruct IH as (pieces & sss & H1 & H2 & ->).
        unfold span_text, str_join in Ht.
        apply bind_ok in Ht as (p & Hp & Ht).
        apply bind_ok in Ht as (s & Hs & [= <-]).
        exists (p :: pieces), (s :: sss).
        repeat split; try now constructor.
        simpl. now rewrite join_empty. }
    exists (List.concat pieces). split.
    * apply extract_items_spec. now exists pieces.
    * apply bind_ok. exists (List.concat sss). split.
      -- apply strings_of_concat. now exists sss.
      -- rewrite join_empty. exact (f_equal Ok (@concat_concat N sss)).
Qed.

Lemma empty_span_text (item : json) :
  is_span item = true -> span_text item = Ok [] ->
  resolved_text item = JStr [].
Proof.
  intros Hspan Hempty. unfold span_text, str_join in Hempty.
  apply bind_ok in Hempty as (parts & Hparts & Hjoin).
  apply bind_ok in Hjoin as (ss & Hss & [= Hj]).
  destruct item as [| | | |s|l|d]; try discriminate; simpl in *.
  + injection Hparts as <-. simpl in Hss. injection Hss as <-.
    simpl in Hj. now subst.
  + destruct (get d "text" (JStr [])) as [| | | |t|l|o] eqn:Htext;
    repeat match type of Hparts with
           | context [if ?c then _ else _] => destruct c
           end.
    all: try (apply bind_ok in Hparts as (sw & Hsw & Hparts)).
    all: try discriminate.
    all: injection Hparts as <-; simpl in Hss.
    all: try discriminate.
    all: try (destruct sw; simpl in Hss).
    all: injection Hss as <-; simpl in Hj.
    all: try discriminate.
    all: now subst.
Qed.

(** C8.  On a list the extractor returns the concatenation, in order and
    without separators, of the rendered text of each element; and a span (a
    string or a mapping) whose rendered text is empty carries an empty
    text. *)
Theorem extract_text_content_concat :
  (forall (items : list json) (out : pystr),
      extract_text_content (JList items) = Ok out <->
      exists texts,
        Forall2 (fun item t => span_text item = Ok t) items texts /\
        out = List.concat texts) /\
  (forall item,
      is_span item = true -> span_text item = Ok [] ->
      resolved_text item = JStr []).
Proof. split; [exact extract_list_spec | exact empty_span_text]. Qed.

End RichText.

(** ** Media classifier *)

Section Media.
Context {rt : Runtime}.

Lemma get_message_type_info_classify (message : obj) :
  get_message_type_info message =
  match classify message with
  | Some k => rule_tag message k
  | None => Ok []
  end.
Proof.
  unfold get_message_type_info, classify, precedence, find, rule_matches.
  repeat match goal with
         | |- context [if ?c then _ else _] =>
             destruct c eqn:?; simpl; try reflexivity
         end.
  now rewrite <- app_assoc.
Qed.

(** C4.  The classifier yields the tag of the first rule that matches, in
    the order sticker, voice message, video message, animation, video file,
    audio file, photo, file, location, contact, poll, and the empty string
    when none matches: one tag at most.  A sticker that also has a photo
    field is tagged as a sticker. *)
Theorem get_message_type_info_precedence :
  (forall message,
      get_message_type_info message =
      match find (rule_matches message) precedence with
      | Some k => rule_tag message k
      | None => Ok []
      end) /\
  (forall message,
      eq_str (get message "media_type" JNull) "sticker" = true ->
      has_key "photo" message = true ->
      get_message_type_info message =
        Ok (u "[Sticker " ++ py_str (get message "sticker_emoji" (JStr [])) ++
            u "]") /\
      get_message_type_info message <> Ok (u "[Photo]")) /\
  (forall message,
      (forall k, rule_matches message k = false) ->
      get_message_type_info message = Ok []).
Proof.
  split; [exact get_message_type_info_classify | split].
  - intros message Hsticker _.
    rewrite get_message_type_info_classify. unfold classify. simpl.
    rewrite Hsticker. split; [reflexivity|]. intros [=].
  - intros message Hnone.
    rewrite get_message_type_info_classify. unfold classify.
    destruct (find _ _) as [k|] eqn:Hfind; [|reflexivity].
    apply find_some in Hfind as [_ Hk]. now rewrite Hnone in Hk.
Qed.

End Media.

(** ** Message renderer *)

Section Renderer.
Context {rt : Runtime}.

Lemma sender_of_get (message : obj) :
  get message "from" (get message "actor" (JStr (u "Unknown"))) =
  sender_of message.
Proof.
  unfold get, sender_of, str.
  destruct (lookup (u "from") message); [reflexivity|].
  now destruct (lookup (u "actor") message).
Qed.

Lemma reply_excerpt_code (t : pystr) :
  str_replace (if (100 <? List.length t)%nat
               then firstn 100 t ++ u "..."
               else t) [NL] [SP] =
  reply_excerpt t.
Proof.
  unfold reply_excerpt. rewrite str_replace_char.
  destruct (100 <? List.length t)%nat.
  - rewrite map_app. f_equal. apply map_ext. intros c.
    unfold newline_to_space. now rewrite N.eqb_sym.
  - apply map_ext. intros c. unfold newline_to_space. now rewrite N.eqb_sym.
Qed.

(** A content block is its heading, its reply block and its body, computed
    in this order. *)
Lemma format_message_lines_content (message : obj) (message_index : index) :
  is_service message = false ->
  format_message_lines message message_index =
  (reply <- reply_lines message message_index ;;
   body <- body_lines message ;;
   Ok (heading_lines message ++ reply ++ body)).
Proof.
  intros Hcontent. unfold format_message_lines, is_service in *.
  rewrite Hcontent, format_timestamp_value. simpl bind at 1.
  unfold reply_lines, body_lines, heading_lines.
  rewrite sender_of_get.
  destruct (if truthy _ then _ else _) as [[|]|e]; simpl bind;
    [|destruct (extract_text_content (get message "text" (JStr [])))
        as [text|]; simpl bind; [|reflexivity];
      destruct (get_message_type_info message) as [media_info|]; simpl bind;
        [|reflexivity];
      destruct (truthy (get message "forwarded_from" JNull));
      destruct (nonempty media_info); destruct (nonempty text); reflexivity
     |reflexivity].
  destruct (index_get _ _) as [original|]; simpl bind; [|reflexivity].
  destruct (extract_text_content (get original "text" (JStr [])))
    as [t|]; simpl bind; [|reflexivity].
  rewrite reply_excerpt_code, sender_of_get.
  destruct (extract_text_content (get message "text" (JStr [])))
    as [text|]; simpl bind; [|reflexivity].
  destruct (get_message_type_info message) as [media_info|]; simpl bind;
    [|reflexivity].
  destruct (truthy (get message "forwarded_from" JNull));
    destruct (nonempty media_info); destruct (nonempty text); reflexivity.
Qed.

(** *** The reply block *)

Lemma key_eq_hashable (a b : json) : key_eq a b = true -> hashable a = true.
Proof. destruct a; try reflexivity; now destruct b. Qed.

Lemma index_find_hashable (k : json) (d : index) (v : obj) :
  index_find k d = Some v -> hashable k = true.
Proof.
  induction d as [|[k' v'] d IH]; simpl; [discriminate|].
  destruct (key_eq k k') eqn:E; [|exact IH].
  intros _. now apply key_eq_hashable in E.
Qed.

Lemma reply_lines_unresolved (message : obj) (message_index : index) :
  let r := get message "reply_to_message_id" JNull in
  truthy r = false \/
  (hashable r = true /\ index_find r message_index = None) ->
  reply_lines message message_index = Ok [].
Proof.
  intros r [H|[Hh Hf]]; unfold reply_lines; fold r.
  - now rewrite H.
  - unfold index_mem. rewrite Hh, Hf. now destruct (truthy r).
Qed.

Lemma reply_lines_resolved (message : obj) (message_index : index)
    (original : obj) :
  let r := get message "reply_to_message_id" JNull in
  truthy r = true -> index_find r message_index = Some original ->
  reply_lines message message_index =
  (t <- extract_text_content (get original "text" (JStr [])) ;;
   Ok [reply_quote original t; []]).
Proof.
  intros r Ht Hf. unfold reply_lines, index_mem, index_get. fold r.
  now rewrite Ht, (index_find_hashable _ _ Hf), Hf.
Qed.

(** *** Removing a field *)

Lemma lookup_remove_same (k : string) (d : obj) :
  lookup (u k) (dict_remove k d) = None.
Proof.
  induction d as [|[k' v] d IH]; simpl; [reflexivity|].
  destruct (str_eqb (u k) k') eqn:E; simpl; [exact IH|].
  now rewrite E.
Qed.

Lemma lookup_remove_other (k : string) (k' : pystr) (d : obj) :
  str_eqb k' (u k) = false ->
  lookup k' (dict_remove k d) = lookup k' d.
Proof.
  intros Hne. induction d as [|[k0 v] d IH]; simpl; [reflexivity|].
  destruct (str_eqb (u k) k0) eqn:E; simpl.
  - apply str_eqb_eq in E. subst k0. now rewrite Hne.
  - now rewrite IH.
Qed.

Lemma get_remove_other (k k' : string) (d : obj) (default : json) :
  str_eqb (u k') (u k) = false ->
  get (dict_remove k d) k' default = get d k' default.
Proof. intros H. unfold get. now rewrite lookup_remove_other. Qed.

Lemma has_key_remove_other (k k' : string) (d : obj) :
  str_eqb (u k') (u k) = false ->
  has_key k' (dict_remove k d) = has_key k' d.
Proof. intros H. unfold has_key. now rewrite lookup_remove_other. Qed.

Ltac forget_reply_reference :=
  rewrite ?get_remove_other, ?has_key_remove_other by reflexivity.

Lemma media_without_reply (message : obj) :
  get_message_type_info (dict_remove "reply_to_message_id" message) =
  get_message_type_info message.
Proof. unfold get_message_type_info. now forget_reply_reference. Qed.

Lemma body_without_reply (message : obj) :
  body_lines (dict_remove "reply_to_message_id" message) = body_lines message.
Proof.
  unfold body_lines. rewrite media_without_reply. now forget_reply_reference.
Qed.

Lemma heading_without_reply (message : obj) :
  heading_lines (dict_remove "reply_to_message_id" message) =
  heading_lines message.
Proof.
  unfold heading_lines, sender_of.
  rewrite !lookup_remove_other by reflexivity. now forget_reply_reference.
Qed.

Lemma content_without_reply (message : obj) (message_index : index) :
  is_service message = false ->
  format_message_lines (dict_remove "reply_to_message_id" message)
    message_index =
  (body <- body_lines message ;; Ok (heading_lines message ++ body)).
Proof.
  intros Hcontent. rewrite format_message_lines_content.
  - rewrite reply_lines_unresolved.
    + now rewrite body_without_reply, heading_without_reply.
    + left. unfold get. now rewrite lookup_remove_same.
  - unfold is_service in *. now forget_reply_reference.
Qed.

(** *** The reply line and the heading *)

Lemma body_lines_nonempty (message : obj) (body : list pystr) :
  body_lines message = Ok body -> body <> [].
Proof.
  unfold body_lines. intros H.
  apply bind_ok in H as (text & _ & H).
  apply bind_ok in H as (media_info & _ & H).
  injection H as <-. intros E.
  do 4 (apply app_eq_nil in E as [_ E]). discriminate.
Qed.

Lemma heading_join (message : obj) (rest : list pystr) :
  rest <> [] ->
  join [NL] (heading_lines message ++ rest) =
  heading_text message ++ join [NL] rest.
Proof.
  intros Hrest. unfold heading_lines, heading_text.
  rewrite join_app by (assumption || discriminate).
  cbn [join app]. rewrite <- !app_assoc. cbn [app].
  now rewrite <- !app_assoc.
Qed.

Lemma quote_join (quote : pystr) (body : list pystr) :
  body <> [] ->
  join [NL] ([quote; []] ++ body) = quote ++ [NL] ++ [NL] ++ join [NL] body.
Proof.
  intros Hbody. rewrite join_app by (assumption || discriminate).
  cbn [join app]. now rewrite <- !app_assoc.
Qed.

(** The block without a reply line, and with one. *)
Lemma block_without_reply (message : obj) (message_index : index) :
  is_service message = false ->
  format_message (dict_remove "reply_to_message_id" message) message_index =
  (body <- body_lines message ;;
   Ok (heading_text message ++ join [NL] body)).
Proof.
  intros Hcontent. unfold format_message.
  rewrite content_without_reply by assumption.
  destruct (body_lines message) as [body|] eqn:Hbody; [|reflexivity].
  rewrite !bind_value.
  now rewrite heading_join by exact (@body_lines_nonempty _ _ Hbody).
Qed.

Lemma block_with_reply (message : obj) (message_index : index)
    (original : obj) :
  is_service message = false ->
  truthy (get message "reply_to_message_id" JNull) = true ->
  index_find (get message "reply_to_message_id" JNull) message_index =
    Some original ->
  format_message message message_index =
  (t <- extract_text_content (get original "text" (JStr [])) ;;
   body <- body_lines message ;;
   Ok (heading_text message ++ reply_quote original t ++ [NL] ++ [NL] ++
       join [NL] body)).
Proof.
  intros Hcontent Htruthy Hfind. unfold format_message.
  rewrite format_message_lines_content by assumption.
  rewrite (reply_lines_resolved _ _ Htruthy Hfind).
  destruct (extract_text_content _) as [t|]; [|reflexivity].
  rewrite !bind_value.
  destruct (body_lines message) as [body|] eqn:Hbody; [|reflexivity].
  rewrite !bind_value.
  assert (body <> []) as Hne by exact (@body_lines_nonempty _ _ Hbody).
  rewrite heading_join, quote_join; [reflexivity | exact Hne|].
  intros E. apply app_eq_nil in E as [E _]. discriminate.
Qed.

(** C2, amended.  For a content message with a reply reference: when the
    reference is falsy ([None], [0], [False], an empty string, list or
    mapping), or is hashable and no key of the index, the block is rendered,
    errors included, as that of the message without the reference; when it is
    truthy and a key of the index, the reply line and a blank line come in
    right after the heading (sender line, timestamp line, blank line) of that
    rendering; when it is a non-empty list or mapping, the renderer raises
    [TypeError].  Each part is stated of the lines and of the block that
    [format_message] returns. *)
Theorem reply_block_when_resolvable
    (message : obj) (message_index : index) (r : json) :
  is_service message = false ->
  lookup (u "reply_to_message_id") message = Some r ->
  (truthy r = false \/
   (hashable r = true /\ index_find r message_index = None) ->
   format_message_lines message message_index =
   format_message_lines (dict_remove "reply_to_message_id" message)
     message_index /\
   format_message message message_index =
   format_message (dict_remove "reply_to_message_id" message)
     message_index) /\
  (truthy r = true ->
   forall original t lines,
     index_find r message_index = Some original ->
     extract_text_content (get original "text" (JStr [])) = Ok t ->
     format_message_lines (dict_remove "reply_to_message_id" message)
       message_index = Ok lines ->
     format_message_lines message message_index =
     Ok (firstn 3 lines ++
         [u "> **" ++ [REPLY_ARROW] ++ u " Reply to " ++
          py_str (sender_of original) ++ u ":** " ++ reply_excerpt t; []] ++
         skipn 3 lines) /\
     exists rest,
       format_message (dict_remove "reply_to_message_id" message)
         message_index = Ok (heading_text message ++ rest) /\
       format_message message message_index =
       Ok (heading_text message ++
           (u "> **" ++ [REPLY_ARROW] ++ u " Reply to " ++
            py_str (sender_of original) ++ u ":** " ++ reply_excerpt t) ++
           [NL] ++ [NL] ++ rest)) /\
  (truthy r = true -> hashable r = false ->
   format_message_lines message message_index = Raise TypeError /\
   format_message message message_index = Raise TypeError).
Proof.
  intros Hcontent Href.
  assert (get message "reply_to_message_id" JNull = r) as Hr
    by (unfold get; now rewrite Href).
  split; [|split].
  - intros Hun.
    assert (format_message_lines message message_index =
            format_message_lines (dict_remove "reply_to_message_id" message)
              message_index) as Hlines.
    { rewrite content_without_reply by assumption.
      rewrite format_message_lines_content by assumption.
      rewrite reply_lines_unresolved; [reflexivity|]. now rewrite Hr. }
    split; [exact Hlines|]. unfold format_message. now rewrite Hlines.
  - intros Htruthy original t lines Hfind Htext Hlines.
    rewrite <- Hr in Htruthy, Hfind.
    rewrite (block_with_reply _ _ Hcontent Htruthy Hfind).
    rewrite block_without_reply by assumption.
    rewrite content_without_reply in Hlines by assumption.
    apply bind_ok in Hlines as (body & Hbody & Hlines).
    assert (lines = heading_lines message ++ body) as -> by congruence.
    split.
    + rewrite format_message_lines_content by assumption.
      rewrite (reply_lines_resolved _ _ Htruthy Hfind).
      rewrite Htext. simpl bind. rewrite Hbody. reflexivity.
    + exists (join [NL] body). rewrite Htext, Hbody, !bind_value.
      split; reflexivity.
  - intros Htruthy Hunhashable.
    assert (format_message_lines message message_index = Raise TypeError)
      as Hlines.
    { rewrite format_message_lines_content by assumption.
      unfold reply_lines, index_mem. now rewrite Hr, Htruthy, Hunhashable. }
    split; [exact Hlines|]. unfold format_message. now rewrite Hlines.
Qed.

(** C3.  In a resolvable reply the quoted excerpt of an original text longer
    than 100 characters is its first 100 characters, each newline turned into
    one space, followed by [...]; the excerpt of a text of at most 100
    characters is the whole text with each newline turned into one space.
    The quote stands right after the heading in the block that
    [format_message] returns. *)
Theorem reply_quote_truncation
    (message : obj) (message_index : index) (r : json) (original : obj)
    (t text media_info : pystr) :
  is_service message = false ->
  lookup (u "reply_to_message_id") message = Some r ->
  truthy r = true ->
  index_find r message_index = Some original ->
  extract_text_content (get original "text" (JStr [])) = Ok t ->
  extract_text_content (get message "text" (JStr [])) = Ok text ->
  get_message_type_info message = Ok media_info ->
  exists lines excerpt rest,
    format_message_lines message message_index = Ok lines /\
    format_message message message_index =
      Ok (heading_text message ++
          (u "> **" ++ [REPLY_ARROW] ++ u " Reply to " ++
           py_str (sender_of original) ++ u ":** " ++ excerpt) ++
          [NL] ++ [NL] ++ rest) /\
    nth_error lines 3 =
      Some (u "> **" ++ [REPLY_ARROW] ++ u " Reply to " ++
            py_str (sender_of original) ++ u ":** " ++ excerpt) /\
    ((100 < List.length t)%nat ->
     excerpt = map newline_to_space (firstn 100 t) ++ u "..." /\
     List.length (firstn 100 t) = 100%nat) /\
    ((List.length t <= 100)%nat -> excerpt = map newline_to_space t).
Proof.
  intros Hcontent Href Htruthy Hfind Ht Htext Hmedia.
  assert (get message "reply_to_message_id" JNull = r) as Hr
    by (unfold get; now rewrite Href).
  rewrite <- Hr in Htruthy, Hfind.
  rewrite (block_with_reply _ _ Hcontent Htruthy Hfind).
  rewrite format_message_lines_content by assumption.
  rewrite (reply_lines_resolved _ _ Htruthy Hfind).
  rewrite Ht, !bind_value.
  assert (returns (body_lines message)) as (body & Hbody)
    by (unfold body_lines; rewrite Htext, Hmedia; apply returns_ok).
  rewrite Hbody, !bind_value.
  eexists _, (reply_excerpt t), (join [NL] body).
  split; [reflexivity|]. split; [reflexivity|].
  split; [reflexivity|]. unfold reply_excerpt. split.
  - intros Hlong. apply Nat.ltb_lt in Hlong as Hb. rewrite Hb.
    split; [reflexivity|]. apply firstn_length_le. lia.
  - intros Hshort. apply Nat.ltb_ge in Hshort. now rewrite Hshort.
Qed.

(** C10.  A content message without a [from] field is headed by the value
    of its [actor] field, or by [Unknown] without one; the sender named in a
    reply quote is found the same way on the original message.  Both are
    stated of the block that [format_message] returns, and of its lines. *)
Theorem sender_fallback :
  (forall (message : obj) (message_index : index) (block : pystr),
      is_service message = false ->
      lookup (u "from") message = None ->
      format_message message message_index = Ok block ->
      exists lines rest,
        format_message_lines message message_index = Ok lines /\
        nth_error lines 0 =
          Some (u "### " ++
                py_str (match lookup (u "actor") message with
                        | Some actor => actor
                        | None => str "Unknown"
                        end)) /\
        block =
          (u "### " ++
           py_str (match lookup (u "actor") message with
                   | Some actor => actor
                   | None => str "Unknown"
                   end)) ++ [NL] ++ rest) /\
  (forall (message : obj) (message_index : index) (block : pystr)
          (r : json) (original : obj),
      is_service message = false ->
      lookup (u "reply_to_message_id") message = Some r ->
      truthy r = true ->
      index_find r message_index = Some original ->
      lookup (u "from") original = None ->
      format_message message message_index = Ok block ->
      exists lines excerpt rest,
        format_message_lines message message_index = Ok lines /\
        nth_error lines 3 =
          Some (u "> **" ++ [REPLY_ARROW] ++ u " Reply to " ++
                py_str (match lookup (u "actor") original with
                        | Some actor => actor
                        | None => str "Unknown"
                        end) ++ u ":** " ++ excerpt) /\
        block =
          heading_text message ++
          (u "> **" ++ [REPLY_ARROW] ++ u " Reply to " ++
           py_str (match lookup (u "actor") original with
                   | Some actor => actor
                   | None => str "Unknown"
                   end) ++ u ":** " ++ excerpt) ++
          [NL] ++ [NL] ++ rest).
Proof.
  split.
  - intros message message_index block Hcontent Hfrom Hblock.
    unfold format_message in Hblock.
    apply bind_ok in Hblock as (lines & Hlines & Hblock).
    exists lines. rewrite Hlines.
    rewrite format_message_lines_content in Hlines by assumption.
    apply bind_ok in Hlines as (reply & _ & Hlines).
    apply bind_ok in Hlines as (body & Hbody & Hlines).
    assert (lines = heading_lines message ++ reply ++ body) as ->
      by congruence.
    assert (block = join [NL] (heading_lines message ++ reply ++ body))
      as -> by congruence.
    assert (reply ++ body <> []) as Hne.
    { intros E. apply app_eq_nil in E as [_ E].
      now apply (@body_lines_nonempty _ _ Hbody). }
    rewrite heading_join by exact Hne.
    eexists. split; [reflexivity|].
    unfold heading_lines, heading_text, sender_of. rewrite Hfrom.
    split; [reflexivity|]. rewrite <- !app_assoc. reflexivity.
  - intros message message_index block r original
           Hcontent Href Htruthy Hfind Hfrom Hblock.
    assert (get message "reply_to_message_id" JNull = r) as Hr
      by (unfold get; now rewrite Href).
    rewrite <- Hr in Htruthy, Hfind.
    rewrite (block_with_reply _ _ Hcontent Htruthy Hfind) in Hblock.
    apply bind_ok in Hblock as (t & Ht & Hblock).
    apply bind_ok in Hblock as (body & Hbody & Hblock).
    rewrite format_message_lines_content by assumption.
    rewrite (reply_lines_resolved _ _ Htruthy Hfind).
    rewrite Ht, !bind_value, Hbody, !bind_value.
    eexists _, (reply_excerpt t), (join [NL] body).
    split; [reflexivity|].
    unfold reply_quote, sender_of in *. rewrite Hfrom in *.
    split; [reflexivity|]. congruence.
Qed.

(** *** When a message renders *)

Lemma returns_is_ok {A} (r : outcome A) : returns r <-> is_ok r = true.
Proof.
  destruct r; simpl; split; try discriminate.
  - reflexivity.
  - intros _. apply returns_ok.
  - intros H. now apply not_returns_raise in H.
Qed.

Lemma Forall2_returns {A B} (f : A -> outcome B) (l : list A) :
  (exists l', Forall2 (fun x y => f x = Ok y) l l') <->
  forallb (fun x => is_ok (f x)) l = true.
Proof.
  induction l as [|x l IH]; simpl.
  - split; [reflexivity | intros _; exists []; constructor].
  - rewrite andb_true_iff, <- IH. split.
    + intros (l' & H). inversion H as [|? y ? l'' Hy H']; subst.
      rewrite Hy. split; [reflexivity | now exists l''].
    + intros (Hx & l' & H). destruct (f x) as [y|] eqn:E; [|discriminate].
      exists (y :: l'). now constructor.
Qed.

Lemma span_text_returns (item : json) :
  is_ok (span_text item) = span_ok item.
Proof.
  unfold span_text, span_ok, wraps_text, existsb, str_join.
  destruct item as [| | | |s|l|d]; try reflexivity.
  unfold extract_item.
  destruct (get d "text" (JStr [])) as [| | | |text| |];
    (destruct (get d "type" (JStr [])) as [| | | |t| |];
     [reflexivity .. | | reflexivity | reflexivity]);
    unfold eq_str;
    repeat match goal with
           | |- context [str_eqb t (u ?k)] =>
               let E := fresh "E" in
               destruct (str_eqb t (u k)) eqn:E;
               [apply str_eqb_eq in E; subst t; try reflexivity;
                simpl; now destruct (startswith text (u "@")) |]
           end;
    reflexivity.
Qed.

Lemma forallb_pointwise {A} (f g : A -> bool) (l : list A) :
  (forall x, f x = g x) -> forallb f l = forallb g l.
Proof.
  intros H. induction l as [|x l IH]; simpl; [reflexivity|].
  now rewrite H, IH.
Qed.

Lemma extract_returns (text_field : json) :
  returns (extract_text_content text_field) <-> text_ok text_field = true.
Proof.
  destruct text_field as [| | | |s|items|d];
    try (simpl; split; [reflexivity | intros _; apply returns_ok]).
  unfold returns, text_ok. split.
  - intros (out & H). apply extract_list_spec in H as (texts & HF & _).
    rewrite <- (forallb_pointwise _ _ items span_text_returns).
    apply Forall2_returns. now exists texts.
  - intros H.
    rewrite <- (forallb_pointwise _ _ items span_text_returns) in H.
    apply Forall2_returns in H as (texts & HF).
    exists (List.concat texts). apply extract_list_spec. now exists texts.
Qed.

Lemma media_returns (message : obj) :
  returns (get_message_type_info message) <-> media_ok message = true.
Proof.
  rewrite get_message_type_info_classify, returns_is_ok. unfold media_ok.
  destruct (classify message) as [[]|]; simpl; try (split; reflexivity).
  - now destruct (get message "location_information" (JObj [])).
  - destruct (get message "contact_information" (JObj [])) as [| | | | | |c];
      simpl; try (split; discriminate).
    destruct (get c "first_name" (JStr [])); simpl; try (split; discriminate).
    destruct (get c "last_name" (JStr [])); simpl; split;
      try discriminate; reflexivity.
  - now destruct (get message "poll" (JObj [])).
Qed.

Lemma service_returns (message : obj) :
  returns (format_service_message message) <->
  hashable (get message "action" (JStr [])) = true.
Proof.
  unfold format_service_message, table_get.
  destruct (hashable _); split; try discriminate.
  - reflexivity.
  - intros _. apply returns_ok.
  - intros H. now apply not_returns_raise in H.
Qed.

Lemma reply_returns (message : obj) (message_index : index) :
  returns (reply_lines message message_index) <->
  reply_ok message message_index = true.
Proof.
  unfold reply_lines, reply_ok, index_mem, index_get.
  destruct (truthy _); simpl;
    [|split; [reflexivity | intros _; apply returns_ok]].
  destruct (hashable _); simpl;
    [|split; [intros H; now apply not_returns_raise in H | discriminate]].
  destruct (index_find _ _) as [original|]; simpl;
    [|split; [reflexivity | intros _; apply returns_ok]].
  rewrite <- extract_returns, returns_bind. split.
  - intros (t & Ht & _). now exists t.
  - intros (t & Ht). exists t. split; [assumption | apply returns_ok].
Qed.

Lemma format_message_lines_returns (message : obj) (message_index : index) :
  returns (format_message_lines message message_index) <->
  renderable message message_index = true.
Proof.
  unfold renderable. destruct (is_service message) eqn:Hkind.
  - rewrite <- service_returns. unfold format_message_lines.
    unfold is_service in Hkind. rewrite Hkind, format_timestamp_value.
    simpl bind. rewrite returns_bind. split.
    + intros (t & Ht & _). now exists t.
    + intros (t & Ht). exists t. split; [assumption | apply returns_ok].
  - rewrite format_message_lines_content by assumption.
    rewrite !andb_true_iff, <- reply_returns, <- extract_returns,
      <- media_returns.
    unfold body_lines. rewrite returns_bind. split.
    + intros (reply & Hreply & H). apply returns_bind in H as (body & H & _).
      apply bind_ok in H as (text & Htext & H).
      apply bind_ok in H as (media_info & Hmedia & _).
      repeat split; eexists; eassumption.
    + intros [[(reply & Hreply) (text & Htext)] (media_info & Hmedia)].
      exists reply. split; [assumption|].
      rewrite Htext, Hmedia. apply returns_ok.
Qed.

End Renderer.

(** ** Document assembler *)

Section Assembler.
Context {rt : Runtime}.

Lemma as_dict_ok (v : json) (d : obj) : as_dict v = Ok d <-> v = JObj d.
Proof.
  destruct v; simpl; split; intros H; try discriminate;
    injection H as ->; reflexivity.
Qed.

Lemma format_messages_spec (messages : list json) (message_index : index)
    (output_parts out : list pystr) :
  format_messages output_parts messages message_index = Ok out <->
  exists blocks,
    Forall2 (fun message block =>
               exists m, message = JObj m /\
                         format_message m message_index = Ok block)
            messages blocks /\
    out = output_parts ++ blocks.
Proof.
  revert output_parts out.
  induction messages as [|message messages IH]; intros output_parts out; simpl.
  - split.
    + intros [= <-]. exists []. split; [constructor | now rewrite app_nil_r].
    + intros (blocks & H & ->). inversion H. now rewrite app_nil_r.
  - rewrite bind_ok. split.
    + intros (m & Hm & H). apply as_dict_ok in Hm.
      apply bind_ok in H as (formatted & Hf & H).
      apply IH in H as (blocks & HF & ->).
      exists (formatted :: blocks). split.
      * constructor; [now exists m | assumption].
      * now rewrite <- app_assoc.
    + intros (blocks & HF & ->).
      inversion HF as [|? block ? blocks' (m & -> & Hm) HF']; subst.
      exists m. split; [reflexivity|]. rewrite Hm. simpl bind.
      apply IH. exists blocks'. split; [assumption|].
      now rewrite <- app_assoc.
Qed.

(** C9.  The document is the header followed by one block for each entry
    of the message sequence, service or content, in the order of the
    sequence, joined by newlines. *)
Theorem convert_to_markdown_blocks (chat_data : obj) (out : pystr) :
  convert_to_markdown chat_data = Ok out <->
  exists header message_index messages blocks,
    generate_chat_header chat_data = Ok header /\
    build_message_index (get chat_data "messages" (JList [])) =
      Ok message_index /\
    py_iter (get chat_data "messages" (JList [])) = Ok messages /\
    Forall2 (fun message block =>
               exists m, message = JObj m /\
                         format_message m message_index = Ok block)
            messages blocks /\
    List.length blocks = List.length messages /\
    out = join [NL] (header :: blocks).
Proof.
  unfold convert_to_markdown. rewrite bind_ok. split.
  - intros (header & Hheader & H).
    apply bind_ok in H as (message_index & Hindex & H).
    apply bind_ok in H as (messages & Hiter & H).
    apply bind_ok in H as (parts & Hparts & [= <-]).
    apply format_messages_spec in Hparts as (blocks & HF & ->).
    exists header, message_index, messages, blocks.
    repeat split; try assumption.
    symmetry. eapply Forall2_length. eassumption.
  - intros (header & message_index & messages & blocks &
            Hheader & Hindex & Hiter & HF & _ & ->).
    exists header. split; [assumption|].
    rewrite Hindex, Hiter. simpl bind.
    apply bind_ok. exists (header :: blocks). split; [|reflexivity].
    apply format_messages_spec. now exists blocks.
Qed.

(** *** The header, piece by piece *)

Lemma collect_dates_objs (messages : list obj) :
  collect_dates (map JObj messages) = Ok (dated messages).
Proof.
  unfold dated. induction messages as [|m messages IH]; simpl;
    [reflexivity|].
  rewrite IH. simpl. now destruct (truthy (get m "date" JNull)).
Qed.

Lemma header_lines_objs (chat_data : obj) (messages : list obj) :
  get chat_data "messages" (JList []) = JList (map JObj messages) ->
  generate_chat_header_lines chat_data =
  (spaced <- call_replace (get chat_data "type" (str "unknown")) "_" " " ;;
   rows <- date_rows (dated messages) ;;
   participants <- collect_participants [] (map JObj messages) ;;
   sorted <- py_sorted participants ;;
   Ok (details_lines chat_data spaced (List.length messages) ++ rows ++
       participants_lines participants sorted)).
Proof.
  intros Hmessages. unfold generate_chat_header_lines.
  rewrite Hmessages. unfold str.
  destruct (call_replace _ _ _) as [spaced|]; [|reflexivity].
  cbn [py_len py_iter]. rewrite !bind_value, length_map.
  assert (forall lines : list pystr,
             ((if truthy (JList (map JObj messages))
               then dates <- collect_dates (map JObj messages) ;;
                    if truthy (JList dates) then
                      lo <- py_min dates ;;
                      first_date <- format_timestamp lo ;;
                      hi <- py_max dates ;;
                      last_date <- format_timestamp hi ;;
                      Ok ((lines ++ [first_row first_date]) ++
                          [last_row last_date])
                    else Ok lines
               else Ok lines) = 
              (rows <- date_rows (dated messages) ;; Ok (lines ++ rows))))
    as Hrows.
  { intros lines. destruct messages as [|m messages];
      [simpl; now rewrite app_nil_r|].
    change (truthy (JList (map JObj (m :: messages)))) with true.
    cbv iota. rewrite collect_dates_objs, bind_value.
    generalize (dated (m :: messages)) as dates.
    intros [|d dates]; [simpl; now rewrite app_nil_r|].
    change (truthy (JList (d :: dates))) with true. cbv iota.
    unfold date_rows.
    destruct (py_min (d :: dates)); [|reflexivity].
    rewrite !bind_value, !format_timestamp_value, !bind_value.
    destruct (py_max (d :: dates)); [|reflexivity].
    rewrite !bind_value, !format_timestamp_value, !bind_value.
    now rewrite <- app_assoc. }
  unfold first_row, last_row in Hrows.
  rewrite Hrows. clear Hrows.
  destruct (date_rows (dated messages)) as [rows|]; [|reflexivity].
  rewrite !bind_value.
  destruct (collect_participants [] (map JObj messages))
    as [participants|]; [|reflexivity].
  rewrite !bind_value.
  unfold participants_lines, header_end, count_row, bullet, details_lines, str.
  destruct participants as [|p participants].
  - simpl. now rewrite <- !app_assoc.
  - change (truthy (JList (p :: participants))) with true. cbv iota.
    destruct (py_sorted (p :: participants)) as [sorted|]; [|reflexivity].
    rewrite !bind_value. f_equal. rewrite <- !app_assoc. reflexivity.
Qed.

(** *** Smallest and largest date *)

Lemma min_from_strings (l : list pystr) (best : pystr) :
  exists lo,
    min_from (JStr best) (map JStr l) = Ok (JStr lo) /\
    In lo (best :: l) /\ Forall (str_le lo) (best :: l).
Proof.
  revert best. induction l as [|x l IH]; intros best.
  - exists best. repeat split; [now left|].
    constructor; [apply str_le_refl | constructor].
  - cbn [map min_from py_lt]. rewrite bind_value.
    destruct (str_ltb x best) eqn:E.
    + destruct (IH x) as (lo & Hmin & Hin & Hall). exists lo.
      inversion Hall as [|? ? Hx Hl]; subst.
      repeat split;
        [assumption | destruct Hin; [right; now left | now do 2 right]|].
      constructor; [|now constructor].
      apply str_le_trans with x; [exact Hx | now apply str_ltb_true_le].
    + destruct (IH best) as (lo & Hmin & Hin & Hall). exists lo.
      inversion Hall as [|? ? Hb Hl]; subst.
      repeat split; [assumption | destruct Hin; [now left | now do 2 right]|].
      constructor; [assumption|]. constructor; [|assumption].
      apply str_le_trans with best; [exact Hb | now apply str_ltb_false_le].
Qed.

Lemma max_from_strings (l : list pystr) (best : pystr) :
  exists hi,
    max_from (JStr best) (map JStr l) = Ok (JStr hi) /\
    In hi (best :: l) /\ Forall (fun d => str_le d hi) (best :: l).
Proof.
  revert best. induction l as [|x l IH]; intros best.
  - exists best. repeat split; [now left|].
    constructor; [apply str_le_refl | constructor].
  - cbn [map max_from py_lt]. rewrite bind_value.
    destruct (str_ltb best x) eqn:E.
    + destruct (IH x) as (hi & Hmax & Hin & Hall). exists hi.
      inversion Hall as [|? ? Hx Hl]; subst.
      repeat split;
        [assumption | destruct Hin; [right; now left | now do 2 right]|].
      constructor; [|now constructor].
      apply str_le_trans with x; [now apply str_ltb_true_le | exact Hx].
    + destruct (IH best) as (hi & Hmax & Hin & Hall). exists hi.
      inversion Hall as [|? ? Hb Hl]; subst.
      repeat split; [assumption | destruct Hin; [now left | now do 2 right]|].
      constructor; [assumption|]. constructor; [|assumption].
      apply str_le_trans with best; [now apply str_ltb_false_le | exact Hb].
Qed.

(** *** The set of participants *)

Lemma key_eq_strings (x : pystr) (names : list pystr) :
  existsb (key_eq (JStr x)) (map JStr names) = existsb (str_eqb x) names.
Proof.
  induction names as [|y names IH]; simpl; [reflexivity | now rewrite IH].
Qed.

Lemma set_add_name (names : list pystr) (x : pystr) :
  set_add (map JStr names) (JStr x) = Ok (map JStr (add_name names x)).
Proof.
  unfold set_add, add_name. simpl. rewrite key_eq_strings.
  destruct (existsb _ _); [reflexivity|]. now rewrite map_app.
Qed.

Lemma collect_participants_names (messages : list obj) :
  forall acc names : list pystr,
    named messages = map JStr names ->
    collect_participants (map JStr acc) (map JObj messages) =
    Ok (map JStr (fold_left add_name names acc)).
Proof.
  unfold named.
  induction messages as [|m messages IH]; intros acc names Hnames.
  - destruct names; [reflexivity | discriminate].
  - cbn [map collect_participants as_dict]. rewrite bind_value.
    change (py_or (get m "from" JNull) (get m "actor" JNull))
      with (sender_or_actor m).
    cbn [map filter] in Hnames.
    destruct (truthy (sender_or_actor m)).
    + destruct names as [|x names]; [discriminate|].
      injection Hnames as Hx Hnames. rewrite Hx, set_add_name, bind_value.
      cbn [fold_left]. now apply IH.
    + rewrite bind_value. now apply IH.
Qed.




(** *** Sorting the participants *)

Lemma insert_sorted_names (x : pystr) (l : list pystr) :
  insert_sorted (JStr x) (map JStr l) = Ok (map JStr (insert_name x l)).
Proof.
  induction l as [|y l IH]; [reflexivity|].
  cbn [map insert_sorted py_lt insert_name]. rewrite bind_value.
  destruct (str_ltb y x); [|reflexivity]. now rewrite IH.
Qed.

Lemma py_sorted_names (l : list pystr) :
  py_sorted (map JStr l) = Ok (map JStr (sort_names l)).
Proof.
  induction l as [|x l IH]; [reflexivity|].
  cbn [map py_sorted sort_names]. rewrite IH, bind_value.
  apply insert_sorted_names.
Qed.






(** *** What the header shows *)



(** The header is produced for every chat whose messages are mappings, whose
    type is a string, and whose truthy dates and names are strings. *)
Lemma header_returns (chat_data : obj) (messages : list obj)
    (chat_type : pystr) (ds names : list pystr) :
  get chat_data "messages" (JList []) = JList (map JObj messages) ->
  get chat_data "type" (str "unknown") = JStr chat_type ->
  dated messages = map JStr ds ->
  named messages = map JStr names ->
  returns (generate_chat_header_lines chat_data).
Proof.
  intros Hmessages Htype Hdates Hnames.
  rewrite (header_lines_objs _ _ Hmessages), Htype, Hdates.
  cbn [call_replace]. rewrite bind_value.
  assert (returns (date_rows (map JStr ds))) as (rows & ->).
  { destruct ds as [|d ds]; [apply returns_ok|].
    cbn [map date_rows py_min py_max].
    destruct (min_from_strings ds d) as (lo & -> & _).
    destruct (max_from_strings ds d) as (hi & -> & _).
    repeat (rewrite ?bind_value, ?format_timestamp_value).
    apply returns_ok. }
  rewrite bind_value.
  pose proof (@collect_participants_names messages [] names Hnames) as Hp.
  change (map JStr []) with (@nil json) in Hp.
  rewrite Hp, bind_value, py_sorted_names, bind_value.
  apply returns_ok.
Qed.



End Assembler.

(** * Further properties *)

(** ** Keys of the reply index

    [==] on numbers, [None] and strings is symmetric and transitive, and
    reflexive on hashable values: equal keys share one entry. *)

Lemma num_eqb_scaled (x y : Z * Z) (b : Z) :
  b <= snd x -> b <= snd y ->
  num_eqb x y = true <-> fst x * 2 ^ (snd x - b) = fst y * 2 ^ (snd y - b).
Proof.
  destruct x as [m1 e1], y as [m2 e2]. simpl. intros H1 H2.
  unfold num_eqb, num_compare. simpl.
  set (e := Z.min e1 e2).
  assert (b <= e) as Hb by (unfold e; lia).
  assert (e <= e1 /\ e <= e2) as [He1 He2] by (unfold e; lia).
  replace (e1 - b) with ((e1 - e) + (e - b)) by lia.
  replace (e2 - b) with ((e2 - e) + (e - b)) by lia.
  rewrite !Z.pow_add_r, !Z.mul_assoc by lia.
  assert (0 < 2 ^ (e - b)) as Hpos by (apply Z.pow_pos_nonneg; lia).
  destruct (m1 * 2 ^ (e1 - e) ?= m2 * 2 ^ (e2 - e)) eqn:E.
  - apply Z.compare_eq_iff in E. rewrite E. split; reflexivity.
  - split; [discriminate|]. intros H.
    apply Z.mul_cancel_r in H; [|lia]. rewrite H, Z.compare_refl in E.
    discriminate.
  - split; [discriminate|]. intros H.
    apply Z.mul_cancel_r in H; [|lia]. rewrite H, Z.compare_refl in E.
    discriminate.
Qed.

Lemma num_eqb_refl (x : Z * Z) : num_eqb x x = true.
Proof. unfold num_eqb, num_compare. now rewrite Z.compare_refl. Qed.

Lemma num_eqb_sym (x y : Z * Z) : num_eqb x y = num_eqb y x.
Proof.
  unfold num_eqb, num_compare. rewrite (Z.min_comm (snd y)).
  rewrite (Z.compare_antisym (fst x * _)). now destruct (_ ?= _).
Qed.

Lemma num_eqb_trans (x y z : Z * Z) :
  num_eqb x y = true -> num_eqb y z = true -> num_eqb x z = true.
Proof.
  set (b := Z.min (snd x) (Z.min (snd y) (snd z))).
  intros Hxy Hyz.
  apply (num_eqb_scaled x y (b := b)) in Hxy; [|unfold b; lia ..].
  apply (num_eqb_scaled y z (b := b)) in Hyz; [|unfold b; lia ..].
  apply (num_eqb_scaled x z (b := b)); [unfold b; lia ..|]. congruence.
Qed.

Lemma key_eq_refl (k : json) : hashable k = true -> key_eq k k = true.
Proof.
  destruct k; try discriminate; intros _; unfold key_eq; simpl;
    try apply num_eqb_refl; [reflexivity | apply str_eqb_refl].
Qed.

Lemma str_eqb_sym (a b : pystr) : str_eqb a b = str_eqb b a.
Proof.
  destruct (str_eqb a b) eqn:E.
  - apply str_eqb_eq in E. subst. symmetry. apply str_eqb_refl.
  - destruct (str_eqb b a) eqn:E'; [|reflexivity].
    apply str_eqb_eq in E'. subst. now rewrite str_eqb_refl in E.
Qed.

Lemma key_eq_sym (a b : json) : key_eq a b = key_eq b a.
Proof.
  unfold key_eq.
  destruct (as_number a) as [x|] eqn:Ea, (as_number b) as [y|] eqn:Eb;
    try reflexivity.
  - apply num_eqb_sym.
  - destruct a, b; try reflexivity; try discriminate. apply str_eqb_sym.
Qed.

Lemma key_eq_trans (a b c : json) :
  key_eq a b = true -> key_eq b c = true -> key_eq a c = true.
Proof.
  unfold key_eq.
  destruct (as_number a) as [x|] eqn:Ea, (as_number b) as [y|] eqn:Eb,
    (as_number c) as [z|] eqn:Ec; try discriminate.
  - apply num_eqb_trans.
  - destruct a, b, c; try discriminate; try reflexivity.
    intros H1 H2. apply str_eqb_eq in H1, H2. subst. apply str_eqb_refl.
Qed.

(** [d[k] = v], then [d.get(k')]. *)
Lemma index_find_update (d : index) (k k' : json) (v : obj) :
  index_find k' (index_update k v d) =
  if key_eq k' k then Some v else index_find k' d.
Proof.
  induction d as [|[k0 v0] d IH]; simpl; [reflexivity|].
  destruct (key_eq k k0) eqn:E0; simpl.
  - destruct (key_eq k' k0) eqn:E1.
    + rewrite (key_eq_trans k' k0 k E1); [reflexivity|].
      now rewrite key_eq_sym.
    + destruct (key_eq k' k) eqn:E2; [|reflexivity].
      now rewrite (key_eq_trans k' k k0 E2 E0) in E1.
  - destruct (key_eq k' k0) eqn:E1; [|exact IH].
    destruct (key_eq k' k) eqn:E2; [|reflexivity].
    rewrite key_eq_sym in E2.
    now rewrite (key_eq_trans k k' k0 E2 E1) in E0.
Qed.

(** ** Building the reply index *)

Lemma find_last {A} (f : A -> bool) (l : list A) (x : A) :
  find f (l ++ [x]) =
  match find f l with
  | Some y => Some y
  | None => if f x then Some x else None
  end.
Proof.
  induction l as [|y l IH]; simpl; [reflexivity|].
  now destruct (f y).
Qed.

Lemma index_messages_lookup (messages : list obj) :
  Forall (fun m => has_key "id" m = true ->
                   hashable (get m "id" JNull) = true) messages ->
  forall acc : index,
  exists message_index,
    index_messages acc (map JObj messages) = Ok message_index /\
    forall k,
      index_find k message_index =
      match find (fun m => has_key "id" m && key_eq k (get m "id" JNull))
                 (rev messages) with
      | Some m => Some m
      | None => index_find k acc
      end.
Proof.
  induction 1 as [|m messages Hm _ IH]; intros acc.
  - exists acc. split; reflexivity.
  - cbn [map index_messages contains_str]. rewrite bind_value.
    destruct (has_key "id" m) eqn:Hid.
    + cbn [as_dict]. rewrite bind_value. unfold index_set.
      rewrite (Hm eq_refl), bind_value.
      destruct (IH (index_update (get m "id" JNull) m acc))
        as (message_index & Hbuild & Hfind).
      exists message_index. split; [exact Hbuild|]. intros k.
      rewrite Hfind. cbn [rev]. rewrite find_last, Hid, index_find_update.
      destruct (find _ _); [reflexivity|]. simpl.
      now destruct (key_eq k (get m "id" JNull)).
    + destruct (IH acc) as (message_index & Hbuild & Hfind).
      exists message_index. split; [exact Hbuild|]. intros k.
      rewrite Hfind. cbn [rev]. rewrite find_last, Hid.
      now destruct (find _ _).
Qed.

(** X1.  On a sequence of mappings whose identifiers are hashable,
    [build_message_index] returns an index in which looking up a key gives
    the last message of the sequence that has an [id] equal to the key, and
    nothing when there is none: messages without an [id] are left out, and
    of two messages with equal identifiers the later one is kept. *)
Theorem build_message_index_lookup (messages : list obj) :
  Forall (fun m => has_key "id" m = true ->
                   hashable (get m "id" JNull) = true) messages ->
  exists message_index,
    build_message_index (JList (map JObj messages)) = Ok message_index /\
    forall k,
      index_find k message_index =
      find (fun m => has_key "id" m && key_eq k (get m "id" JNull))
           (rev messages).
Proof.
  intros Hids.
  destruct (index_messages_lookup Hids []) as (message_index & Hbuild & Hfind).
  exists message_index. split; [exact Hbuild|]. intros k.
  rewrite Hfind. now destruct (find _ _).
Qed.

Lemma index_messages_hashable (messages : list obj) :
  forall acc message_index : index,
    index_messages acc (map JObj messages) = Ok message_index ->
    Forall (fun m => has_key "id" m = true ->
                     hashable (get m "id" JNull) = true) messages.
Proof.
  induction messages as [|m messages IH]; intros acc message_index H;
    constructor.
  - intros Hid. cbn [map index_messages contains_str] in H.
    rewrite bind_value, Hid in H. cbn [as_dict] in H.
    rewrite bind_value in H. unfold index_set in H.
    now destruct (hashable (get m "id" JNull)).
  - cbn [map index_messages contains_str] in H. rewrite bind_value in H.
    destruct (has_key "id" m); [|now apply IH in H].
    cbn [as_dict] in H. rewrite bind_value in H.
    apply bind_ok in H as (acc' & _ & H). now apply IH in H.
Qed.

(** X2.  When the index is built, every message of the sequence that has
    an [id] can be looked up by it, and what is found is a message of the
    sequence with an equal [id]. *)
Theorem build_message_index_resolves
    (messages : list obj) (message_index : index) (m : obj) :
  build_message_index (JList (map JObj messages)) = Ok message_index ->
  In m messages -> has_key "id" m = true ->
  exists found,
    index_find (get m "id" JNull) message_index = Some found /\
    In found messages /\ has_key "id" found = true /\
    key_eq (get m "id" JNull) (get found "id" JNull) = true.
Proof.
  intros Hbuild Hin Hid.
  unfold build_message_index in Hbuild. cbn [py_iter] in Hbuild.
  rewrite bind_value in Hbuild.
  pose proof (index_messages_hashable _ _ Hbuild) as Hids.
  destruct (index_messages_lookup Hids []) as (idx & Hbuild' & Hfind).
  rewrite Hbuild' in Hbuild. injection Hbuild as <-.
  rewrite Hfind.
  destruct (find _ (rev messages)) as [found|] eqn:E.
  - exists found. apply find_some in E as [Hfound Hp].
    apply andb_true_iff in Hp as [Hp1 Hp2].
    repeat split; try assumption. now apply in_rev.
  - exfalso. apply in_rev in Hin.
    pose proof (find_none _ _ E m Hin) as Hnone. cbv beta in Hnone.
    rewrite Hid, key_eq_refl in Hnone; [discriminate|].
    rewrite Forall_forall in Hids. apply Hids; [now apply in_rev | exact Hid].
Qed.

Lemma index_messages_unhashable (messages : list obj) :
  Exists (fun m => has_key "id" m = true /\
                   hashable (get m "id" JNull) = false) messages ->
  forall acc, index_messages acc (map JObj messages) = Raise TypeError.
Proof.
  induction messages as [|m messages IH]; intros Hbad acc.
  - inversion Hbad.
  - cbn [map index_messages contains_str]. rewrite bind_value.
    destruct (has_key "id" m) eqn:Hid.
    + cbn [as_dict]. rewrite bind_value. unfold index_set.
      destruct (hashable (get m "id" JNull)) eqn:Hh; [|reflexivity].
      rewrite bind_value. apply IH.
      inversion Hbad as [? ? [_ H]|]; [congruence | assumption].
    + apply IH. inversion Hbad as [? ? [H _]|]; [congruence | assumption].
Qed.

(** X3.  A message whose [id] is a list or a mapping makes
    [build_message_index] raise [TypeError]. *)
Theorem build_message_index_unhashable (messages : list obj) :
  Exists (fun m => has_key "id" m = true /\
                   hashable (get m "id" JNull) = false) messages ->
  build_message_index (JList (map JObj messages)) = Raise TypeError.
Proof.
  intros Hbad. unfold build_message_index. cbn [py_iter].
  rewrite bind_value. now apply index_messages_unhashable.
Qed.

(** ** Service sentences *)

Lemma framed_tail (x y : N) (s t : pystr) :
  s = x :: t -> hd_error (rev t) = Some y ->
  exists body, s = [x] ++ body ++ [y].
Proof.
  intros ->. destruct t as [|d t _] using rev_ind; [discriminate|].
  rewrite rev_app_distr. intros [= ->]. now exists t.
Qed.

Lemma rev_head_cons (a y : N) (l : pystr) :
  hd_error (rev l) = Some y -> hd_error (rev (a :: l)) = Some y.
Proof.
  simpl. destruct (rev l); [discriminate|]. now intros [= ->].
Qed.

Lemma rev_head_app (y : N) (l l' : pystr) :
  hd_error (rev l') = Some y -> hd_error (rev (l ++ l')) = Some y.
Proof.
  rewrite rev_app_distr. destruct (rev l'); [discriminate|]. now intros [= ->].
Qed.

(** A string built from literals and printed values, between [x] and [y]. *)
Ltac framed_by x y :=
  eapply (@framed_tail x y); [reflexivity|];
  repeat first [reflexivity | apply rev_head_app | apply rev_head_cons].

Lemma table_get_all (P : pystr -> Prop) (d : list (string * pystr))
    (k : json) (default s : pystr) :
  Forall (fun kv => P (snd kv)) d -> P default ->
  table_get d k default = Ok s -> P s.
Proof.
  intros Hd Hdefault. unfold table_get.
  destruct (hashable k); [|discriminate]. intros [= <-].
  destruct (find _ d) as [kv|] eqn:E; [|exact Hdefault].
  apply find_some in E as [Hin _].
  rewrite Forall_forall in Hd. now apply Hd.
Qed.

Lemma get_cons_same (k : string) (v : json) (d : obj) (default : json) :
  get ((u k, v) :: d) k default = v.
Proof. unfold get. simpl. now rewrite str_eqb_refl. Qed.

Lemma get_cons_other (k k' : string) (v : json) (d : obj) (default : json) :
  str_eqb (u k') (u k) = false ->
  get ((u k, v) :: d) k' default = get d k' default.
Proof. intros H. unfold get. simpl. now rewrite H. Qed.

Section Service.
Context {rt : Runtime}.

(** Whatever the action, the actor and the title, the sentence of a service
    message is set in asterisks. *)
Lemma format_service_message_italic (message : obj) (sentence : pystr) :
  format_service_message message = Ok sentence ->
  exists body, sentence = u "*" ++ body ++ u "*".
Proof.
  unfold format_service_message.
  apply (table_get_all (fun s => exists body, s = u "*" ++ body ++ u "*")).
  - repeat (constructor; [cbn [snd]; framed_by 42%N 42%N|]). constructor.
  - framed_by 42%N 42%N.
Qed.

(** X4.  An action that is hashable and none of the fourteen known codes
    is shown between square brackets, as [*[action]*]. *)
Theorem format_service_message_unknown (message : obj) :
  let action := get message "action" (JStr []) in
  hashable action = true ->
  (forall code,
      In code ["create_group"; "invite_members"; "remove_members";
               "join_group_by_link"; "leave_group"; "pin_message";
               "edit_group_title"; "edit_group_photo"; "delete_group_photo";
               "migrate_from_group"; "migrate_to_supergroup"; "phone_call";
               "score_in_game"; "bot_allowed"]%string ->
      eq_str action code = false) ->
  format_service_message message = Ok (u "*[" ++ py_str action ++ u "]*").
Proof.
  intros action Hhash Hnone. unfold format_service_message, table_get.
  fold action. rewrite Hhash. cbn [find fst snd].
  repeat (rewrite Hnone by (simpl; tauto)). reflexivity.
Qed.

(** X5.  In a service message without an [actor] field the [from] field
    stands in for it, and [Someone] when both are missing: the sentence is
    that of the message with this value as its actor. *)
Theorem format_service_message_actor (message : obj) :
  lookup (u "actor") message = None ->
  format_service_message message =
  format_service_message
    ((u "actor", get message "from" (str "Someone")) :: message).
Proof.
  intros Hactor. unfold format_service_message, str.
  rewrite get_cons_same, !get_cons_other by reflexivity.
  assert (forall default, get message "actor" default = default) as ->
    by (intros default; unfold get; now rewrite Hactor).
  reflexivity.
Qed.

(** X6.  The block of a service message is two quoted lines in italics, the
    sentence and the timestamp, and ends with a newline. *)
Theorem service_block_layout
    (message : obj) (message_index : index) (block : pystr) :
  is_service message = true ->
  format_message message message_index = Ok block ->
  exists sentence,
    format_service_message message = Ok (u "*" ++ sentence ++ u "*") /\
    block =
      (u "> " ++ u "*" ++ sentence ++ u "*") ++ [NL] ++
      (u "> *" ++ py_str (timestamp_of (get message "date" (JStr []))) ++
       u "*") ++ [NL].
Proof.
  intros Hservice. unfold format_message, format_message_lines.
  unfold is_service in Hservice.
  rewrite Hservice, format_timestamp_value, bind_value.
  intros H. apply bind_ok in H as (lines & H & Hblock).
  apply bind_ok in H as (service_text & Htext & H).
  destruct (format_service_message_italic _ Htext) as (sentence & ->).
  exists sentence. split; [exact Htext|].
  assert (block = join [NL] lines) as -> by congruence.
  assert (lines =
          [u "> " ++ u "*" ++ sentence ++ u "*";
           u "> *" ++ py_str (timestamp_of (get message "date" (JStr []))) ++
           u "*"; []]) as -> by (injection H as <-; reflexivity).
  cbn [join]. now rewrite app_nil_r.
Qed.

End Service.

(** ** Blocks *)

Section Blocks.
Context {rt : Runtime}.

(** X7.  A message is rendered with the reply index consulted at one key
    only, its truthy reply reference: two indexes that agree there give the
    same block, errors included, and a service message or a message whose
    reference is missing or falsy is rendered the same under every index. *)
Theorem format_message_index_use
    (message : obj) (message_index message_index' : index) :
  (is_service message = false ->
   truthy (get message "reply_to_message_id" JNull) = true ->
   index_find (get message "reply_to_message_id" JNull) message_index =
   index_find (get message "reply_to_message_id" JNull) message_index') ->
  format_message message message_index =
  format_message message message_index'.
Proof.
  intros Hsame. unfold format_message. f_equal.
  destruct (is_service message) eqn:Hservice.
  - unfold format_message_lines. unfold is_service in Hservice.
    now rewrite Hservice.
  - rewrite !format_message_lines_content by assumption. f_equal.
    unfold reply_lines, index_mem, index_get.
    destruct (truthy _) eqn:Htruthy; [|reflexivity].
    now rewrite (Hsame eq_refl eq_refl).
Qed.

(** X8.  The block of a service message is made from its [date], [action],
    [actor], [from] and [title] fields alone: two service messages that
    agree on these are rendered the same, whatever their text, media, reply
    and forward fields and whatever the index. *)
Theorem service_block_fields
    (message message' : obj) (message_index message_index' : index) :
  is_service message = true -> is_service message' = true ->
  (forall k, In k ["date"; "action"; "actor"; "from"; "title"]%string ->
             lookup (u k) message = lookup (u k) message') ->
  format_message message message_index =
  format_message message' message_index'.
Proof.
  intros Hs Hs' Hfields. unfold format_message. f_equal.
  unfold format_message_lines. unfold is_service in Hs, Hs'.
  rewrite Hs, Hs'. unfold format_service_message, get.
  rewrite !(Hfields "date"%string), !(Hfields "action"%string),
    !(Hfields "actor"%string), !(Hfields "from"%string),
    !(Hfields "title"%string) by (simpl; tauto).
  reflexivity.
Qed.

Lemma content_lines_text (text media_info : pystr) :
  join [NL]
    ((if nonempty media_info
      then ([PAPERCLIP] ++ u " " ++ media_info) ::
           (if nonempty text then [[]] else [])
      else []) ++
     (if nonempty text then [text] else []) ++
     (if negb (nonempty text) && negb (nonempty media_info)
      then [u "*[Empty message]*"]
      else [])) <> [].
Proof.
  destruct media_info as [|c media_info], text as [|d text]; discriminate.
Qed.

Lemma content_lines_frame
    (message : obj) (message_index : index) (lines : list pystr) :
  is_service message = false ->
  format_message_lines message message_index = Ok lines ->
  exists middle,
    join [NL] middle <> [] /\
    lines = heading_lines message ++ middle ++ [[]; u "---"; []].
Proof.
  intros Hcontent. rewrite format_message_lines_content by assumption.
  intros H. apply bind_ok in H as (reply & Hreply & H).
  apply bind_ok in H as (body & Hbody & H). injection H as <-.
  unfold body_lines in Hbody.
  apply bind_ok in Hbody as (text & _ & Hbody).
  apply bind_ok in Hbody as (media_info & _ & Hbody). injection Hbody as <-.
  set (forward := if truthy _ then _ else _).
  set (media := if nonempty media_info then _ else _).
  set (words := if nonempty text then [text] else []).
  set (placeholder := if negb _ && negb _ then _ else _).
  exists (reply ++ forward ++ media ++ words ++ placeholder). split.
  - do 2 apply join_nonempty. apply (content_lines_text text media_info).
  - now rewrite <- !app_assoc.
Qed.

Lemma frame_join (h1 h2 : pystr) (middle : list pystr) :
  join [NL] middle <> [] ->
  join [NL] ([h1; h2; []] ++ middle ++ [[]; u "---"; []]) =
  h1 ++ [NL] ++ h2 ++ [NL] ++ [NL] ++ join [NL] middle ++ [NL] ++ [NL] ++
  u "---" ++ [NL].
Proof.
  intros Hmiddle.
  assert (middle <> []) as Hne by (intros ->; now apply Hmiddle).
  rewrite join_app, join_app by (assumption || discriminate ||
    (intros E; apply app_eq_nil in E as [_ E]; discriminate)).
  cbn [join app]. rewrite <- app_assoc. cbn [app].
  now rewrite <- app_assoc.
Qed.

(** X9.  The block of a content message starts with the heading line, the
    line of the timestamp and the identifier and a blank line, and ends with
    a blank line and the rule [---]; there is text in between. *)
Theorem content_block_frame
    (message : obj) (message_index : index) (block : pystr) :
  is_service message = false ->
  format_message message message_index = Ok block ->
  exists middle,
    middle <> [] /\
    block =
      (u "### " ++ py_str (sender_of message)) ++ [NL] ++
      (u "*" ++ py_str (timestamp_of (get message "date" (JStr []))) ++
       u "* | Message #" ++ py_str (get message "id" (JStr []))) ++ [NL] ++
      [NL] ++ middle ++ [NL] ++ [NL] ++ u "---" ++ [NL].
Proof.
  intros Hcontent H. unfold format_message in H.
  apply bind_ok in H as (lines & Hlines & H). injection H as <-.
  apply content_lines_frame in Hlines as (middle & Hmiddle & ->);
    [|assumption].
  exists (join [NL] middle). split; [exact Hmiddle|].
  unfold heading_lines. now rewrite frame_join.
Qed.

(** X10.  After the heading and the reply and forward lines, if any, a
    content block shows the media tag behind a paperclip, a blank line and
    the text when the message has both, the one of the two it has otherwise,
    and [*[Empty message]*] when it has neither; the closing blank line, rule
    and blank line follow. *)
Theorem content_block_body
    (message : obj) (message_index : index) (lines : list pystr) :
  is_service message = false ->
  format_message_lines message message_index = Ok lines ->
  exists text media_info before,
    extract_text_content (get message "text" (JStr [])) = Ok text /\
    get_message_type_info message = Ok media_info /\
    lines =
      before ++
      match media_info, text with
      | [], [] => [u "*[Empty message]*"]
      | [], _ :: _ => [text]
      | _ :: _, [] => [[PAPERCLIP] ++ u " " ++ media_info]
      | _ :: _, _ :: _ => [[PAPERCLIP] ++ u " " ++ media_info; []; text]
      end ++
      [[]; u "---"; []].
Proof.
  intros Hcontent. rewrite format_message_lines_content by assumption.
  intros H. apply bind_ok in H as (reply & Hreply & H).
  apply bind_ok in H as (body & Hbody & H). injection H as <-.
  unfold body_lines in Hbody.
  apply bind_ok in Hbody as (text & Htext & Hbody).
  apply bind_ok in Hbody as (media_info & Hmedia & Hbody).
  injection Hbody as <-.
  set (forward := if truthy _ then _ else _).
  exists text, media_info, (heading_lines message ++ reply ++ forward).
  split; [exact Htext|]. split; [exact Hmedia|].
  rewrite <- !app_assoc. do 3 f_equal.
  now destruct media_info, text.
Qed.

(** *** Forwarded messages *)

Lemma lookup_missing (k : string) (d : obj) (default : json) :
  lookup (u k) d = None -> get d k default = default.
Proof. intros H. unfold get. now rewrite H. Qed.

Lemma dict_remove_missing (k : string) (d : obj) :
  lookup (u k) d = None -> dict_remove k d = d.
Proof.
  unfold dict_remove. induction d as [|[k' v] d IH]; [reflexivity|].
  simpl. destruct (str_eqb (u k) k'); [discriminate|].
  intros H. simpl. now rewrite IH.
Qed.

Lemma media_without_forward (message : obj) :
  get_message_type_info (dict_remove "forwarded_from" message) =
  get_message_type_info message.
Proof.
  unfold get_message_type_info.
  now rewrite ?get_remove_other, ?has_key_remove_other by reflexivity.
Qed.

Lemma content_without_forward (message : obj) (message_index : index) :
  is_service message = false ->
  format_message_lines (dict_remove "forwarded_from" message) message_index =
  (reply <- reply_lines message message_index ;;
   text <- extract_text_content (get message "text" (JStr [])) ;;
   media_info <- get_message_type_info message ;;
   Ok (heading_lines message ++ reply ++
       (if nonempty media_info
        then ([PAPERCLIP] ++ u " " ++ media_info) ::
             (if nonempty text then [[]] else [])
        else []) ++
       (if nonempty text then [text] else []) ++
       (if negb (nonempty text) && negb (nonempty media_info)
        then [u "*[Empty message]*"]
        else []) ++
       [[]; u "---"; []])).
Proof.
  intros Hcontent. rewrite format_message_lines_content.
  - replace (reply_lines (dict_remove "forwarded_from" message) message_index)
      with (reply_lines message message_index)
      by (unfold reply_lines; now rewrite !get_remove_other by reflexivity).
    replace (heading_lines (dict_remove "forwarded_from" message))
      with (heading_lines message)
      by (unfold heading_lines, sender_of;
          now rewrite !lookup_remove_other, !get_remove_other
            by reflexivity).
    unfold body_lines. rewrite media_without_forward.
    rewrite (@lookup_missing _ _ JNull (@lookup_remove_same _ _)).
    rewrite !get_remove_other by reflexivity.
    destruct (reply_lines message message_index); [|reflexivity].
    rewrite !bind_value.
    destruct (extract_text_content _); [|reflexivity].
    rewrite !bind_value.
    now destruct (get_message_type_info message).
  - unfold is_service in *. now rewrite get_remove_other.
Qed.

(** X11.  A [forwarded_from] field that is falsy ([None], empty, zero)
    changes nothing: the block is that of the message without the field.  A
    truthy one, of whatever type, adds the forward line and a blank line
    right after the heading and the reply block, and nothing else. *)
Theorem forwarded_block
    (message : obj) (message_index : index) (forwarded_from : json) :
  is_service message = false ->
  lookup (u "forwarded_from") message = Some forwarded_from ->
  (truthy forwarded_from = false ->
   format_message_lines message message_index =
   format_message_lines (dict_remove "forwarded_from" message)
     message_index) /\
  (truthy forwarded_from = true ->
   forall lines,
     format_message_lines (dict_remove "forwarded_from" message)
       message_index = Ok lines ->
     exists reply rest,
       reply_lines message message_index = Ok reply /\
       lines = heading_lines message ++ reply ++ rest /\
       format_message_lines message message_index =
       Ok (heading_lines message ++ reply ++
           [u "> **" ++ [FORWARD_ARROW] ++ u " Forwarded from " ++
            py_str forwarded_from ++ u "**"; []] ++
           rest)).
Proof.
  intros Hcontent Hfield.
  assert (get message "forwarded_from" JNull = forwarded_from) as Hget
    by (unfold get; now rewrite Hfield).
  rewrite content_without_forward, format_message_lines_content
    by assumption.
  unfold body_lines. rewrite Hget. split; intros Htruthy; rewrite Htruthy.
  - destruct (reply_lines message message_index); [|reflexivity].
    rewrite !bind_value.
    destruct (extract_text_content _); [|reflexivity].
    rewrite !bind_value.
    now destruct (get_message_type_info message).
  - intros lines H.
    apply bind_ok in H as (reply & Hreply & H).
    apply bind_ok in H as (text & Htext & H).
    apply bind_ok in H as (media_info & Hmedia & H). injection H as <-.
    eexists reply, _. split; [exact Hreply|]. split; [reflexivity|].
    rewrite Hreply, bind_value, Htext, bind_value, Hmedia, !bind_value.
    reflexivity.
Qed.

(** *** The reply line *)

Lemma reply_excerpt_one_line (t : pystr) : ~ In NL (reply_excerpt t).
Proof.
  assert (forall s, ~ In NL (map newline_to_space s)) as Hmap.
  { intros s H. apply in_map_iff in H as (c & H & _).
    unfold newline_to_space in H.
    destruct (c =? NL)%N eqn:E; [discriminate|].
    apply N.eqb_neq in E. contradiction. }
  unfold reply_excerpt. destruct (100 <? List.length t)%nat.
  - intros H. apply in_app_or in H as [H|H]; [now apply Hmap in H|].
    simpl in H. unfold NL in H. intuition discriminate.
  - apply Hmap.
Qed.

Lemma reply_excerpt_length (t : pystr) :
  (List.length (reply_excerpt t) <= 103)%nat.
Proof.
  unfold reply_excerpt. destruct (100 <? List.length t)%nat eqn:E.
  - rewrite length_app, length_map, length_firstn.
    change (List.length (u "...")) with 3%nat. lia.
  - apply Nat.ltb_ge in E. rewrite length_map. lia.
Qed.

(** X12.  In the block of a reply whose reference is a key of the index,
    the heading is followed by the line that quotes the original, a newline
    and a blank line; what this line shows after the name of the sender has
    no newline and at most 103 characters, however long the original text is
    and however many lines it has. *)
Theorem reply_quote_one_line
    (message : obj) (message_index : index) (original : obj)
    (block : pystr) :
  is_service message = false ->
  truthy (get message "reply_to_message_id" JNull) = true ->
  index_find (get message "reply_to_message_id" JNull) message_index =
    Some original ->
  format_message message message_index = Ok block ->
  exists excerpt rest,
    block =
      heading_text message ++
      (u "> **" ++ [REPLY_ARROW] ++ u " Reply to " ++
       py_str (sender_of original) ++ u ":** " ++ excerpt) ++
      [NL] ++ [NL] ++ rest /\
    ~ In NL excerpt /\ (List.length excerpt <= 103)%nat.
Proof.
  intros Hcontent Htruthy Hfound.
  rewrite (block_with_reply _ _ Hcontent Htruthy Hfound).
  intros H. apply bind_ok in H as (t & _ & H).
  apply bind_ok in H as (body & _ & H).
  exists (reply_excerpt t), (join [NL] body). split; [|split].
  - unfold reply_quote in H. congruence.
  - apply reply_excerpt_one_line.
  - apply reply_excerpt_length.
Qed.

End Blocks.

(** ** Replies across the archive *)

Section Archive.
Context {rt : Runtime}.

(** X13.  With the index built from the whole archive, a reply quotes a
    message of the archive wherever that message stands, before or after
    the reply: when the truthy reference of a content message equals the
    [id] of some message of the archive, its block has, right after the
    heading, the line that quotes a message of the archive with that
    [id]. *)
Theorem reply_resolves_in_archive
    (messages : list obj) (message_index : index) (message original : obj)
    (block : pystr) :
  build_message_index (JList (map JObj messages)) = Ok message_index ->
  In original messages -> has_key "id" original = true ->
  is_service message = false ->
  truthy (get message "reply_to_message_id" JNull) = true ->
  key_eq (get message "reply_to_message_id" JNull)
         (get original "id" JNull) = true ->
  format_message message message_index = Ok block ->
  exists found excerpt rest,
    In found messages /\
    key_eq (get found "id" JNull) (get original "id" JNull) = true /\
    block =
      heading_text message ++
      (u "> **" ++ [REPLY_ARROW] ++ u " Reply to " ++
       py_str (sender_of found) ++ u ":** " ++ excerpt) ++
      [NL] ++ [NL] ++ rest.
Proof.
  intros Hbuild Hin Hid Hcontent Htruthy Hkey Hblock.
  unfold build_message_index in Hbuild. cbn [py_iter] in Hbuild.
  rewrite bind_value in Hbuild.
  pose proof (index_messages_hashable _ _ Hbuild) as Hids.
  destruct (index_messages_lookup Hids []) as (idx & Hbuild' & Hfind).
  rewrite Hbuild' in Hbuild. injection Hbuild as ->.
  specialize (Hfind (get message "reply_to_message_id" JNull)).
  destruct (find _ (rev messages)) as [found|] eqn:E.
  - apply find_some in E as [Hfound Hp].
    apply andb_true_iff in Hp as [_ Hp].
    rewrite (block_with_reply _ _ Hcontent Htruthy Hfind) in Hblock.
    apply bind_ok in Hblock as (t & _ & Hblock).
    apply bind_ok in Hblock as (body & _ & Hblock).
    exists found, (reply_excerpt t), (join [NL] body).
    split; [now apply in_rev|]. split.
    + apply key_eq_trans with (get message "reply_to_message_id" JNull);
        [now rewrite key_eq_sym | exact Hkey].
    + unfold reply_quote in Hblock. congruence.
  - exfalso. apply in_rev in Hin.
    pose proof (find_none _ _ E original Hin) as Hnone. cbv beta in Hnone.
    now rewrite Hid, Hkey in Hnone.
Qed.

End Archive.

(** ** Spans of a rich text *)

Section Spans.
Context {rt : Runtime}.

Lemma Forall2_in_split {A B} (R : A -> B -> Prop) (l : list A) (l' : list B)
    (x : A) :
  Forall2 R l l' -> In x l ->
  exists y l1 l2, l' = l1 ++ y :: l2 /\ R x y.
Proof.
  induction 1 as [|a b l l' Hab _ IH]; intros Hin; [destruct Hin|].
  destruct Hin as [->|Hin].
  - now exists b, [], l'.
  - destruct (IH Hin) as (y & l1 & l2 & -> & Hy).
    now exists y, (b :: l1), l2.
Qed.

Lemma keeps_self (x : pystr) : exists pre post, x = pre ++ x ++ post.
Proof. exists [], []. now rewrite app_nil_r. Qed.

Lemma keeps_here (x post : pystr) :
  exists pre post', x ++ post = pre ++ x ++ post'.
Proof. now exists [], post. Qed.

Lemma keeps_cons (c : N) (l x : pystr) :
  (exists pre post, l = pre ++ x ++ post) ->
  exists pre post, c :: l = pre ++ x ++ post.
Proof. intros (pre & post & ->). now exists (c :: pre), post. Qed.

Lemma keeps_app (a l x : pystr) :
  (exists pre post, l = pre ++ x ++ post) ->
  exists pre post, a ++ l = pre ++ x ++ post.
Proof.
  intros (pre & post & ->). exists (a ++ pre), post.
  now rewrite <- app_assoc.
Qed.

Ltac keeps :=
  repeat first [ apply keeps_self | apply keeps_here | apply keeps_cons
               | apply keeps_app ].

Lemma span_text_keeps (item : json) (s : pystr) :
  is_span item = true -> span_text item = Ok s ->
  exists pre post, s = pre ++ py_str (resolved_text item) ++ post.
Proof.
  intros Hspan. unfold span_text, str_join.
  destruct item as [| | | |s0|l|d]; try discriminate.
  - simpl. intros [= <-]. apply keeps_self.
  - cbn [resolved_text]. unfold extract_item.
    generalize (get d "text" (JStr [])) as text. intros text H.
    destruct (get d "type" (JStr [])) as [| | | |t| |].
    5: unfold eq_str in H;
       repeat match type of H with
         | context [str_eqb t (u ?k)] =>
             destruct (str_eqb t (u k))
         end.
    all: cbn [orb eq_str bind app strings_of join] in H.
    all: try (injection H as <-; solve [keeps]).
    all: destruct text as [| | | |x| |];
      cbn [call_startswith bind app strings_of join] in H;
      try discriminate.
    all: try destruct (startswith x (u "@"));
      cbn [negb bind app strings_of join] in H; injection H as <-.
    all: keeps.
Qed.

(** X14.  No text is lost from a rich text: the text of every string and of
    every mapping element of the list, as [str] prints it, is in the
    extracted text. *)
Theorem extract_text_content_keeps
    (items : list json) (out : pystr) (item : json) :
  extract_text_content (JList items) = Ok out ->
  In item items -> is_span item = true ->
  exists pre post, out = pre ++ py_str (resolved_text item) ++ post.
Proof.
  intros Hout Hin Hspan.
  apply extract_list_spec in Hout as (texts & Htexts & ->).
  destruct (@Forall2_in_split _ _ _ _ _ item Htexts Hin)
    as (t & l1 & l2 & -> & Ht).
  apply span_text_keeps in Ht as (pre & post & ->); [|exact Hspan].
  exists (List.concat l1 ++ pre), (post ++ List.concat l2).
  rewrite concat_app. cbn [List.concat]. now rewrite <- !app_assoc.
Qed.

(** X15.  A mention is shown with an [@] in front, which is not doubled:
    the text itself when it starts with [@], and [@] followed by the text
    otherwise. *)
Theorem mention_at_sign (d : obj) (out : pystr) :
  eq_str (get d "type" (JStr [])) "mention" = true \/
  eq_str (get d "type" (JStr [])) "mention_name" = true ->
  extract_text_content (JList [JObj d]) = Ok out ->
  exists text,
    get d "text" (JStr []) = JStr text /\
    startswith out (u "@") = true /\
    (startswith text (u "@") = true -> out = text) /\
    (startswith text (u "@") = false -> out = u "@" ++ text).
Proof.
  intros Hkind. cbn [extract_text_content extract_items]. unfold extract_item.
  destruct (get d "type" (JStr [])) as [| | | |t| |];
    try (destruct Hkind; discriminate).
  cbn [eq_str] in *.
  assert (t = u "mention" \/ t = u "mention_name") as Ht
    by (destruct Hkind as [H|H]; apply str_eqb_eq in H; tauto).
  clear Hkind.
  destruct (get d "text" (JStr [])) as [| | | |text| |];
    try (destruct Ht; subst t; discriminate).
  intros H. exists text. split; [reflexivity|].
  assert (out = if startswith text (u "@") then text else u "@" ++ text)
    as ->.
  { destruct Ht; subst t;
      cbn [str_eqb orb call_startswith bind app] in H;
      destruct (startswith text (u "@")); now injection H as <-. }
  destruct (startswith text (u "@")) eqn:E.
  - repeat split; [exact E | discriminate].
  - repeat split; [|discriminate].
    cbn. apply startswith_nil.
Qed.

Lemma strings_of_raises (parts : list json) (e : exn) :
  strings_of parts = Raise e -> e = TypeError.
Proof.
  induction parts as [|p parts IH]; [discriminate|].
  destruct p; simpl; try (now intros [= <-]).
  destruct (strings_of parts); [discriminate|].
  simpl. intros [= <-]. now apply IH.
Qed.

Lemma extract_item_raises (result : list json) (item : json) :
  broken_mention item = true /\
    extract_item result item = Raise AttributeError \/
  broken_mention item = false /\ returns (extract_item result item).
Proof.
  unfold broken_mention.
  destruct item as [| | | |s|l|d];
    try (right; split; [reflexivity | apply returns_ok]).
  unfold extract_item.
  generalize (get d "text" (JStr [])) as text. intros text.
  destruct (get d "type" (JStr [])) as [| | | |t| |];
    try (right; split; [reflexivity | apply returns_ok]).
  unfold eq_str.
  repeat match goal with
         | |- context [str_eqb t (u ?k)] =>
             let E := fresh "E" in
             destruct (str_eqb t (u k)) eqn:E;
             [apply str_eqb_eq in E; subst t|]
         end.
  all: cbn [orb andb str_eqb].
  all: try (right; split; [reflexivity | apply returns_ok]).
  all: destruct text; cbn [is_str negb call_startswith bind];
    try (left; split; reflexivity);
    right; split; try reflexivity; apply returns_ok.
Qed.

Lemma extract_items_raises (items : list json) :
  forall result,
    existsb broken_mention items = true /\
      extract_items result items = Raise AttributeError \/
    existsb broken_mention items = false /\
      returns (extract_items result items).
Proof.
  induction items as [|item items IH]; intros result.
  - right. split; [reflexivity | apply returns_ok].
  - cbn [existsb extract_items].
    destruct (extract_item_raises result item) as [[-> ->]|[-> [r ->]]].
    + left. split; reflexivity.
    + rewrite bind_value. apply IH.
Qed.

(** X16.  Extracting a text raises on a list only.  The error is
    [AttributeError] when the list has a mention whose text is not a string,
    which stops the loop; otherwise it is the [TypeError] of the final
    [join], met with a text that is not a string in a span shown as it
    is. *)
Theorem extract_text_content_raises (text_field : json) (e : exn) :
  extract_text_content text_field = Raise e ->
  exists items,
    text_field = JList items /\
    e = if existsb broken_mention items then AttributeError else TypeError.
Proof.
  destruct text_field as [| | | |s|items|d]; try discriminate.
  intros H. exists items. split; [reflexivity|].
  cbn [extract_text_content] in H.
  destruct (extract_items_raises items []) as [[-> Hitems]|[-> [r Hitems]]];
    rewrite Hitems in H.
  - now injection H as <-.
  - rewrite bind_value in H. unfold str_join in H.
    destruct (strings_of r) eqn:E; [discriminate|].
    injection H as <-. now apply strings_of_raises in E.
Qed.

End Spans.

(** ** Media tags *)

Section Tags.
Context {rt : Runtime}.

(** X17.  The media tag is either empty, when no rule of the classifier
    applies to the message, or set in square brackets. *)
Theorem media_tag_bracketed (message : obj) (tag : pystr) :
  get_message_type_info message = Ok tag ->
  (tag = [] /\ forall k, rule_matches message k = false) \/
  (exists body, tag = u "[" ++ body ++ u "]").
Proof.
  rewrite get_message_type_info_classify. unfold classify.
  destruct (find _ precedence) as [k|] eqn:E.
  - intros H. right. destruct k; cbn [rule_tag] in H.
    all: repeat match type of H with
           | bind _ _ = Ok _ =>
               let x := fresh "x" in
               apply bind_ok in H as (x & _ & H)
           end.
    all: injection H as <-.
    all: framed_by 91%N 93%N.
  - intros [= <-]. left. split; [reflexivity|]. intros k.
    apply (find_none _ _ E). destruct k; simpl; tauto.
Qed.

(** X18.  The classifier raises for three kinds of message only, those whose
    tag is read from a nested field: [AttributeError] when the location, the
    contact or the poll field is not a mapping, and [TypeError] when the
    first or the last name of a contact is not a string. *)
Theorem get_message_type_info_raises (message : obj) (e : exn) :
  get_message_type_info message = Raise e ->
  match classify message with
  | Some Location =>
      is_dict (get message "location_information" (JObj [])) = false /\
      e = AttributeError
  | Some Contact =>
      match get message "contact_information" (JObj []) with
      | JObj contact =>
          (is_str (get contact "first_name" (JStr [])) = false \/
           is_str (get contact "last_name" (JStr [])) = false) /\
          e = TypeError
      | _ => e = AttributeError
      end
  | Some Poll =>
      is_dict (get message "poll" (JObj [])) = false /\ e = AttributeError
  | _ => False
  end.
Proof.
  rewrite get_message_type_info_classify.
  destruct (classify message) as [[]|]; cbn [rule_tag]; try discriminate.
  - destruct (get message "location_information" (JObj []));
      try discriminate; now intros [= <-].
  - destruct (get message "contact_information" (JObj []))
      as [| | | | | |contact]; try (now intros [= <-]).
    cbn [as_dict]. rewrite bind_value.
    destruct (get contact "first_name" (JStr [])) as [| | | |first| |];
      try (intros [= <-]; split; [left|]; reflexivity).
    cbn [str_add str]. rewrite bind_value.
    destruct (get contact "last_name" (JStr [])) as [| | | |last| |];
      try (intros [= <-]; split; [right|]; reflexivity).
    discriminate.
  - destruct (get message "poll" (JObj []));
      try discriminate; now intros [= <-].
Qed.

End Tags.

(** ** Headers *)

Section Header.
Context {rt : Runtime}.

(** X19.  Whatever the mappings in its message list, a header begins with
    the same ten lines, the title, the table of name, type and identifier
    and the count of all the entries of the list, dated or not, and ends
    with the rule and the [## Messages] heading. *)
Theorem header_frame
    (chat_data : obj) (messages : list obj) (lines : list pystr) :
  get chat_data "messages" (JList []) = JList (map JObj messages) ->
  generate_chat_header_lines chat_data = Ok lines ->
  exists chat_type middle,
    get chat_data "type" (str "unknown") = JStr chat_type /\
    lines =
      [ u "# " ++ py_str (get chat_data "name" (str "Telegram Chat"));
        [];
        u "## Chat Details";
        [];
        u "| Property | Value |";
        u "|----------|-------|";
        u "| **Name** | " ++
          py_str (get chat_data "name" (str "Telegram Chat")) ++ u " |";
        u "| **Type** | " ++
          str_title (str_replace chat_type (u "_") (u " ")) ++ u " |";
        u "| **ID** | " ++ py_str (get chat_data "id" (JStr [])) ++ u " |";
        u "| **Total Messages** | " ++ nat_to_str (List.length messages) ++
          u " |" ] ++
      middle ++
      [u "---"; []; u "## Messages"; []].
Proof.
  intros Hmessages. rewrite (header_lines_objs _ _ Hmessages).
  intros H. apply bind_ok in H as (spaced & Hspaced & H).
  apply bind_ok in H as (rows & _ & H).
  apply bind_ok in H as (participants & _ & H).
  apply bind_ok in H as (sorted & _ & H).
  assert (lines =
          details_lines chat_data spaced (List.length messages) ++ rows ++
          participants_lines participants sorted) as -> by congruence.
  clear H.
  destruct (get chat_data "type" (str "unknown")) as [| | | |chat_type| |];
    try discriminate.
  assert (spaced = str_replace chat_type (u "_") (u " ")) as ->
    by (cbn [call_replace] in Hspaced; congruence).
  exists chat_type. unfold participants_lines.
  set (listing := match participants with [] => _ | _ :: _ => _ end).
  exists (rows ++ listing). split; [reflexivity|].
  rewrite <- (app_assoc rows). reflexivity.
Qed.

(** X20.  A chat whose [type] is not a string has no header and no
    document: [replace] is looked up on it and [AttributeError] is raised,
    before the messages are read. *)
Theorem chat_type_not_string (chat_data : obj) :
  is_str (get chat_data "type" (str "unknown")) = false ->
  generate_chat_header chat_data = Raise AttributeError /\
  convert_to_markdown chat_data = Raise AttributeError.
Proof.
  intros Htype.
  assert (generate_chat_header chat_data = Raise AttributeError) as H.
  { unfold generate_chat_header, generate_chat_header_lines, str in *.
    now destruct (get chat_data "type" (JStr (u "unknown"))). }
  split; [exact H|]. unfold convert_to_markdown. now rewrite H.
Qed.

(** X21.  A chat whose [messages] field is [None], a boolean or a number
    has no header and no document: [len] raises [TypeError]. *)
Theorem messages_without_length (chat_data : obj) (chat_type : pystr) :
  get chat_data "type" (str "unknown") = JStr chat_type ->
  match get chat_data "messages" (JList []) with
  | JNull | JBool _ | JInt _ | JFloat _ => True
  | _ => False
  end ->
  generate_chat_header chat_data = Raise TypeError /\
  convert_to_markdown chat_data = Raise TypeError.
Proof.
  intros Htype Hmessages.
  assert (generate_chat_header chat_data = Raise TypeError) as H.
  { unfold generate_chat_header, generate_chat_header_lines, str in *.
    rewrite Htype. cbn [call_replace]. rewrite bind_value.
    now destruct (get chat_data "messages" (JList [])). }
  split; [exact H|]. unfold convert_to_markdown. now rewrite H.
Qed.

Lemma collect_dates_not_dict (messages : list json) :
  existsb (fun m => negb (is_dict m)) messages = true ->
  collect_dates messages = Raise AttributeError.
Proof.
  induction messages as [|m messages IH]; [discriminate|].
  cbn [existsb collect_dates].
  destruct m; try reflexivity. cbn [is_dict negb orb as_dict].
  intros H. rewrite bind_value, (IH H). reflexivity.
Qed.

(** X22.  One entry of the message list that is not a mapping (a string, a
    number, [None], a list) makes the header, and so the document, fail with
    [AttributeError], wherever the entry stands. *)
Theorem message_not_mapping
    (chat_data : obj) (chat_type : pystr) (messages : list json) :
  get chat_data "type" (str "unknown") = JStr chat_type ->
  get chat_data "messages" (JList []) = JList messages ->
  existsb (fun m => negb (is_dict m)) messages = true ->
  generate_chat_header chat_data = Raise AttributeError /\
  convert_to_markdown chat_data = Raise AttributeError.
Proof.
  intros Htype Hmessages Hentry.
  assert (generate_chat_header chat_data = Raise AttributeError) as H.
  { unfold generate_chat_header, generate_chat_header_lines, str in *.
    rewrite Htype, Hmessages. cbn [call_replace py_len py_iter].
    rewrite !bind_value, (collect_dates_not_dict _ Hentry).
    now destruct messages. }
  split; [exact H|]. unfold convert_to_markdown. now rewrite H.
Qed.

End Header.

(** ** Names of mixed types *)

Section Kinds.

(** A kind of values that [<] compares with each other. *)
Variable K : json -> Prop.
Hypothesis K_lt : forall a b, K a -> K b -> exists r, py_lt a b = Ok r.

Lemma insert_sorted_kind (x : json) (l : list json) :
  K x -> Forall K l ->
  exists s, insert_sorted x l = Ok s /\ Forall K s /\ s <> [].
Proof.
  intros Hx. induction 1 as [|y l Hy Hl IH].
  - exists [x]. repeat split; [now constructor | discriminate].
  - cbn [insert_sorted]. destruct (K_lt Hy Hx) as ([|] & ->);
      rewrite bind_value.
    + destruct IH as (s & -> & Hs & _). rewrite bind_value.
      exists (y :: s). repeat split; [now constructor | discriminate].
    + exists (x :: y :: l).
      repeat split; [now repeat constructor | discriminate].
Qed.

Lemma py_sorted_kind (l : list json) :
  Forall K l ->
  exists s, py_sorted l = Ok s /\ Forall K s /\ (l <> [] -> s <> []).
Proof.
  induction 1 as [|x l Hx Hl IH].
  - exists []. repeat split; [constructor | congruence].
  - cbn [py_sorted]. destruct IH as (s' & -> & Hs' & _).
    rewrite bind_value.
    destruct (insert_sorted_kind Hx Hs') as (s & -> & Hs & Hne).
    now exists s.
Qed.

End Kinds.


Lemma strings_compare (a b : json) :
  is_str a = true -> is_str b = true -> exists r, py_lt a b = Ok r.
Proof. destruct a, b; try discriminate. intros _ _. now eexists. Qed.

Lemma numbers_compare (a b : json) :
  is_number a = true -> is_number b = true -> exists r, py_lt a b = Ok r.
Proof.
  destruct a; try discriminate; destruct b; try discriminate; intros _ _;
    simpl; now eexists.
Qed.

Lemma string_number_compare (a b : json) :
  is_str a = true -> is_number b = true ->
  py_lt a b = Raise TypeError /\ py_lt b a = Raise TypeError.
Proof.
  destruct a; try discriminate; destruct b; try discriminate; now split.
Qed.

(** [sorted] on strings and numbers: it compares a string with a number as
    soon as the list has both. *)
Lemma py_sorted_mixed (l : list json) :
  Forall (fun x => is_str x = true \/ is_number x = true) l ->
  (Forall (fun x => is_str x = true) l /\
   exists s, py_sorted l = Ok s /\ Forall (fun x => is_str x = true) s /\
             (l <> [] -> s <> [])) \/
  (Forall (fun x => is_number x = true) l /\
   exists s, py_sorted l = Ok s /\
             Forall (fun x => is_number x = true) s /\
             (l <> [] -> s <> [])) \/
  py_sorted l = Raise TypeError.
Proof.
  induction 1 as [|x l Hx Hl IH].
  - left. split; [constructor|]. exists []. repeat split; [constructor|].
    congruence.
  - cbn [py_sorted].
    destruct IH as [(Hall & s' & Hsorted & Hs' & Hne)|
                    [(Hall & s' & Hsorted & Hs' & Hne)|Hraise]];
      [| |right; right; now rewrite Hraise]; rewrite Hsorted, bind_value.
    + destruct Hx as [Hx|Hx].
      * left. split; [now constructor|].
        destruct (@insert_sorted_kind _ strings_compare _ _ Hx Hs')
          as (s & -> & Hs & Hne').
        now exists s.
      * destruct s' as [|y s'].
        -- destruct l as [|z l]; [|now destruct Hne].
           right; left. split; [now repeat constructor|].
           exists [x]. repeat split; [now repeat constructor|discriminate].
        -- right; right. cbn [insert_sorted]. inversion Hs'; subst.
           now destruct (@string_number_compare y x) as [-> _].
    + destruct Hx as [Hx|Hx].
      * destruct s' as [|y s'].
        -- destruct l as [|z l]; [|now destruct Hne].
           left. split; [now repeat constructor|].
           exists [x]. repeat split; [now repeat constructor|discriminate].
        -- right; right. cbn [insert_sorted]. inversion Hs'; subst.
           now destruct (@string_number_compare x y) as [_ ->].
      * right; left. split; [now constructor|].
        destruct (@insert_sorted_kind _ numbers_compare _ _ Hx Hs')
          as (s & -> & Hs & Hne').
        now exists s.
Qed.

Section Names.
Context {rt : Runtime}.

Lemma date_rows_strings (ds : list pystr) :
  returns (date_rows (map JStr ds)).
Proof.
  destruct ds as [|d ds]; [apply returns_ok|].
  cbn [map date_rows py_min py_max].
  destruct (min_from_strings ds d) as (lo & -> & _).
  destruct (max_from_strings ds d) as (hi & -> & _).
  repeat (rewrite ?bind_value, ?format_timestamp_value).
  apply returns_ok.
Qed.

Lemma collect_participants_unhashable (messages : list obj) :
  Exists (fun v => hashable v = false) (named messages) ->
  forall acc,
    collect_participants acc (map JObj messages) = Raise TypeError.
Proof.
  unfold named.
  induction messages as [|m messages IH]; intros Hbad acc;
    [inversion Hbad|].
  cbn [map filter collect_participants as_dict] in *.
  rewrite bind_value. fold (sender_or_actor m).
  destruct (truthy (sender_or_actor m)); [|now apply IH].
  unfold set_add.
  destruct (hashable (sender_or_actor m)) eqn:Hh; [|reflexivity].
  rewrite bind_value. apply IH.
  inversion Hbad; [congruence | assumption].
Qed.

Lemma collect_participants_hashable (messages : list obj) :
  Forall (fun v => hashable v = true) (named messages) ->
  forall acc,
    exists participants,
      collect_participants acc (map JObj messages) = Ok participants /\
      (forall x, In x acc -> In x participants) /\
      (forall x, In x participants -> In x acc \/ In x (named messages)) /\
      (forall n, In n (named messages) ->
                 exists p, In p participants /\ key_eq n p = true).
Proof.
  unfold named.
  induction messages as [|m messages IH]; intros Hall acc.
  - exists acc. repeat split; try tauto. intros n [].
  - cbn [map filter collect_participants as_dict] in *.
    rewrite bind_value. fold (sender_or_actor m).
    destruct (truthy (sender_or_actor m)).
    + inversion Hall as [|? ? Hh Hall']; subst.
      unfold set_add. rewrite Hh, bind_value.
      set (acc' := if existsb _ acc then acc else acc ++ [sender_or_actor m]).
      destruct (IH Hall' acc') as (P & HP & Hacc & Hfrom & Hnames).
      assert (forall x, In x acc -> In x acc') as Hsub.
      { intros x Hx. unfold acc'. destruct (existsb _ acc); [exact Hx|].
        apply in_or_app. now left. }
      exists P. split; [exact HP|]. repeat split.
      * intros x Hx. now apply Hacc, Hsub.
      * intros x Hx. destruct (Hfrom x Hx) as [H|H]; [|right; now right].
        unfold acc' in H. destruct (existsb _ acc); [now left|].
        apply in_app_or in H as [H|[<-|[]]]; [now left | right; now left].
      * intros n [<-|Hn]; [|now apply Hnames].
        unfold acc' in Hacc.
        destruct (existsb _ acc) eqn:E.
        -- apply existsb_exists in E as (a & Ha & Hkey).
           exists a. split; [now apply Hacc | exact Hkey].
        -- exists (sender_or_actor m). split; [|now apply key_eq_refl].
           apply Hacc, in_or_app. right. now left.
    + rewrite bind_value. now apply IH.
Qed.

Lemma truthy_hashable_kind (v : json) :
  truthy v = true -> hashable v = true ->
  is_str v = true \/ is_number v = true.
Proof. destruct v; try discriminate; intros _ _; tauto. Qed.

Lemma key_eq_kind (n p : json) :
  key_eq n p = true -> is_str p = is_str n /\ is_number p = is_number n.
Proof. destruct n, p; try discriminate; now split. Qed.

Lemma participants_mixed (messages : list obj) :
  Exists (fun v => is_str v = true) (named messages) ->
  Exists (fun v => is_str v = false) (named messages) ->
  (participants <- collect_participants [] (map JObj messages) ;;
   py_sorted participants) = Raise TypeError.
Proof.
  intros Hstr Hother.
  destruct (Forall_Exists_dec (fun v => hashable v = true)
              (fun v => bool_dec (hashable v) true) (named messages))
    as [Hall|Hbad].
  - destruct (collect_participants_hashable messages Hall [])
      as (P & -> & _ & Hfrom & Hnames).
    rewrite bind_value.
    assert (forall x, In x P -> truthy x = true /\ hashable x = true)
      as Hgood.
    { intros x Hx. destruct (Hfrom x Hx) as [[]|Hx'].
      rewrite Forall_forall in Hall. split; [|now apply Hall].
      unfold named in Hx'. now apply filter_In in Hx'. }
    apply Exists_exists in Hstr as (s & Hs & Hs_str).
    apply Exists_exists in Hother as (n & Hn & Hn_str).
    destruct (Hnames s Hs) as (ps & Hps & Hkey_s).
    destruct (Hnames n Hn) as (pn & Hpn & Hkey_n).
    apply key_eq_kind in Hkey_s as [Hps_str _].
    apply key_eq_kind in Hkey_n as [Hpn_str _].
    rewrite Hs_str in Hps_str. rewrite Hn_str in Hpn_str.
    destruct (@py_sorted_mixed P) as [(Hall_str & _)|[(Hall_num & _)|H]].
    + apply Forall_forall. intros x Hx.
      destruct (Hgood x Hx). now apply truthy_hashable_kind.
    + rewrite Forall_forall in Hall_str. rewrite (Hall_str pn Hpn) in Hpn_str.
      discriminate.
    + rewrite Forall_forall in Hall_num. specialize (Hall_num ps Hps).
      destruct ps; discriminate.
    + exact H.
  - rewrite collect_participants_unhashable; [reflexivity|].
    eapply Exists_impl; [|exact Hbad]. intros v Hv. cbv beta in Hv.
    now destruct (hashable v).
Qed.

(** X23.  When the truthy sender or actor values of the messages are some
    of them strings and some not (a name and a number, say), no header and
    no document is made: [TypeError] is raised, by [add] for a list or a
    mapping and by [sorted] otherwise. *)
Theorem mixed_sender_types
    (chat_data : obj) (messages : list obj) (chat_type : pystr)
    (ds : list pystr) :
  get chat_data "type" (str "unknown") = JStr chat_type ->
  get chat_data "messages" (JList []) = JList (map JObj messages) ->
  filter truthy (map (fun m => get m "date" JNull) messages) = map JStr ds ->
  Exists (fun v => is_str v = true)
    (filter truthy (map sender_or_actor messages)) ->
  Exists (fun v => is_str v = false)
    (filter truthy (map sender_or_actor messages)) ->
  generate_chat_header chat_data = Raise TypeError /\
  convert_to_markdown chat_data = Raise TypeError.
Proof.
  intros Htype Hmessages Hdates Hstr Hother.
  assert (generate_chat_header chat_data = Raise TypeError) as H.
  { unfold generate_chat_header.
    rewrite (header_lines_objs _ _ Hmessages), Htype.
    cbn [call_replace]. rewrite bind_value.
    fold (dated messages) in Hdates. rewrite Hdates.
    destruct (date_rows_strings ds) as (rows & ->). rewrite bind_value.
    pose proof (participants_mixed messages Hstr Hother) as Hraise.
    destruct (collect_participants [] (map JObj messages))
      as [participants|e]; rewrite ?bind_value in *.
    - now rewrite Hraise.
    - now injection Hraise as ->. }
  split; [exact H|]. unfold convert_to_markdown. now rewrite H.
Qed.

End Names.

(** ** When a conversion raises *)

Section Raising.
Context {rt : Runtime}.

Lemma date_rows_returns (dates : list json) :
  returns (date_rows dates) <-> dates_ok dates = true.
Proof.
  destruct dates as [|d dates];
    [split; [reflexivity | intros _; apply returns_ok]|].
  unfold date_rows, dates_ok. rewrite andb_true_iff, <- !returns_is_ok.
  split.
  - intros (rows & H). apply bind_ok in H as (lo & Hlo & H).
    rewrite format_timestamp_value, bind_value in H.
    apply bind_ok in H as (hi & Hhi & _).
    split; [now exists lo | now exists hi].
  - intros [(lo & ->) (hi & ->)].
    repeat (rewrite ?bind_value, ?format_timestamp_value). apply returns_ok.
Qed.

Lemma kind_hashable (v : json) :
  is_str v = true \/ is_number v = true -> hashable v = true.
Proof. destruct v; intros [H|H]; try discriminate; reflexivity. Qed.

Lemma participants_returns (messages : list obj) :
  returns (participants <- collect_participants [] (map JObj messages) ;;
           py_sorted participants) <->
  names_ok (named messages) = true.
Proof.
  unfold names_ok. rewrite orb_true_iff, !forallb_forall. split.
  - intros Hreturns.
    destruct (Forall_Exists_dec (fun v => hashable v = true)
                (fun v => bool_dec (hashable v) true) (named messages))
      as [Hall|Hbad].
    + destruct (collect_participants_hashable messages Hall [])
        as (P & HP & _ & Hfrom & Hnames).
      rewrite HP, bind_value in Hreturns.
      assert (Forall (fun x => is_str x = true \/ is_number x = true) P)
        as Hkinds.
      { apply Forall_forall. intros x Hx.
        destruct (Hfrom x Hx) as [[]|Hx'].
        rewrite Forall_forall in Hall.
        apply truthy_hashable_kind; [|now apply Hall].
        unfold named in Hx'. now apply filter_In in Hx'. }
      destruct (py_sorted_mixed Hkinds)
        as [(Hstr & _)|[(Hnum & _)|Hraise]].
      * left. intros n Hn. destruct (Hnames n Hn) as (p & Hp & Hkey).
        apply key_eq_kind in Hkey as [<- _].
        rewrite Forall_forall in Hstr. now apply Hstr.
      * right. intros n Hn. destruct (Hnames n Hn) as (p & Hp & Hkey).
        apply key_eq_kind in Hkey as [_ <-].
        rewrite Forall_forall in Hnum. now apply Hnum.
      * rewrite Hraise in Hreturns. now apply not_returns_raise in Hreturns.
    + rewrite collect_participants_unhashable in Hreturns.
      * now apply not_returns_raise in Hreturns.
      * eapply Exists_impl; [|exact Hbad]. intros v Hv. cbv beta in Hv.
        now destruct (hashable v).
  - intros Hkind.
    assert (Forall (fun v => hashable v = true) (named messages)) as Hall.
    { apply Forall_forall. intros v Hv. apply kind_hashable.
      destruct Hkind as [H|H]; [left | right]; now apply H. }
    destruct (collect_participants_hashable messages Hall [])
      as (P & HP & _ & Hfrom & _).
    rewrite HP, bind_value.
    assert (forall x, In x P -> In x (named messages)) as Hsub
      by (intros x Hx; now destruct (Hfrom x Hx) as [[]|]).
    destruct Hkind as [H|H].
    + destruct (@py_sorted_kind _ strings_compare P) as (s & -> & _).
      * apply Forall_forall. intros x Hx. now apply H, Hsub.
      * apply returns_ok.
    + destruct (@py_sorted_kind _ numbers_compare P) as (s & -> & _).
      * apply Forall_forall. intros x Hx. now apply H, Hsub.
      * apply returns_ok.
Qed.

Lemma header_returns_iff (chat_data : obj) (messages : list obj) :
  get chat_data "messages" (JList []) = JList (map JObj messages) ->
  returns (generate_chat_header chat_data) <->
  header_ok chat_data messages = true.
Proof.
  intros Hmessages. unfold generate_chat_header, header_ok.
  rewrite (header_lines_objs _ _ Hmessages).
  rewrite !andb_true_iff, <- date_rows_returns, <- participants_returns.
  destruct (get chat_data "type" (str "unknown")) as [| | | |chat_type| |];
    cbn [call_replace is_str bind];
    try (split; [intros H; now apply not_returns_raise in H
                | intros [[H _] _]; discriminate]).
  destruct (date_rows (dated messages)) as [rows|];
    [|split; [intros H; now apply not_returns_raise in H
             | intros [[_ H] _]; now apply not_returns_raise in H]].
  rewrite !bind_value.
  destruct (collect_participants [] (map JObj messages)) as [P|];
    [|split; [intros H; now apply not_returns_raise in H
             | intros [_ H]; now apply not_returns_raise in H]].
  rewrite !bind_value.
  destruct (py_sorted P) as [sorted|];
    [|split; [intros H; now apply not_returns_raise in H
             | intros [_ H]; now apply not_returns_raise in H]].
  rewrite !bind_value. split.
  - intros _. repeat split; apply returns_ok.
  - intros _. apply returns_ok.
Qed.

(** C1, amended.  For messages that are mappings, no missing field raises,
    and a field of an unexpected type raises in these cases only.  Rendering
    the block of a message: the action of a service message is a list or a
    mapping; the reply reference of a content message is a non-empty list or
    mapping; a mapping span of the text (of the message, or of the message
    its reply resolves to) has a text that is not a string and a kind that
    puts no markup around it; the location, contact or poll field the media
    tag is read from is not a mapping, or a contact's first or last name is
    not a string.  Building the index: an [id] is a list or a mapping.
    Making the header: the type of the chat is not a string; the truthy
    sender or actor values are neither all strings nor all numbers; [min] or
    [max] cannot order the truthy dates.  Any other field of an unexpected
    type is shown as [str] prints it. *)
Theorem format_message_returns :
  (forall (message : obj) (message_index : index),
      (exists out, format_message message message_index = Ok out) <->
      renderable message message_index = true) /\
  (forall messages : list obj,
      (exists message_index,
          build_message_index (JList (map JObj messages)) =
          Ok message_index) <->
      Forall (fun m => has_key "id" m = true ->
                       hashable (get m "id" JNull) = true) messages) /\
  (forall (chat_data : obj) (messages : list obj),
      get chat_data "messages" (JList []) = JList (map JObj messages) ->
      (exists header, generate_chat_header chat_data = Ok header) <->
      header_ok chat_data messages = true).
Proof.
  split; [|split].
  - intros message message_index.
    rewrite <- format_message_lines_returns. unfold format_message.
    change (exists out, ?r = Ok out) with (returns r).
    rewrite returns_bind. split.
    + intros (lines & H & _). now exists lines.
    + intros (lines & H). exists lines. split; [assumption | apply returns_ok].
  - intros messages. unfold build_message_index. cbn [py_iter].
    rewrite bind_value. split.
    + intros (message_index & H). exact (index_messages_hashable _ _ H).
    + intros Hids.
      destruct (index_messages_lookup Hids []) as (message_index & H & _).
      now exists message_index.
  - intros chat_data messages Hmessages.
    exact (header_returns_iff chat_data messages Hmessages).
Qed.

End Raising.

(** ** Documents *)

Section Documents.
Context {rt : Runtime}.

(** X24.  A chat without messages, the field missing or the list empty,
    is converted to its header alone: the ten lines of the details with a
    count of 0, no date rows, no participants, and the closing lines. *)
Theorem empty_archive (chat_data : obj) (chat_type : pystr) :
  get chat_data "type" (str "unknown") = JStr chat_type ->
  get chat_data "messages" (JList []) = JList [] ->
  exists header,
    header =
      join [NL]
        (details_lines chat_data (str_replace chat_type (u "_") (u " ")) 0 ++
         [[]; u "---"; []; u "## Messages"; []]) /\
    generate_chat_header chat_data = Ok header /\
    convert_to_markdown chat_data = Ok header.
Proof.
  intros Htype Hmessages. eexists. split; [reflexivity|].
  assert (generate_chat_header chat_data =
          Ok (join [NL]
                (details_lines chat_data
                   (str_replace chat_type (u "_") (u " ")) 0 ++
                 [[]; u "---"; []; u "## Messages"; []]))) as Hheader.
  { unfold generate_chat_header.
    rewrite (@header_lines_objs _ chat_data [] Hmessages), Htype.
    reflexivity. }
  split; [exact Hheader|].
  unfold convert_to_markdown. rewrite Hheader, Hmessages. reflexivity.
Qed.

Lemma format_messages_returns (messages : list obj) (message_index : index) :
  Forall (fun m => renderable m message_index = true) messages ->
  forall output_parts,
    returns (format_messages output_parts (map JObj messages) message_index).
Proof.
  induction 1 as [|m messages Hm _ IH]; intros output_parts.
  - apply returns_ok.
  - cbn [map format_messages as_dict]. rewrite bind_value.
    apply format_message_lines_returns in Hm as (lines & Hlines).
    unfold format_message. rewrite Hlines, !bind_value. apply IH.
Qed.

(** X25.  An archive is converted, without error, when its type is a string,
    its messages are mappings, their truthy dates and sender or actor names
    are strings, their identifiers, truthy reply references and service
    actions are no lists or mappings, the texts have a string in every span
    shown as it is, and the nested field of a location, contact or poll is a
    mapping (with strings for the names of a contact). *)
Theorem convert_to_markdown_returns
    (chat_data : obj) (messages : list obj) (chat_type : pystr)
    (ds names : list pystr) :
  get chat_data "type" (str "unknown") = JStr chat_type ->
  get chat_data "messages" (JList []) = JList (map JObj messages) ->
  filter truthy (map (fun m => get m "date" JNull) messages) = map JStr ds ->
  filter truthy (map sender_or_actor messages) = map JStr names ->
  Forall (fun m =>
            (has_key "id" m = true -> hashable (get m "id" JNull) = true) /\
            text_ok (get m "text" (JStr [])) = true /\
            (is_service m = true ->
             hashable (get m "action" (JStr [])) = true) /\
            (is_service m = false ->
             media_ok m = true /\
             (truthy (get m "reply_to_message_id" JNull) = true ->
              hashable (get m "reply_to_message_id" JNull) = true)))
         messages ->
  exists out, convert_to_markdown chat_data = Ok out.
Proof.
  intros Htype Hmessages Hdates Hnames Hfields.
  destruct (@header_returns _ chat_data messages chat_type ds names
              Hmessages Htype Hdates Hnames)
    as (lines & Hlines).
  assert (Forall (fun m => has_key "id" m = true ->
                           hashable (get m "id" JNull) = true) messages)
    as Hids by (eapply Forall_impl; [|exact Hfields]; now intros m [H _]).
  destruct (index_messages_lookup Hids []) as (message_index & Hindex & Hfind).
  assert (Forall (fun m => renderable m message_index = true) messages)
    as Hrender.
  { rewrite Forall_forall in *. intros m Hin.
    destruct (Hfields m Hin) as (_ & Htext & Hservice & Hcontent).
    unfold renderable. destruct (is_service m); [now apply Hservice|].
    destruct (Hcontent eq_refl) as [Hmedia Hreply].
    rewrite Htext, Hmedia, !andb_true_r. unfold reply_ok.
    destruct (truthy (get m "reply_to_message_id" JNull)); [|reflexivity].
    rewrite (Hreply eq_refl), Hfind. cbn [negb orb andb].
    destruct (find _ (rev messages)) as [original|] eqn:E; [|reflexivity].
    apply find_some in E as [Horiginal _]. apply in_rev in Horiginal.
    now destruct (Hfields original Horiginal) as (_ & H & _). }
  destruct (@format_messages_returns _ _ Hrender [join [NL] lines])
    as (output_parts & Hparts).
  exists (join [NL] output_parts).
  unfold convert_to_markdown, generate_chat_header, build_message_index.
  rewrite Hlines, Hmessages. cbn [py_iter app]. rewrite !bind_value.
  rewrite Hindex, !bind_value, Hparts. reflexivity.
Qed.

(** X26.  A message whose [id] is a list or a mapping stops the conversion
    with [TypeError] once the header is made, before any message is
    rendered. *)
Theorem unhashable_id_stops_conversion
    (chat_data : obj) (messages : list obj) (header : pystr) :
  generate_chat_header chat_data = Ok header ->
  get chat_data "messages" (JList []) = JList (map JObj messages) ->
  Exists (fun m => has_key "id" m = true /\
                   hashable (get m "id" JNull) = false) messages ->
  convert_to_markdown chat_data = Raise TypeError.
Proof.
  intros Hheader Hmessages Hbad.
  unfold convert_to_markdown, build_message_index.
  rewrite Hheader, Hmessages. cbn [py_iter]. rewrite !bind_value.
  now rewrite (@index_messages_unhashable _ Hbad).
Qed.

End Documents.

(** * Closed instances

    The theorems above at the example inputs, under [iso_runtime]. *)

#[local] Existing Instance iso_runtime.

(** The end-to-end scenarios A, B and D of the specification. *)

Example scenario_A :
  format_message_lines
    [ (u "id", JInt 1); (u "from", str "Alice");
      (u "date", str "2024-01-01T10:00:00"); (u "text", str "Hello") ] [] =
  Ok (map u ["### Alice"; "*2024-01-01 10:00:00* | Message #1"; ""; "Hello";
             ""; "---"; ""]%string).
Proof. reflexivity. Qed.

Example scenario_B :
  format_message_lines
    [ (u "type", str "service"); (u "action", str "create_group");
      (u "actor", str "Bob"); (u "date", str "2024-01-01T09:00:00") ] [] =
  Ok (map u ["> *Bob created the group*"; "> *2024-01-01 09:00:00*";
             ""]%string).
Proof. reflexivity. Qed.

Example scenario_D :
  format_message_lines [(u "id", JInt 4)] [] =
  Ok (map u ["### Unknown"; "** | Message #4"; ""; "*[Empty message]*"; "";
             "---"; ""]%string).
Proof. reflexivity. Qed.

(** C1 as stated fails: a reply reference that is a list makes the
    renderer raise. *)
Lemma list_reference_raises :
  @format_message iso_runtime list_reference [] = Raise TypeError /\
  @format_message iso_runtime list_reference small_index = Raise TypeError.
Proof. split; reflexivity. Qed.

(** A reply to an indexed message renders, the index of [small_chat] is
    built and its header is made. *)
Lemma format_message_returns_witness :
  (exists out, format_message bob_reply small_index = Ok out) /\
  (exists message_index,
      build_message_index (JList (map JObj [alice_hello; bob_reply])) =
      Ok message_index) /\
  (exists header, generate_chat_header small_chat = Ok header).
Proof.
  split; [|split].
  - apply (proj1 (format_message_returns (rt := iso_runtime))
             bob_reply small_index).
    vm_compute. reflexivity.
  - apply (proj1 (proj2 (format_message_returns (rt := iso_runtime)))
             [alice_hello; bob_reply]).
    repeat constructor.
  - apply (proj2 (proj2 (format_message_returns (rt := iso_runtime)))
             small_chat [alice_hello; bob_reply] eq_refl).
    vm_compute. reflexivity.
Defined.

(** C2 as stated fails: the reference 0 is a key of the index, and the
    block has no reply line. *)
Lemma falsy_reference_not_quoted :
  @build_message_index (JList [JObj message_zero; JObj reply_to_zero]) =
    Ok zero_index /\
  lookup (u "reply_to_message_id") reply_to_zero = Some (JInt 0) /\
  index_mem (JInt 0) zero_index = Ok true /\
  @format_message_lines iso_runtime reply_to_zero zero_index =
    Ok reply_to_zero_lines.
Proof. repeat split; reflexivity. Qed.

(** The reply of Bob to Alice: the reply line comes in after the heading. *)
Lemma reply_block_when_resolvable_witness :
  format_message_lines bob_reply small_index =
  Ok (firstn 3 bob_reply_lines ++
      [u "> **" ++ [REPLY_ARROW] ++ u " Reply to Alice:** Hello"; []] ++
      skipn 5 bob_reply_lines) /\
  exists rest,
    format_message (dict_remove "reply_to_message_id" bob_reply)
      small_index = Ok (heading_text bob_reply ++ rest) /\
    format_message bob_reply small_index =
    Ok (heading_text bob_reply ++
        (u "> **" ++ [REPLY_ARROW] ++ u " Reply to Alice:** Hello") ++
        [NL] ++ [NL] ++ rest).
Proof.
  apply (proj1 (proj2 (reply_block_when_resolvable (rt := iso_runtime)
                         bob_reply small_index (r := JInt 1)
                         eq_refl eq_refl))
           eq_refl alice_hello (u "Hello")
           (firstn 3 bob_reply_lines ++ skipn 5 bob_reply_lines)
           eq_refl eq_refl).
  vm_compute. reflexivity.
Defined.

(** A reply to a text of 150 characters quotes 100 of them and [...]. *)
Lemma reply_quote_truncation_witness :
  exists lines rest,
    format_message_lines bob_reply long_index = Ok lines /\
    format_message bob_reply long_index =
      Ok (heading_text bob_reply ++
          (u "> **" ++ [REPLY_ARROW] ++ u " Reply to Alice:** " ++
           repeat 97%N 100 ++ u "...") ++
          [NL] ++ [NL] ++ rest) /\
    nth_error lines 3 =
      Some (u "> **" ++ [REPLY_ARROW] ++ u " Reply to Alice:** " ++
            repeat 97%N 100 ++ u "...").
Proof.
  destruct (reply_quote_truncation (rt := iso_runtime)
              bob_reply long_index (r := JInt 1) (original := long_message)
              (t := long_text) (text := u "Hi") (media_info := [])
              eq_refl eq_refl eq_refl eq_refl eq_refl eq_refl eq_refl)
    as (lines & excerpt & rest & Hlines & Hblock & Hquote & Hlong & _).
  exists lines, rest. split; [exact Hlines|].
  destruct Hlong as [-> _]; [vm_compute; lia|].
  split; [exact Hblock | exact Hquote].
Defined.

(** The sticker with a photo field is tagged as a sticker. *)
Lemma get_message_type_info_precedence_witness :
  @get_message_type_info iso_runtime sticker_with_photo =
    Ok (u "[Sticker :)]") /\
  @get_message_type_info iso_runtime sticker_with_photo <> Ok (u "[Photo]").
Proof.
  exact (proj1 (proj2 (@get_message_type_info_precedence iso_runtime))
           sticker_with_photo eq_refl eq_refl).
Defined.





(** A string, a bold span and a number: the number renders to nothing. *)
Lemma extract_text_content_concat_witness :
  exists texts,
    Forall2 (fun item t => @span_text iso_runtime item = Ok t)
      rich_text texts /\
    u "a**b**" = List.concat texts.
Proof.
  apply (proj1 (proj1 (@extract_text_content_concat iso_runtime)
                  rich_text (u "a**b**"))).
  reflexivity.
Defined.

(** The document of [small_chat] is its header and two blocks. *)
Lemma convert_to_markdown_blocks_witness :
  exists out header message_index messages blocks,
    @generate_chat_header iso_runtime small_chat = Ok header /\
    build_message_index (get small_chat "messages" (JList [])) =
      Ok message_index /\
    py_iter (get small_chat "messages" (JList [])) = Ok messages /\
    Forall2 (fun message block =>
               exists m, message = JObj m /\
                         @format_message iso_runtime m message_index =
                           Ok block)
            messages blocks /\
    List.length blocks = List.length messages /\
    out = join [NL] (header :: blocks).
Proof.
  destruct (@convert_to_markdown iso_runtime small_chat) as [out|] eqn:E;
    [|vm_compute in E; discriminate].
  exists out.
  exact (proj1 (convert_to_markdown_blocks (rt := iso_runtime)
                  small_chat out) E).
Defined.

(** The reply of Dave to Carol: neither message has a [from] field. *)
Lemma sender_fallback_witness :
  format_message reply_to_actor actor_index =
    Ok (join [NL] reply_to_actor_lines) /\
  (exists lines rest,
      format_message_lines reply_to_actor actor_index = Ok lines /\
      nth_error lines 0 = Some (u "### " ++ u "Dave") /\
      join [NL] reply_to_actor_lines =
        (u "### " ++ u "Dave") ++ [NL] ++ rest) /\
  (exists lines excerpt rest,
      format_message_lines reply_to_actor actor_index = Ok lines /\
      nth_error lines 3 =
        Some (u "> **" ++ [REPLY_ARROW] ++ u " Reply to " ++ u "Carol" ++
              u ":** " ++ excerpt) /\
      join [NL] reply_to_actor_lines =
        heading_text reply_to_actor ++
        (u "> **" ++ [REPLY_ARROW] ++ u " Reply to " ++ u "Carol" ++
         u ":** " ++ excerpt) ++
        [NL] ++ [NL] ++ rest).
Proof.
  split; [reflexivity|]. split.
  - exact (proj1 (@sender_fallback iso_runtime) reply_to_actor actor_index
             (join [NL] reply_to_actor_lines) eq_refl eq_refl eq_refl).
  - exact (proj2 (@sender_fallback iso_runtime) reply_to_actor actor_index
             (join [NL] reply_to_actor_lines) (JInt 1) actor_only
             eq_refl eq_refl eq_refl eq_refl eq_refl eq_refl).
Defined.

(** ** The further properties at the example inputs *)

(** The index of the two messages of [small_chat]. *)
Lemma build_message_index_lookup_witness :
  exists message_index,
    build_message_index (JList (map JObj [alice_hello; bob_reply])) =
      Ok message_index /\
    forall k,
      index_find k message_index =
      find (fun m => has_key "id" m && key_eq k (get m "id" JNull))
           (rev [alice_hello; bob_reply]).
Proof.
  apply (build_message_index_lookup (messages := [alice_hello; bob_reply])).
  repeat constructor.
Defined.

Lemma build_message_index_resolves_witness :
  exists found,
    index_find (get alice_hello "id" JNull) small_index = Some found /\
    In found [alice_hello; bob_reply] /\ has_key "id" found = true /\
    key_eq (get alice_hello "id" JNull) (get found "id" JNull) = true.
Proof.
  apply (build_message_index_resolves [alice_hello; bob_reply]
           (message_index := small_index) alice_hello eq_refl).
  - simpl. tauto.
  - reflexivity.
Defined.

Lemma build_message_index_unhashable_witness :
  build_message_index (JList (map JObj [alice_hello; list_id])) =
  Raise TypeError.
Proof.
  apply (build_message_index_unhashable (messages := [alice_hello; list_id])).
  apply Exists_cons_tl, Exists_cons_hd. split; reflexivity.
Defined.

Lemma format_service_message_unknown_witness :
  format_service_message topic_created = Ok (u "*[topic_created]*").
Proof.
  apply (format_service_message_unknown (rt := iso_runtime) topic_created).
  - reflexivity.
  - intros code H. simpl in H.
    repeat (destruct H as [<-|H]; [reflexivity|]). destruct H.
Defined.

Lemma format_service_message_actor_witness :
  format_service_message ann_leaves =
  format_service_message ((u "actor", str "Ann") :: ann_leaves).
Proof.
  apply (format_service_message_actor (rt := iso_runtime) ann_leaves).
  reflexivity.
Defined.

Lemma service_block_layout_witness :
  exists sentence,
    format_service_message bob_creates = Ok (u "*" ++ sentence ++ u "*") /\
    u "> *Bob created the group*" ++ [NL] ++ u "> *2024-01-01 09:00:00*" ++
    [NL] =
    (u "> " ++ u "*" ++ sentence ++ u "*") ++ [NL] ++
    (u "> *" ++ py_str (timestamp_of (get bob_creates "date" (JStr []))) ++
     u "*") ++ [NL].
Proof.
  apply (service_block_layout (rt := iso_runtime) bob_creates []).
  - reflexivity.
  - vm_compute. reflexivity.
Defined.

Lemma format_message_index_use_witness :
  format_message alice_hello [] = format_message alice_hello small_index.
Proof.
  apply (format_message_index_use (rt := iso_runtime) alice_hello []
           small_index).
  intros _ H. discriminate H.
Defined.

Lemma service_block_fields_witness :
  format_message bob_creates [] =
  format_message bob_creates_with_text small_index.
Proof.
  apply (service_block_fields (rt := iso_runtime)
           bob_creates bob_creates_with_text [] small_index).
  - reflexivity.
  - reflexivity.
  - intros k H. simpl in H.
    repeat (destruct H as [<-|H]; [reflexivity|]). destruct H.
Defined.

Lemma content_block_frame_witness :
  exists middle,
    middle <> [] /\
    u "### Alice" ++ [NL] ++ u "*2024-01-01 10:00:00* | Message #1" ++ [NL] ++
    [NL] ++ u "Hello" ++ [NL] ++ [NL] ++ u "---" ++ [NL] =
    (u "### " ++ py_str (sender_of alice_hello)) ++ [NL] ++
    (u "*" ++ py_str (timestamp_of (get alice_hello "date" (JStr []))) ++
     u "* | Message #" ++ py_str (get alice_hello "id" (JStr []))) ++ [NL] ++
    [NL] ++ middle ++ [NL] ++ [NL] ++ u "---" ++ [NL].
Proof.
  apply (content_block_frame (rt := iso_runtime) alice_hello []).
  - reflexivity.
  - vm_compute. reflexivity.
Defined.

Lemma content_block_body_witness :
  exists text media_info before,
    extract_text_content (get forwarded_photo "text" (JStr [])) = Ok text /\
    get_message_type_info forwarded_photo = Ok media_info /\
    [ u "### Alice"; u "** | Message #4"; [];
      u "> **" ++ [FORWARD_ARROW] ++ u " Forwarded from Carol**"; [];
      [PAPERCLIP] ++ u " [Photo]"; []; u "Look"; []; u "---"; [] ] =
    before ++
    match media_info, text with
    | [], [] => [u "*[Empty message]*"]
    | [], _ :: _ => [text]
    | _ :: _, [] => [[PAPERCLIP] ++ u " " ++ media_info]
    | _ :: _, _ :: _ => [[PAPERCLIP] ++ u " " ++ media_info; []; text]
    end ++
    [[]; u "---"; []].
Proof.
  apply (content_block_body (rt := iso_runtime) forwarded_photo []).
  - reflexivity.
  - vm_compute. reflexivity.
Defined.

Lemma forwarded_block_witness :
  exists reply rest,
    reply_lines forwarded_photo [] = Ok reply /\
    [ u "### Alice"; u "** | Message #4"; [];
      [PAPERCLIP] ++ u " [Photo]"; []; u "Look"; []; u "---"; [] ] =
    heading_lines forwarded_photo ++ reply ++ rest /\
    format_message_lines forwarded_photo [] =
    Ok (heading_lines forwarded_photo ++ reply ++
        [u "> **" ++ [FORWARD_ARROW] ++ u " Forwarded from " ++
         py_str (str "Carol") ++ u "**"; []] ++
        rest).
Proof.
  apply (proj2 (forwarded_block (rt := iso_runtime) forwarded_photo []
                  (forwarded_from := str "Carol") eq_refl eq_refl)
           eq_refl).
  vm_compute. reflexivity.
Defined.

Lemma reply_quote_one_line_witness :
  exists excerpt rest,
    u "### Bob" ++ [NL] ++ u "** | Message #2" ++ [NL] ++ [NL] ++
    u "> **" ++ [REPLY_ARROW] ++ u " Reply to Alice:** one two" ++ [NL] ++
    [NL] ++ u "Hi" ++ [NL] ++ [NL] ++ u "---" ++ [NL] =
    heading_text early_reply ++
    (u "> **" ++ [REPLY_ARROW] ++ u " Reply to " ++
     py_str (sender_of two_lines) ++ u ":** " ++ excerpt) ++
    [NL] ++ [NL] ++ rest /\
    ~ In NL excerpt /\ (List.length excerpt <= 103)%nat.
Proof.
  apply (reply_quote_one_line (rt := iso_runtime) early_reply
           [(JInt 1, two_lines)] (original := two_lines)).
  - reflexivity.
  - reflexivity.
  - reflexivity.
  - vm_compute. reflexivity.
Defined.

Lemma reply_resolves_in_archive_witness :
  exists found excerpt rest,
    In found [early_reply; two_lines] /\
    key_eq (get found "id" JNull) (get two_lines "id" JNull) = true /\
    u "### Bob" ++ [NL] ++ u "** | Message #2" ++ [NL] ++ [NL] ++
    u "> **" ++ [REPLY_ARROW] ++ u " Reply to Alice:** one two" ++ [NL] ++
    [NL] ++ u "Hi" ++ [NL] ++ [NL] ++ u "---" ++ [NL] =
    heading_text early_reply ++
    (u "> **" ++ [REPLY_ARROW] ++ u " Reply to " ++
     py_str (sender_of found) ++ u ":** " ++ excerpt) ++
    [NL] ++ [NL] ++ rest.
Proof.
  apply (reply_resolves_in_archive (rt := iso_runtime)
           [early_reply; two_lines]
           (message_index := [(JInt 2, early_reply); (JInt 1, two_lines)])
           early_reply two_lines).
  - reflexivity.
  - simpl. tauto.
  - reflexivity.
  - reflexivity.
  - reflexivity.
  - reflexivity.
  - vm_compute. reflexivity.
Defined.

Lemma extract_text_content_keeps_witness :
  exists pre post,
    u "a**b**" =
    pre ++
    py_str (resolved_text (JObj [(u "type", str "bold"); (u "text", str "b")]))
    ++ post.
Proof.
  apply (extract_text_content_keeps (rt := iso_runtime) rich_text
           (JObj [(u "type", str "bold"); (u "text", str "b")])).
  - reflexivity.
  - simpl. tauto.
  - reflexivity.
Defined.

Lemma mention_at_sign_witness :
  exists text,
    get mention_bob "text" (JStr []) = JStr text /\
    startswith (u "@bob") (u "@") = true /\
    (startswith text (u "@") = true -> u "@bob" = text) /\
    (startswith text (u "@") = false -> u "@bob" = u "@" ++ text).
Proof.
  apply (mention_at_sign (rt := iso_runtime) mention_bob).
  - left. reflexivity.
  - reflexivity.
Defined.

Lemma extract_text_content_raises_witness :
  exists items,
    JList [str "a"; JObj mention_five] = JList items /\
    AttributeError =
    if existsb broken_mention items then AttributeError else TypeError.
Proof.
  apply (extract_text_content_raises (rt := iso_runtime)
           (JList [str "a"; JObj mention_five])).
  reflexivity.
Defined.

Lemma media_tag_bracketed_witness :
  (u "[Sticker :)]" = [] /\
   forall k, rule_matches sticker_with_photo k = false) \/
  (exists body, u "[Sticker :)]" = u "[" ++ body ++ u "]").
Proof.
  apply (media_tag_bracketed (rt := iso_runtime) sticker_with_photo).
  reflexivity.
Defined.

Lemma get_message_type_info_raises_witness :
  is_dict (get flat_location "location_information" (JObj [])) = false /\
  AttributeError = AttributeError.
Proof.
  apply (get_message_type_info_raises (rt := iso_runtime) flat_location).
  reflexivity.
Defined.

Lemma header_frame_witness :
  exists chat_type middle,
    get small_chat "type" (str "unknown") = JStr chat_type /\
    small_chat_header =
      [ u "# " ++ py_str (get small_chat "name" (str "Telegram Chat"));
        [];
        u "## Chat Details";
        [];
        u "| Property | Value |";
        u "|----------|-------|";
        u "| **Name** | " ++
          py_str (get small_chat "name" (str "Telegram Chat")) ++ u " |";
        u "| **Type** | " ++
          str_title (str_replace chat_type (u "_") (u " ")) ++ u " |";
        u "| **ID** | " ++ py_str (get small_chat "id" (JStr [])) ++ u " |";
        u "| **Total Messages** | " ++
          nat_to_str (List.length [alice_hello; bob_reply]) ++ u " |" ] ++
      middle ++
      [u "---"; []; u "## Messages"; []].
Proof.
  apply (header_frame (rt := iso_runtime) small_chat [alice_hello; bob_reply]).
  - reflexivity.
  - vm_compute. reflexivity.
Defined.

Lemma chat_type_not_string_witness :
  generate_chat_header untyped_chat = Raise AttributeError /\
  convert_to_markdown untyped_chat = Raise AttributeError.
Proof.
  apply (chat_type_not_string (rt := iso_runtime) untyped_chat). reflexivity.
Defined.

Lemma messages_without_length_witness :
  generate_chat_header null_messages_chat = Raise TypeError /\
  convert_to_markdown null_messages_chat = Raise TypeError.
Proof.
  apply (messages_without_length (rt := iso_runtime) null_messages_chat
           (chat_type := u "unknown")).
  - reflexivity.
  - exact I.
Defined.

Lemma message_not_mapping_witness :
  generate_chat_header flat_entry_chat = Raise AttributeError /\
  convert_to_markdown flat_entry_chat = Raise AttributeError.
Proof.
  apply (message_not_mapping (rt := iso_runtime) flat_entry_chat
           (chat_type := u "unknown")
           (messages := [JObj alice_hello; str "hello"])).
  - reflexivity.
  - reflexivity.
  - reflexivity.
Defined.

Lemma mixed_sender_types_witness :
  generate_chat_header mixed_senders_chat = Raise TypeError /\
  convert_to_markdown mixed_senders_chat = Raise TypeError.
Proof.
  apply (mixed_sender_types (rt := iso_runtime) mixed_senders_chat
           [ [(u "id", JInt 1); (u "from", str "Alice")];
             [(u "id", JInt 2); (u "from", JInt 7)] ]
           (chat_type := u "saved_messages") []).
  - reflexivity.
  - reflexivity.
  - reflexivity.
  - apply Exists_cons_hd. reflexivity.
  - apply Exists_cons_tl, Exists_cons_hd. reflexivity.
Defined.

Lemma empty_archive_witness :
  exists header,
    header =
      join [NL]
        (details_lines empty_chat
           (str_replace (u "saved_messages") (u "_") (u " ")) 0 ++
         [[]; u "---"; []; u "## Messages"; []]) /\
    generate_chat_header empty_chat = Ok header /\
    convert_to_markdown empty_chat = Ok header.
Proof.
  apply (empty_archive (rt := iso_runtime) empty_chat
           (chat_type := u "saved_messages")).
  - reflexivity.
  - reflexivity.
Defined.

Lemma convert_to_markdown_returns_witness :
  exists out, convert_to_markdown small_chat = Ok out.
Proof.
  apply (convert_to_markdown_returns (rt := iso_runtime) small_chat
           (messages := [alice_hello; bob_reply])
           (chat_type := u "private_group")
           [u "2024-01-01T10:00:00"; u "2024-01-01T10:05:00"]
           [u "Alice"; u "Bob"]).
  - reflexivity.
  - reflexivity.
  - reflexivity.
  - reflexivity.
  - repeat constructor; try reflexivity; discriminate.
Defined.

Lemma unhashable_id_stops_conversion_witness :
  convert_to_markdown list_id_chat = Raise TypeError.
Proof.
  apply (unhashable_id_stops_conversion (rt := iso_runtime) list_id_chat
           (messages := [list_id])
           (header := join [NL]
                        (map u ["# Notes"; ""; "## Chat Details"; "";
                                "| Property | Value |";
                                "|----------|-------|"; "| **Name** | Notes |";
                                "| **Type** | Unknown |"; "| **ID** |  |";
                                "| **Total Messages** | 1 |"; ""; "---"; "";
                                "## Messages"; ""]%string))).
  - vm_compute. reflexivity.
  - reflexivity.
  - apply Exists_cons_hd. split; reflexivity.
Defined.
